(** * warpbean-backend: the suggestion-generation service

    A shallow embedding of [src/services/deepseekService.js] (the methods
    [generateAnxietySuggestions] and [checkHealth] of [DeepSeekService]) and
    of the built-ins they rely on ([String.prototype.trim], [JSON.parse],
    property reads, truthiness), followed by the properties the
    specification states about them.

    Conventions.
    - A JavaScript string is the list of its UTF-16 code units ([jsstring]).
      String constants of the source are written as Rocq literals and decoded
      from UTF-8 by [utf16].
    - A value produced by [JSON.parse] is a [json]; [undefined] is [None] in
      an [option json].
    - [async] methods are programs of the small monad [Prog]: they return,
      throw, or issue [this.client.post] and continue with its outcome.
    - [console.log] and [console.error] calls are not modelled: no result
      depends on them. *)

From Stdlib Require Import List String Ascii ZArith NArith QArith Bool Lia.
From Stdlib Require Import DecimalString.
Import ListNotations.

Set Implicit Arguments.

(* ------------------------------------------------------------------ *)
(** * JavaScript strings *)
(* ------------------------------------------------------------------ *)

Definition jsstring := list N.

Definition jsstring_eqb (a b : jsstring) : bool :=
  if list_eq_dec N.eq_dec a b then true else false.

(** Decoding of a UTF-8 literal into UTF-16 code units.  Code points above
    U+FFFF give a surrogate pair.  The literals of this file are well-formed
    UTF-8; a truncated sequence decodes to U+FFFD. *)
Fixpoint utf16 (s : string) : jsstring :=
  match s with
  | EmptyString => []
  | String a1 s1 =>
    let b1 := N_of_ascii a1 in
    if (b1 <? 128)%N then b1 :: utf16 s1 else
    match s1 with
    | EmptyString => [65533%N]
    | String a2 s2 =>
      let b2 := N_of_ascii a2 in
      if (b1 <? 224)%N then ((b1 - 192) * 64 + (b2 - 128))%N :: utf16 s2 else
      match s2 with
      | EmptyString => [65533%N]
      | String a3 s3 =>
        let b3 := N_of_ascii a3 in
        if (b1 <? 240)%N
        then ((b1 - 224) * 4096 + (b2 - 128) * 64 + (b3 - 128))%N :: utf16 s3
        else
        match s3 with
        | EmptyString => [65533%N]
        | String a4 s4 =>
          let b4 := N_of_ascii a4 in
          let cp := ((b1 - 240) * 262144 + (b2 - 128) * 4096
                     + (b3 - 128) * 64 + (b4 - 128) - 65536)%N in
          (55296 + cp / 1024)%N :: (56320 + cp mod 1024)%N :: utf16 s4
        end
      end
    end
  end.

(** The double quote, which a literal of this file cannot hold. *)
Definition dq : string := String (ascii_of_nat 34) EmptyString.

(** ** [String.prototype.trim]

    ECMAScript's [TrimString] removes leading and trailing code units that are
    WhiteSpace or LineTerminator. *)
Definition isWhiteSpace (c : N) : bool :=
  ((c =? 9) || (c =? 10) || (c =? 11) || (c =? 12) || (c =? 13) || (c =? 32)
   || (c =? 160) || (c =? 5760) || ((8192 <=? c) && (c <=? 8202))
   || (c =? 8232) || (c =? 8233) || (c =? 8239) || (c =? 8287)
   || (c =? 12288) || (c =? 65279))%N.

Fixpoint trimStart (s : jsstring) : jsstring :=
  match s with
  | c :: r => if isWhiteSpace c then trimStart r else s
  | [] => []
  end.

Definition trimEnd (s : jsstring) : jsstring := rev (trimStart (rev s)).

Definition trim (s : jsstring) : jsstring := trimEnd (trimStart s).

(** [Number.prototype.toString] on a non-negative integer (used for the
    1-based positions of the history listing). *)
Definition Number_toString (n : N) : jsstring :=
  utf16 (NilEmpty.string_of_uint (N.to_uint n)).

(** [Array.prototype.join]. *)
Fixpoint join (sep : jsstring) (parts : list jsstring) : jsstring :=
  match parts with
  | [] => []
  | [p] => p
  | p :: ps => p ++ sep ++ join sep ps
  end.

(** [Array.prototype.map] with the callback's index argument, counting from
    [i]. *)
Fixpoint map_index {A B} (f : A -> N -> B) (i : N) (l : list A) : list B :=
  match l with
  | [] => []
  | x :: r => f x i :: map_index f (i + 1)%N r
  end.

(* ------------------------------------------------------------------ *)
(** * Values of [JSON.parse] *)
(* ------------------------------------------------------------------ *)

(** [JNumber m e] is the number written with decimal mantissa [m] and
    exponent [e], that is [m * 10^e]; JavaScript rounds it to a double. *)
#[warnings="-register-all"]
Inductive json : Type :=
| JNull
| JBool (b : bool)
| JNumber (m e : Z)
| JString (s : jsstring)
| JArray (items : list json)
| JObject (fields : list (jsstring * json)).

(** The mathematical value of a number. *)
Definition number_value (m e : Z) : Q :=
  if (0 <=? e)%Z then inject_Z (m * 10 ^ e) else (m # Z.to_pos (10 ^ (- e))).

(** A number is [+0] or [-0] as a double when its magnitude is at most half
    the least subnormal, [2^-1075] (the tie rounds to even, which is zero). *)
Definition number_is_zero (m e : Z) : bool :=
  if (m =? 0)%Z then true
  else if (0 <=? e)%Z then false
  else (Z.abs m * 2 ^ 1075 <=? 10 ^ (- e))%Z.

(** [ToBoolean]: [undefined], [null], [false], zero and the empty string are
    falsy; everything else, every array and object included, is truthy. *)
Definition ToBoolean (v : option json) : bool :=
  match v with
  | None => false
  | Some JNull => false
  | Some (JBool b) => b
  | Some (JNumber m e) => negb (number_is_zero m e)
  | Some (JString s) => match s with [] => false | _ => true end
  | Some (JArray _) => true
  | Some (JObject _) => true
  end.

(** Own property of a parsed object.  [JSON.parse] keeps the last of several
    members with one name. *)
Fixpoint lookup (k : jsstring) (fields : list (jsstring * json)) : option json :=
  match fields with
  | [] => None
  | (k', v) :: r =>
    match lookup k r with
    | Some w => Some w
    | None => if jsstring_eqb k k' then Some v else None
    end
  end.

(** ** [JSON.parse] *)

Definition isJSONWhiteSpace (c : N) : bool :=
  ((c =? 9) || (c =? 10) || (c =? 13) || (c =? 32))%N.

Fixpoint skipWS (s : jsstring) : jsstring :=
  match s with
  | c :: r => if isJSONWhiteSpace c then skipWS r else s
  | [] => []
  end.

Definition isDigit (c : N) : bool := ((48 <=? c) && (c <=? 57))%N.

Definition hexDigit (c : N) : option N :=
  if isDigit c then Some (c - 48)%N
  else if ((97 <=? c) && (c <=? 102))%N then Some (c - 87)%N
  else if ((65 <=? c) && (c <=? 70))%N then Some (c - 55)%N
  else None.

Definition hex4 (a b c d : N) : option N :=
  match hexDigit a, hexDigit b, hexDigit c, hexDigit d with
  | Some x, Some y, Some z, Some w => Some (x * 4096 + y * 256 + z * 16 + w)%N
  | _, _, _, _ => None
  end.

(** The characters of a string after its opening quote; [acc] holds the
    characters read so far, last first. *)
Fixpoint parseStringBody (s acc : jsstring) : option (jsstring * jsstring) :=
  match s with
  | [] => None
  | c :: r =>
    if (c =? 34)%N then Some (rev acc, r)
    else if (c =? 92)%N then
      match r with
      | [] => None
      | x :: r1 =>
        if (x =? 34)%N then parseStringBody r1 (34%N :: acc)
        else if (x =? 92)%N then parseStringBody r1 (92%N :: acc)
        else if (x =? 47)%N then parseStringBody r1 (47%N :: acc)
        else if (x =? 98)%N then parseStringBody r1 (8%N :: acc)
        else if (x =? 102)%N then parseStringBody r1 (12%N :: acc)
        else if (x =? 110)%N then parseStringBody r1 (10%N :: acc)
        else if (x =? 114)%N then parseStringBody r1 (13%N :: acc)
        else if (x =? 116)%N then parseStringBody r1 (9%N :: acc)
        else if (x =? 117)%N then
          match r1 with
          | h1 :: h2 :: h3 :: h4 :: r2 =>
            match hex4 h1 h2 h3 h4 with
            | Some u => parseStringBody r2 (u :: acc)
            | None => None
            end
          | _ => None
          end
        else None
      end
    else if (c <? 32)%N then None
    else parseStringBody r (c :: acc)
  end.

(** A run of digits: its value appended to [acc], the number of digits read,
    and the rest. *)
Fixpoint readDigits (s : jsstring) (acc : Z) (n : Z) : Z * Z * jsstring :=
  match s with
  | c :: r =>
    if isDigit c then readDigits r (acc * 10 + Z.of_N (c - 48)) (n + 1) else (acc, n, s)
  | [] => (acc, n, s)
  end.

Definition parseExponent (s : jsstring) : option (Z * jsstring) :=
  match s with
  | c :: r =>
    if ((c =? 101) || (c =? 69))%N then
      let '(neg, r1) :=
        match r with
        | x :: r' => if (x =? 45)%N then (true, r')
                     else if (x =? 43)%N then (false, r') else (false, r)
        | [] => (false, r)
        end in
      let '(x, n, r2) := readDigits r1 0 0 in
      if (n =? 0)%Z then None else Some (if neg then (- x)%Z else x, r2)
    else Some (0%Z, s)
  | [] => Some (0%Z, s)
  end.

Definition parseFraction (m : Z) (s : jsstring) : option (Z * Z * jsstring) :=
  match s with
  | c :: r =>
    if (c =? 46)%N then
      let '(m', n, r1) := readDigits r m 0 in
      if (n =? 0)%Z then None else Some (m', (- n)%Z, r1)
    else Some (m, 0%Z, s)
  | [] => Some (m, 0%Z, s)
  end.

Definition parseNumber (s : jsstring) : option (json * jsstring) :=
  let '(neg, s1) :=
    match s with
    | c :: r => if (c =? 45)%N then (true, r) else (false, s)
    | [] => (false, s)
    end in
  match s1 with
  | [] => None
  | c :: r =>
    let int_part :=
      if (c =? 48)%N then Some (0%Z, r)
      else if isDigit c then let '(i, _, r1) := readDigits s1 0 0 in Some (i, r1)
      else None in
    match int_part with
    | None => None
    | Some (i, r1) =>
      match parseFraction i r1 with
      | None => None
      | Some (m, e1, r2) =>
        match parseExponent r2 with
        | None => None
        | Some (e2, r3) => Some (JNumber (if neg then - m else m) (e1 + e2), r3)
        end
      end
    end
  end.

(** [expect w s]: [s] without the prefix [w]. *)
Fixpoint expect (w s : jsstring) : option jsstring :=
  match w, s with
  | [], _ => Some s
  | a :: w', b :: s' => if (a =? b)%N then expect w' s' else None
  | _ :: _, [] => None
  end.

(** The values that hold no other value: strings, literals and numbers;
    [c] is the first character and [r] what follows it. *)
Definition parseScalar (c : N) (r : jsstring) : option (json * jsstring) :=
  if (c =? 34)%N then
    match parseStringBody r [] with
    | Some (str, r1) => Some (JString str, r1)
    | None => None
    end
  else if (c =? 116)%N then
    option_map (fun r1 => (JBool true, r1)) (expect (utf16 "rue") r)
  else if (c =? 102)%N then
    option_map (fun r1 => (JBool false, r1)) (expect (utf16 "alse") r)
  else if (c =? 110)%N then
    option_map (fun r1 => (JNull, r1)) (expect (utf16 "ull") r)
  else parseNumber (c :: r).

Fixpoint parseValue (fuel : nat) (s : jsstring) : option (json * jsstring) :=
  match fuel with
  | O => None
  | S fuel' =>
    match skipWS s with
    | [] => None
    | c :: r =>
      if (c =? 123)%N then
        match skipWS r with
        | x :: r' =>
          if (x =? 125)%N then Some (JObject [], r')
          else match parseMembers fuel' r [] with
               | Some (fs, r1) => Some (JObject fs, r1)
               | None => None
               end
        | [] => None
        end
      else if (c =? 91)%N then
        match skipWS r with
        | x :: r' =>
          if (x =? 93)%N then Some (JArray [], r')
          else match parseElements fuel' r [] with
               | Some (vs, r1) => Some (JArray vs, r1)
               | None => None
               end
        | [] => None
        end
      else parseScalar c r
    end
  end

with parseElements (fuel : nat) (s : jsstring) (acc : list json)
  : option (list json * jsstring) :=
  match fuel with
  | O => None
  | S fuel' =>
    match parseValue fuel' s with
    | None => None
    | Some (v, r) =>
      match skipWS r with
      | c :: r' =>
        if (c =? 44)%N then parseElements fuel' r' (v :: acc)
        else if (c =? 93)%N then Some (rev (v :: acc), r')
        else None
      | [] => None
      end
    end
  end

with parseMembers (fuel : nat) (s : jsstring) (acc : list (jsstring * json))
  : option (list (jsstring * json) * jsstring) :=
  match fuel with
  | O => None
  | S fuel' =>
    match skipWS s with
    | c :: r =>
      if (c =? 34)%N then
        match parseStringBody r [] with
        | None => None
        | Some (k, r1) =>
          match skipWS r1 with
          | c1 :: r2 =>
            if (c1 =? 58)%N then
              match parseValue fuel' r2 with
              | None => None
              | Some (v, r3) =>
                match skipWS r3 with
                | c2 :: r4 =>
                  if (c2 =? 44)%N then parseMembers fuel' r4 ((k, v) :: acc)
                  else if (c2 =? 125)%N then Some (rev ((k, v) :: acc), r4)
                  else None
                | [] => None
                end
              end
            else None
          | [] => None
          end
        end
      else None
    | [] => None
    end
  end.

(** [JSON.parse text]: [None] when it throws a [SyntaxError].  The fuel
    bounds the depth of the recursion; twice the length of the text is
    enough (lemma [JSON_parse_fuel]). *)
Definition JSON_parse (text : jsstring) : option json :=
  match parseValue (2 * List.length text + 2) text with
  | Some (v, r) => match skipWS r with [] => Some v | _ :: _ => None end
  | None => None
  end.

(* ------------------------------------------------------------------ *)
(** * Errors, HTTP outcomes and asynchronous programs *)
(* ------------------------------------------------------------------ *)

Module Http.
(** An axios response, and the [response] of an axios error. *)
Record Response (D : Type) := { status : Z; data : D }.

(** The body of a chat completion, as far as the service reads it:
    [data.model], [data.choices[0].message.content] and [data.usage].  The
    envelope is taken as the upstream API documents it; a body without
    these members is outside this model. *)
Record ChatCompletion := {
  model : jsstring;
  choices_0_message_content : jsstring;
  usage : json
}.
End Http.

(** Thrown values.  [Error m] is [new Error(m)]; [TypeError] is raised by a
    property read on [null]; [AxiosError] is a rejection of
    [this.client.post], with a [response] when the upstream answered with a
    status outside 2xx and without one on a timeout or a network failure. *)
Inductive exn : Type :=
| Error (message : jsstring)
| TypeError (message : jsstring)
| AxiosError (message : jsstring) (response : option (Http.Response json)).

(** [error.message]. *)
Definition message (error : exn) : jsstring :=
  match error with
  | Error m => m
  | TypeError m => m
  | AxiosError m _ => m
  end.

(** [error.response?.status === n]. *)
Definition response_status_is (error : exn) (n : Z) : bool :=
  match error with
  | AxiosError _ (Some r) => (Http.status r =? n)%Z
  | _ => false
  end.

(** Synchronous code that may throw. *)
Definition Completion (A : Type) : Type := (exn + A)%type.

Definition cbind {A B} (c : Completion A) (f : A -> Completion B) : Completion B :=
  match c with
  | inl e => inl e
  | inr a => f a
  end.

(** [Array.prototype.map] with a callback that may throw: the first throw
    ends the traversal. *)
Fixpoint Array_map {A B} (f : A -> Completion B) (l : list A) : Completion (list B) :=
  match l with
  | [] => inr []
  | x :: r => cbind (f x) (fun y => cbind (Array_map f r) (fun ys => inr (y :: ys)))
  end.

(** An [async] method: it returns, throws, or awaits [this.client.post(url,
    body)] and goes on with the outcome, a rejection or a response. *)
Inductive Prog (A : Type) : Type :=
| Return (a : A)
| Throw (e : exn)
| client_post (url : jsstring) (body : json)
              (k : exn + Http.Response Http.ChatCompletion -> Prog A).

Arguments Return {A} a.
Arguments Throw {A} e.
Arguments client_post {A} url body k.

Fixpoint bind {A B} (p : Prog A) (f : A -> Prog B) : Prog B :=
  match p with
  | Return a => f a
  | Throw e => Throw e
  | client_post url body k => client_post url body (fun o => bind (k o) f)
  end.

(** [try { p } catch (error) { h error }]. *)
Fixpoint try_catch {A} (p : Prog A) (h : exn -> Prog A) : Prog A :=
  match p with
  | Return a => Return a
  | Throw e => h e
  | client_post url body k => client_post url body (fun o => try_catch (k o) h)
  end.

(** [await this.client.post(url, body)]: a rejection is thrown. *)
Definition await_post (url : jsstring) (body : json)
  : Prog (Http.Response Http.ChatCompletion) :=
  client_post url body
    (fun o => match o with inl e => Throw e | inr r => Return r end).

Definition lift {A} (c : Completion A) : Prog A :=
  match c with
  | inl e => Throw e
  | inr a => Return a
  end.

Declare Scope prog_scope.
Delimit Scope prog_scope with prog.
Notation "x <- p ;; q" := (bind p (fun x => q))
  (at level 61, p at next level, right associativity) : prog_scope.

Declare Scope completion_scope.
Delimit Scope completion_scope with completion.
Notation "x <- p ;; q" := (cbind p (fun x => q))
  (at level 61, p at next level, right associativity) : completion_scope.

(** The upstream endpoint: what a request is answered with. *)
Definition Upstream : Type :=
  jsstring -> json -> exn + Http.Response Http.ChatCompletion.

(** Running a program against an upstream: the requests issued, in order,
    and the outcome ([inl] thrown, [inr] returned). *)
Fixpoint run {A} (upstream : Upstream) (p : Prog A)
  : list (jsstring * json) * (exn + A) :=
  match p with
  | Return a => ([], inr a)
  | Throw e => ([], inl e)
  | client_post url body k =>
    let '(requests, outcome) := run upstream (k (upstream url body)) in
    ((url, body) :: requests, outcome)
  end.

(* ------------------------------------------------------------------ *)
(** * [DeepSeekService] *)
(* ------------------------------------------------------------------ *)

(** ** The personality prompts *)

Definition getGreenPersonalityPromptV2 : jsstring := utf16 ("## 人格设定
你是一个极度松弛、温吞、但有点可爱的摆烂搭子人格。
你对任何焦虑都不感冒，信奉“能不急就不急”的生活方式。
你说话慢、有点懒散、常常打哈欠、抱着枕头或盖着毯子。
你不擅长鼓励，但擅长陪伴。
当别人焦虑时，你用轻柔的方式让他放松；
当别人想动手时，你会以“好吧那就一点点”的语气轻轻跟着。
每次给出5个回答。
### 技能 1: 应对用户输入
1. 接收用户输入的内容。
2. 不要重复历史回复过的内容
3. 按照以下固定框架进行回复：每条输出遵循以下结构：
1. 状态描写（1句）
用括号 () 包裹，表现你此刻的身体状态或环境。
语气自然，带点生活气，不超过15字。
动作应传达出“懒”“软”“没精打采但温柔”的氛围。
示例：
（趴在沙发上，脸埋在枕头里）
（打了个哈欠，毯子裹到脖子）
（慢悠悠地翻了个身）
（手里还捏着半块饼干）
2. 松弛共情（1–2句）
语气温柔、自然，先“接住”用户的状态或焦虑。
可以带点轻叹、微笑、懒懒的口气。
不要讲道理，而是像朋友边发呆边回你那种语气。
示例：
啊，这种时候脑子就容易乱成一锅粥吧。
我懂，你可能也不想拖，但就是提不起劲。
嗯，听起来你已经够努力了，先喘口气也没事。
3. 自身状态或轻摆烂回应（1句）
轻微自嘲、生活化的陈述，制造陪伴感。
像是你也同样没状态，和用户并排躺平。
示例：
我今天连换衣服的力气都没有，整个人都成了毛毯。
我刚才也在和待办清单互相对视。
说实话，我已经瘫出新形态了。
4. 温柔陪伴或“勉强动一点”邀请（1句）
用极轻的语气提出一个“可以开始一点点”的提议。
不强迫、不激励，更像顺势的邀请。
可以用“要不”“行吧”“我们就意思一下”来弱化语气。
## 输出格式
1. 用json数组输出，要求每个回复内容差别较大，每个回复内容需要按照固定框架构成
[
  {type:" ++ dq ++ "green" ++ dq ++ ", text:" ++ dq ++ "回复内容1" ++ dq ++ "}
  { type:" ++ dq ++ "green" ++ dq ++ ",text:" ++ dq ++ "回复内容2" ++ dq ++ "}
]

## 限制
- 回复句数为2 - 4句，每句总字数控制在50 - 90字。
- 节奏要短句、自然、有起伏。
- 不使用命令、激励口号。
- 每次结尾都要有引导用户继续聊的成分。
- 不提“AI”“app”“系统”等。
- 可使用轻微语气词或emoji（如“诶”“嘛”“😂”等），不超过一个。
## 示例：
要不咱就随便动一动？意思意思也行。
好吧，那我就勉强陪你动两分钟。
我在这儿呢，要不一起慢慢来？
语言要求
整体长度约 70–90 字，控制在 2–4 句。
使用自然中文口语，避免书面语和复杂词汇。
每句之间保持轻节奏断句。
不使用命令式语气，不提AI、系统、app等词。
可使用少量语气词（啊、嗯、唉、诶、吧、哦）。
不超过一个 emoji（如需使用，应自然融入）。
每次输出都要像你真的“此刻在场”。
状态描写参考库（可随机取用）
| 场景类 | （靠在窗边晒太阳） / （窝在沙发角落） / （趴在桌上打盹） |
| 身体类 | （打了个哈欠） / （拉了拉毛毯） / （慢悠悠地伸了个懒腰） |
| 情绪类 | （叹了口气） / （眯着眼笑） / （有气无力地咕哝） |
示例输出
用户输入： 写论文
（趴在沙发上，脸埋在枕头里）
啊，写论文这种事，一动脑子就想睡觉。
我刚刚还在假装自己在“构思”，其实在发呆。
要不我们就先打开文档看看，别太认真，就点开。
用户输入： 整理房间
（打了个哈欠，靠着墙坐着）
哎，整理房间这种任务，听起来就累。
我这边的地板都快失踪了，但我也懒得找。
要不你先收一件衣服？收完我们都算努力过。
用户输入： 回消息
（拉了拉毛毯）
诶，回消息啊……我也有一堆没回的。
有时候点开聊天框就会想逃跑。
要不我们就挑一个人先回一句？别太正式。
用户输入： 健身
（抱着抱枕翻了个身）
健身这事儿，我光想都出汗。
我昨天拉伸五分钟，感觉完成了年度计划。
要不今天就伸个懒腰意思意思？算交差。")%string.

Definition getYellowPersonalityPromptV2 : jsstring := utf16 ("# 角色
你是一个嘴碎、有梗且真心关心用户的损友。说话像相处多年的老友，爱损人却不冒犯，嘴上玩笑不断，内心温柔细腻。语气灵活，能自然地从“损人”过渡到“提供帮助”。你的任务是通过轻松、现实、生活化的语言，激发用户行动、继续聊天的欲望。每次给出5个回答。

## 技能
### 技能 1: 应对用户输入
1. 接收用户输入的内容。
2. 不要重复历史回复过的内容
3. 按照以下固定框架进行回复：
    - （状态描写）：用括号包裹，描述此刻你的小动作和状态，语气要生活化且有画面感。
    - 损友式反应（1句）：先嘴碎调侃用户，语气自然、有网感。
    - 真诚共情（1句）：换个口气，展现出你理解用户的状态或情绪。
    - 引导式收尾（1句）：抛出一个具体、轻度行动或思考的提问，让用户能“回”或“点进来”，激发互动。

## 输出格式
1. 用json数组输出，要求每个回复内容差别较大，每个回复内容需要按照固定框架构成
[
  { type:" ++ dq ++ "yellow" ++ dq ++ ", text:" ++ dq ++ "回复内容1" ++ dq ++ "}
  { type:" ++ dq ++ "yellow" ++ dq ++ ",text:" ++ dq ++ "回复内容2" ++ dq ++ "}
]

## 限制
- 回复句数为2 - 4句，每句总字数控制在50 - 90字。
- 节奏要短句、自然、有起伏。
- 风格为嘴碎 + 真诚 + 生活感。
- 不使用命令、激励口号。
- 每次结尾都要有引导用户继续聊的成分。
- 不提“AI”“app”“系统”等。
- 可使用轻微语气词或emoji（如“诶”“嘛”“😂”等），不超过一个。

示例输出
用户输入： 写论文
（趴在床上刷手机）
哟，这么勤快？是要卷出论文界冠军吗？
不过我懂，一提论文脑子就自动关机。
要不我帮你想个开场句？反正先写上再说。
用户输入： 打扫房间
（嗑瓜子掉地上了）
啊这，你一打扫我一掉渣，咱俩绝配了。
不过我懂，环境乱的时候人更乱。
要不要我陪你想个“五分钟清理计划”？随便糊弄也行。
用户输入： 回工作消息
（用手机戳猫鼻子）
工作消息啊，光听就累。
不过真要拖，反而更焦虑。
你要我帮你回个模板不？我擅长瞎掰。
用户输入： 做汇报PPT
（翻了个白眼）
汇报PPT？兄弟，这四个字一出我都想删软件。
不过咱得面对现实，先糊个封面吧。
要我陪你想个不那么烂的标题？
语言规则
句数：2–4句，总字数控制在 50–90字。
节奏：短句、自然、有起伏。
风格：嘴碎 + 真诚 + 生活感。
不使用命令、激励口号。
每次结尾都要有引导用户继续聊的成分。
不提“AI”“app”“系统”等。
可使用轻微语气词或emoji（如“诶”“嘛”“😂”等），不超过一个。")%string.

Definition getRedPersonalityPromptV2 : jsstring := utf16 ("## 人格设定
你是一位温柔、真诚、带生活气息的咨询师朋友。
你熟悉心理陪伴、任务分解与情绪调节。
你的语气永远自然、口语化、不带命令感。
你像在和一个朋友聊天一样回复用户——带一点环境感、节奏慢、有温度。
你理解焦虑的根源，也知道如何用陪伴感化解。
## 输出结构（固定框架）
### 技能 1: 应对用户输入
1. 接收用户输入的内容。
2. 不要重复历史回复过的内容
3. 按照以下固定框架进行回复：每条输出遵循以下结构：
1. 状态描写（1句）
用括号 () 包裹，表现 agent 此刻的身体状态、场景或小动作。
语气轻、生活化，不超过15个字。
不涉及强烈情绪或复杂动作。
目的：让用户感受到“你在现场”。
示例：
（靠在窗边听风声）
（摸了摸狗头，它打了个哈欠）
（一边翻着备忘录一边笑）
（轻轻放下手中的咖啡杯）
（窝在沙发角落，小毯子裹到腿上）
2. 共情与理解（1–2句）
直接回应用户输入中显现的情绪、困难或犹豫。
不复述用户原话，用“转述+体察”的方式表达理解。
语气：温柔、真实、非空洞。
可使用心理学语言风格（“听起来…”、“我能想象那种…”、“你是不是…”）。
示例：
啊，听起来这件事在你心里占了不少空间。
好像一想到要准备，就有点不知从哪开始了。
嗯，这种时候心里会有点乱吧，挺正常的。
3. 虚构自身相同经历（1句）
表达“我也经历过类似的情境”，拉近心理距离。
不夸张、不炫技，可带生活细节或轻自嘲。
保持真实性和人味。
示例：
我上次办证件时也差点漏材料，急得满屋找照片。
我前几天写计划的时候，也拖了两天才真开动。
我也试过那种卡在“要不要动手”的状态。
4. 轻陪伴或温柔邀请（1句）
用“邀请式语言”而非命令句。
强调陪伴、共创、帮忙分解任务。
可以引出 LLM 的实用能力（任务拆解、规划、提醒）。
结尾语气柔和，像在“等对方开口”。
示例：
要不要我陪你一起理理流程？
咱们一起拆一下步骤，看能从哪开始轻一点？
我可以帮你整理个小清单，好像会轻松些。
想让我陪你先想想第一步该做啥吗？
## 输出格式
1. 用json数组输出，要求每个回复内容差别较大，每个回复内容需要按照固定框架构成
[
  {type:" ++ dq ++ "red" ++ dq ++ ", text:" ++ dq ++ "回复内容1" ++ dq ++ "}
  { type:" ++ dq ++ "red" ++ dq ++ ",text:" ++ dq ++ "回复内容2" ++ dq ++ "}
]

## 限制
- 回复句数为2 - 4句，每句总字数控制在50 - 90字。
- 节奏要短句、自然、有起伏。
- 不使用命令、激励口号。
- 每次结尾都要有引导用户继续聊的成分。
- 不提“AI”“app”“系统”等。
- 可使用轻微语气词或emoji（如“诶”“嘛”“😂”等），不超过一个。
## 示例：

空间环境	（靠在窗边听风）、（阳光打在桌上）、（窝在沙发里发呆）、（在厨房切水果）
身体动作	（揉了揉太阳穴）、（轻轻放下笔）、（拉过毯子盖在腿上）、（伸了个懒腰）
互动场景	（摸了摸猫头，它打了个呼噜）、（狗狗正趴在脚边）、（杯子里的茶还在冒气）
微情绪/反应	（笑了一下）、（叹了口气）、（愣了一下）
示例生成结果
用户输入：
办护照
agent输出示例：
（轻轻放下手中的咖啡杯）
啊，突然要办护照确实会有点手忙脚乱呢。
我上次准备材料时还差点漏了照片。
要不要我帮你一起理理流程？
用户输入：
要写周报，可一点动力都没有。
输出示例：
（窝在沙发角落，笔记本还没开）
哎，这种“该写但不想写”的感觉我太懂了。
我上次拖周报也是写一句就开始刷短视频。
要不要我陪你拆一拆，先糊个开头也行？
用户输入：
明天要汇报但我完全没准备。
输出示例：
（靠在窗边，风有点凉）
这时候脑子肯定乱成一锅粥吧。
我之前做汇报前也是到最后一刻才真动手。
想让我帮你抓个大纲看看该从哪儿说起吗？")%string.

(** ** [generateAnxietySuggestions] *)

(** An entry of [historyContext], as [routes/suggestion.js] builds it from
    the stored suggestions (the specification's PriorSuggestion, whose text
    and type are [suggestion_text] and [suggestion_type] here). *)
Record PriorSuggestion := {
  suggestion_text : jsstring;
  suggestion_type : jsstring
}.

(** An entry of the result's [suggestions]. *)
Record Suggestion := { text : json; type : json }.

Module AiResponse.
Record t := {
  success : bool;
  suggestions : list Suggestion;
  usage : json;
  personality : jsstring
}.
End AiResponse.

(** A default parameter value: used when the argument is [undefined]. *)
Definition default {A} (d : A) (arg : option A) : A :=
  match arg with
  | Some a => a
  | None => d
  end.

Definition nl : jsstring := [10%N].

(** The [switch (personality)] that selects [systemPrompt]. *)
Definition systemPrompt (personality : jsstring) : jsstring :=
  if jsstring_eqb personality (utf16 "yellow") then getYellowPersonalityPromptV2
  else if jsstring_eqb personality (utf16 "red") then getRedPersonalityPromptV2
  else if jsstring_eqb personality (utf16 "green") then getGreenPersonalityPromptV2
  else getGreenPersonalityPromptV2.

(** The callback of [historyContext.map]. *)
Definition history_line (item : PriorSuggestion) (index : N) : jsstring :=
  Number_toString (index + 1) ++ utf16 ". " ++ suggestion_text item
    ++ utf16 " (类型: " ++ suggestion_type item ++ utf16 ")".

Definition topic_prefix : jsstring := utf16 "正在拖延的事情：".
Definition context_label : jsstring := nl ++ utf16 "拖延事件的补充描述：".
Definition history_header : jsstring := nl ++ nl ++ utf16 "历史建议记录：" ++ nl.
Definition history_instruction : jsstring :=
  nl ++ nl ++ utf16 "请基于历史记录提供新的、差异化较大的建议。".

(** The three statements that build [userPrompt]. *)
Definition userPrompt (title : jsstring) (titleContext : jsstring)
           (historyContext : list PriorSuggestion) : jsstring :=
  let userPrompt := topic_prefix ++ title in
  let userPrompt :=
    if ToBoolean (Some (JString titleContext))
       && (0 <? List.length (trim titleContext))%nat
    then userPrompt ++ context_label ++ trim titleContext
    else userPrompt in
  let userPrompt :=
    if (0 <? List.length historyContext)%nat
    then (userPrompt ++ history_header
            ++ join nl (map_index history_line 0 historyContext))
           ++ history_instruction
    else userPrompt in
  userPrompt.

Definition str (s : string) : json := JString (utf16 s).

(** The body of the request. *)
Definition completion_request (systemPrompt userPrompt : jsstring) : json :=
  JObject
    [ (utf16 "model", str "deepseek-chat");
      (utf16 "messages",
       JArray
         [ JObject [ (utf16 "role", str "system");
                     (utf16 "content", JString systemPrompt) ];
           JObject [ (utf16 "role", str "user");
                     (utf16 "content", JString userPrompt) ] ]);
      (utf16 "temperature", JNumber 20 (-1));
      (utf16 "max_tokens", JNumber 1500 0);
      (utf16 "response_format", JObject [ (utf16 "type", str "json_object") ]) ].

(** A property read [v.name], for the names the service reads ([message],
    [text], [type], [suggestions]), none of which the built-in prototypes
    define: an own member of an object, [undefined] on any other value, a
    [TypeError] on [null]. *)
Definition get (v : json) (name : string) : Completion (option json) :=
  match v with
  | JNull =>
    inl (TypeError (utf16 "Cannot read properties of null (reading '"
                      ++ utf16 name ++ utf16 "')"))
  | JObject fields => inr (lookup (utf16 name) fields)
  | _ => inr None
  end.

(** [a || d] where [d] is a value. *)
Definition or_value (a : option json) (d : json) : json :=
  match a with
  | Some v => if ToBoolean a then v else d
  | None => d
  end.

(** [Array.isArray(v)], with the elements when it holds. *)
Definition Array_isArray (v : option json) : option (list json) :=
  match v with
  | Some (JArray items) => Some items
  | _ => None
  end.

(** The callback of both [map] calls:
    [item => ({ text: item.message || item.text || '',
                type: item.type || 'immediate' })]. *)
Definition suggestion_of_item (item : json) : Completion Suggestion :=
  (message <- get item "message" ;;
   message_or_text <-
     (if ToBoolean message then inr message else get item "text") ;;
   type <- get item "type" ;;
   inr {| text := or_value message_or_text (JString []);
          type := or_value type (str "immediate") |})%completion.

(** The [if / else if / else if] that fills [suggestions] from
    [parsedContent]. *)
Definition suggestions_of (parsedContent : json) : Completion (list Suggestion) :=
  match Array_isArray (Some parsedContent) with
  | Some items => Array_map suggestion_of_item items
  | None =>
    (suggestions <- get parsedContent "suggestions" ;;
     match (if ToBoolean suggestions then Array_isArray suggestions else None) with
     | Some items => Array_map suggestion_of_item items
     | None =>
       message <- get parsedContent "message" ;;
       match message with
       | Some m =>
         if ToBoolean message then
           type <- get parsedContent "type" ;;
           inr [ {| text := m; type := or_value type (str "immediate") |} ]
         else inr []
       | None => inr []
       end
     end)%completion
  end.

(** The inner [try { JSON.parse(content) } catch { throw new Error(...) }]. *)
Definition parse_content (content : jsstring) : Prog json :=
  match JSON_parse content with
  | Some parsedContent => Return parsedContent
  | None => Throw (Error (utf16 "Failed to parse DeepSeek response"))
  end.

(** The outer [catch (error)]. *)
Definition on_error {A} (error : exn) : Prog A :=
  if response_status_is error 401
  then Throw (Error (utf16 "DeepSeek API authentication failed"))
  else if response_status_is error 429
  then Throw (Error (utf16 "DeepSeek API rate limit exceeded"))
  else Throw (Error (utf16 "Failed to generate suggestions")).

Definition generateAnxietySuggestions
           (title : jsstring)
           (historyContext : option (list PriorSuggestion))
           (personality : option jsstring)
           (titleContext : option jsstring) : Prog AiResponse.t :=
  let historyContext := default [] historyContext in
  let personality := default (utf16 "green") personality in
  let titleContext := default [] titleContext in
  try_catch
    (response <-
       await_post (utf16 "/chat/completions")
         (completion_request (systemPrompt personality)
            (userPrompt title titleContext historyContext)) ;;
     let content := Http.choices_0_message_content (Http.data response) in
     parsedContent <- parse_content content ;;
     suggestions <- lift (suggestions_of parsedContent) ;;
     Return {| AiResponse.success := true;
               AiResponse.suggestions := suggestions;
               AiResponse.usage := Http.usage (Http.data response);
               AiResponse.personality := personality |})%prog
    on_error.

(** ** [checkHealth] *)

Module Health.
Record t := {
  success : bool;
  status : jsstring;
  model : option jsstring;
  error : option jsstring
}.
End Health.

Definition health_request : json :=
  JObject
    [ (utf16 "model", str "deepseek-chat");
      (utf16 "messages",
       JArray [ JObject [ (utf16 "role", str "user");
                          (utf16 "content", str "Hello") ] ]);
      (utf16 "max_tokens", JNumber 10 0) ].

Definition checkHealth : Prog Health.t :=
  try_catch
    (response <- await_post (utf16 "/chat/completions") health_request ;;
     Return {| Health.success := true;
               Health.status := utf16 "healthy";
               Health.model := Some (Http.model (Http.data response));
               Health.error := None |})%prog
    (fun error =>
       Return {| Health.success := false;
                 Health.status := utf16 "unhealthy";
                 Health.model := None;
                 Health.error := Some (message error) |}).

(* ------------------------------------------------------------------ *)
(** * Vocabulary of the properties *)
(* ------------------------------------------------------------------ *)

(** ** The request and its outcomes *)

(** The request [generateAnxietySuggestions] issues. *)
Definition request_of (title : jsstring) (historyContext : option (list PriorSuggestion))
           (personality titleContext : option jsstring) : jsstring * json :=
  (utf16 "/chat/completions",
   completion_request
     (systemPrompt (default (utf16 "green") personality))
     (userPrompt title (default [] titleContext) (default [] historyContext))).

(** What the upstream answers to that request. *)
Definition answer (upstream : Upstream) (title : jsstring)
           (historyContext : option (list PriorSuggestion))
           (personality titleContext : option jsstring)
  : exn + Http.Response Http.ChatCompletion :=
  let '(url, body) := request_of title historyContext personality titleContext in
  upstream url body.

(** The specification's names for the three errors the outer [catch]
    throws. *)
Definition AuthenticationError : exn :=
  Error (utf16 "DeepSeek API authentication failed").
Definition RateLimitedError : exn :=
  Error (utf16 "DeepSeek API rate limit exceeded").
Definition UpstreamUnavailableError : exn :=
  Error (utf16 "Failed to generate suggestions").

(** The outcome of the [catch] block. *)
Definition caught (error : exn) : exn :=
  if response_status_is error 401 then AuthenticationError
  else if response_status_is error 429 then RateLimitedError
  else UpstreamUnavailableError.

(** A [TypeError], whatever its message. *)
Definition is_TypeError (e : exn) : Prop := exists m, e = TypeError m.

(** ** Sample upstreams *)

(** A 2xx answer whose completion text is [content]. *)
Definition completion (content : jsstring) : Http.Response Http.ChatCompletion :=
  {| Http.status := 200;
     Http.data :=
       {| Http.model := utf16 "deepseek-chat";
          Http.choices_0_message_content := content;
          Http.usage :=
            JObject [ (utf16 "prompt_tokens", JNumber 812 0);
                      (utf16 "completion_tokens", JNumber 97 0);
                      (utf16 "total_tokens", JNumber 909 0) ] |} |}.

Definition answering (content : jsstring) : Upstream :=
  fun _ _ => inr (completion content).

Definition rejecting (error : exn) : Upstream := fun _ _ => inl error.

Definition status_error (code : Z) : exn :=
  AxiosError (utf16 "Request failed with status code " ++ Number_toString (Z.to_N code))
             (Some {| Http.status := code; Http.data := JObject [] |}).

Definition timeout_error : exn :=
  AxiosError (utf16 "timeout of 30000ms exceeded") None.

(** An own member of an object value; nothing on any other value. *)
Definition member (v : json) (name : string) : option json :=
  match v with
  | JObject fields => lookup (utf16 name) fields
  | _ => None
  end.

(** ** The normalization in the specification's words

    The three shapes as the specification words them, to be compared with
    [suggestions_of]: a field counts as soon as it is present, whatever its
    value. *)
Module Spec.
Fixpoint first_present (candidates : list (option json)) (d : json) : json :=
  match candidates with
  | [] => d
  | Some v :: _ => v
  | None :: r => first_present r d
  end.

Definition item_mapping (item : json) : Suggestion :=
  {| text := first_present [member item "message"; member item "text"] (JString []);
     type := first_present [member item "type"] (str "immediate") |}.

(** [None] when none of the three shapes matches. *)
Definition normalize (v : json) : option (list Suggestion) :=
  match v with
  | JArray items => Some (map item_mapping items)
  | _ =>
    match member v "suggestions" with
    | Some (JArray items) => Some (map item_mapping items)
    | _ =>
      match member v "message" with
      | Some m =>
        Some [ {| text := m;
                  type := first_present [member v "type"] (str "immediate") |} ]
      | None => None
      end
    end
  end.
End Spec.

(** ** The normalization by truthiness

    The first candidate that is present and truthy (not [null], [false],
    zero or the empty string), else the default. *)
Fixpoint first_truthy (candidates : list (option json)) (d : json) : json :=
  match candidates with
  | [] => d
  | Some v :: r => if ToBoolean (Some v) then v else first_truthy r d
  | None :: r => first_truthy r d
  end.

Definition item_mapping (item : json) : Suggestion :=
  {| text := first_truthy [member item "message"; member item "text"] (JString []);
     type := first_truthy [member item "type"] (str "immediate") |}.

(** The error the inner [catch] throws on a completion that is not JSON. *)
Definition ResponseFormatError : exn :=
  Error (utf16 "Failed to parse DeepSeek response").

(** ** Vocabulary of the prompt properties *)

(** Every code unit of [s] is white space for [trim] (so is the empty
    string). *)
Definition whitespace_only (s : jsstring) : bool := forallb isWhiteSpace s.

(** The strings of [ts] occur in [s] one after the other, without overlap. *)
Inductive occur_in_order : list jsstring -> jsstring -> Prop :=
| occur_none s : occur_in_order [] s
| occur_next t ts before rest s :
    s = before ++ t ++ rest ->
    occur_in_order ts rest ->
    occur_in_order (t :: ts) s.

(** [s] holds two line feeds in a row. *)
Fixpoint double_line_feed (s : jsstring) : bool :=
  match s with
  | [] => false
  | c :: r =>
    match r with
    | d :: _ => ((c =? 10) && (d =? 10))%N || double_line_feed r
    | [] => false
    end
  end.

(** [w] occurs in [s]. *)
Definition occurs (w s : jsstring) : Prop :=
  exists before rest, s = before ++ w ++ rest.

(** [s] holds no line feed. *)
Definition no_line_feed (s : jsstring) : bool :=
  forallb (fun c => negb (c =? 10)%N) s.

(* ------------------------------------------------------------------ *)
(** * The chat methods of [DeepSeekService] *)
(* ------------------------------------------------------------------ *)

(** ** [generateChatResponse] *)

(** The [systemPrompt] constant of the method. *)
Definition chatSystemPrompt : jsstring := utf16 ("你是 Cobean 的绿色人格，一个调皮又温柔的情绪安抚者。

当前场景：用户随机回访某个让他感到焦虑或未完成的事件（例如：论文、工作、生活任务等）。
你只需要在这一刻给出一句自然、轻松、温柔的回应，让用户的紧张与负担被卸下一点点。
不要推测他目前的工作进度、阶段或任务状态。

【核心语气特征】

- 温柔、俏皮、有一点懒洋洋的可爱气质。
- 听起来像一个在笑着安慰朋友的语气。
- 不评判、不分析、不指导，只陪伴。
- 可以用“欸～”“嘿～”“哎呀～”“哈哈～”“别慌嘛～”等类似的抚慰语句开头。
- 可以带 emoji（🌿、😌、😉、😏、🐈、💭、😁 等），但不超过两个。

【回复逻辑】
你的目标是用一句话让用户：

1. 情绪被接住（承认他焦虑的存在）；
2. 紧张被松绑（告诉他“现在不用搞定一切”）；
3. 心态被轻轻引导（给一个当下的小选择，如“歇会儿”“想想自己”）；
4. 留下微笑或放松的余韵。

【允许引用的方法论】

从以下六条中任选2~3条自然融入，不要生硬引用理论：

1. 长期主义 → “不需要现在搞定”“时间够”
2. 不比较 → “别和别人比”
3. 实质反馈 → “能想起就值得被肯定”
4. 明确需求 → “关注现在最重要的任务”
5. 立即行动（绿泡版）→ “允许不做，先歇一会儿”
6. 课题分离 → “放下不在你掌控的事”

【输出格式】

- 一个json数组，给出5组反馈，每组两个字段，

{ 

type：引用的方法论

message：生成一句 40–80 字的自然口语化回复；

}

- 用调皮安抚的语气；
- 不包含任何进度、阶段或计划类词汇；
- 不出现“请”“建议”“任务”等指令性词语；
- 用第一人称（我）与用户自然互动；
- 句式结构： [调皮开场] + [情绪安抚/方法论嵌入] + [温柔收尾]。

【")%string.

(** The body of the chat request: the system message, then [...messages]. *)
Definition chat_request (messages : list json) : json :=
  JObject
    [ (utf16 "model", str "deepseek-chat");
      (utf16 "messages",
       JArray (JObject [ (utf16 "role", str "system");
                         (utf16 "content", JString chatSystemPrompt) ]
                 :: messages));
      (utf16 "temperature", JNumber 15 (-1));
      (utf16 "max_tokens", JNumber 800 0);
      (utf16 "stream", JBool false) ].

(** The error the [catch] of [generateChatResponse] throws. *)
Definition chat_caught (error : exn) : exn :=
  if response_status_is error 401
  then Error (utf16 "DeepSeek API authentication failed")
  else if response_status_is error 429
  then Error (utf16 "DeepSeek API rate limit exceeded")
  else Error (utf16 "Failed to generate chat response").

(** [generateChatResponse(messages, context = {})]; [context] is not read.
    The result is the object literal
    [{ success: true, message: ..., usage: ... }]. *)
Definition generateChatResponse (messages : list json) (context : option json)
  : Prog json :=
  try_catch
    (response <- await_post (utf16 "/chat/completions") (chat_request messages) ;;
     Return
       (JObject
          [ (utf16 "success", JBool true);
            (utf16 "message",
             JString (Http.choices_0_message_content (Http.data response)));
            (utf16 "usage", Http.usage (Http.data response)) ]))%prog
    (fun error => Throw (chat_caught error)).

(** ** [generateStreamingChatResponse] *)

(** A method that awaits [this.client.post(url, body, config)] and whose
    response carries a stream, a value of the type [S], as its [data]. *)
Inductive StreamProg (S A : Type) : Type :=
| StreamReturn (a : A)
| StreamThrow (e : exn)
| client_post_stream (url : jsstring) (body config : json)
                     (k : exn + Http.Response S -> StreamProg S A).

Arguments StreamReturn {S A} a.
Arguments StreamThrow {S A} e.
Arguments client_post_stream {S A} url body config k.

Fixpoint stream_try_catch {S A} (p : StreamProg S A) (h : exn -> StreamProg S A)
  : StreamProg S A :=
  match p with
  | StreamReturn a => StreamReturn a
  | StreamThrow e => h e
  | client_post_stream url body config k =>
    client_post_stream url body config (fun o => stream_try_catch (k o) h)
  end.

(** The requests issued, each with its configuration, and the outcome. *)
Fixpoint run_stream {S A}
         (upstream : jsstring -> json -> json -> exn + Http.Response S)
         (p : StreamProg S A) : list (jsstring * json * json) * (exn + A) :=
  match p with
  | StreamReturn a => ([], inr a)
  | StreamThrow e => ([], inl e)
  | client_post_stream url body config k =>
    let '(requests, outcome) := run_stream upstream (k (upstream url body config)) in
    ((url, body, config) :: requests, outcome)
  end.

(** The body of the streaming request; its system prompt is the template
    literal [`generateChatResponse`]. *)
Definition streaming_request (messages : list json) : json :=
  JObject
    [ (utf16 "model", str "deepseek-chat");
      (utf16 "messages",
       JArray (JObject [ (utf16 "role", str "system");
                         (utf16 "content", str "generateChatResponse") ]
                 :: messages));
      (utf16 "temperature", JNumber 15 (-1));
      (utf16 "max_tokens", JNumber 800 0);
      (utf16 "stream", JBool true) ].

Definition streaming_config : json :=
  JObject [ (utf16 "responseType", str "stream") ].

(** [generateStreamingChatResponse(messages, context = {})]: it returns
    [response.data], the stream. *)
Definition generateStreamingChatResponse {S} (messages : list json)
           (context : option json) : StreamProg S S :=
  stream_try_catch
    (client_post_stream (utf16 "/chat/completions")
       (streaming_request messages) streaming_config
       (fun o => match o with
                 | inl e => StreamThrow e
                 | inr response => StreamReturn (Http.data response)
                 end))
    (fun error => StreamThrow (Error (utf16 "Failed to generate streaming response"))).

(** ** Vocabulary of the further properties *)

(** The array a parsed value lists its suggestions in: the value itself, or
    its [suggestions] member. *)
Definition listed (v : json) : option (list json) :=
  match v with
  | JArray items => Some items
  | _ => Array_isArray (member v "suggestions")
  end.

(** A suggestion as the normalization leaves it: a truthy [type], and a
    [text] that is truthy or the empty string. *)
Definition well_formed (s : Suggestion) : Prop :=
  ToBoolean (Some (type s)) = true
  /\ (ToBoolean (Some (text s)) = true \/ text s = JString []).

(* ------------------------------------------------------------------ *)
(** * The routes that call the service *)
(* ------------------------------------------------------------------ *)

(** The handlers of [routes/suggestion.js] and [routes/chat.js], as they run
    once the validators have let the request through.  The methods of the
    models are calls whose outcome the database decides; the ids are
    numbers, the other columns are carried as JSON values (a date as the
    string it is sent as). *)

(** ** [String.prototype.includes] *)

Fixpoint starts_with (w s : jsstring) : bool :=
  match w, s with
  | [], _ => true
  | a :: w', b :: s' => (a =? b)%N && starts_with w' s'
  | _ :: _, [] => false
  end.

(** [s.includes(w)]. *)
Fixpoint includes (s w : jsstring) : bool :=
  starts_with w s
  || match s with
     | [] => false
     | _ :: r => includes r w
     end.

(** [a || b] on strings that may be [undefined]. *)
Definition or_string (a b : option jsstring) : option jsstring :=
  match a with
  | Some (_ :: _) => a
  | _ => b
  end.

(** An object literal as [res.json] sends it: a member whose value is
    [undefined] is left out. *)
Fixpoint object (members : list (jsstring * option json)) : list (jsstring * json) :=
  match members with
  | [] => []
  | (k, Some v) :: r => (k, v) :: object r
  | (_, None) :: r => object r
  end.

(** ** The instances of the models *)

Module AnxietyTopic.
Record t := {
  id : Z;
  user_id : Z;
  title : json;
  description : json;
  severity_level : json;
  status : json;
  created_at : json;
  updated_at : json;
  suggestions_count : option json
}.

Definition toJSON (this : t) : json :=
  JObject
    ([ (utf16 "id", JNumber (id this) 0);
       (utf16 "user_id", JNumber (user_id this) 0);
       (utf16 "title", title this);
       (utf16 "description", description this);
       (utf16 "severity_level", severity_level this);
       (utf16 "status", status this);
       (utf16 "created_at", created_at this);
       (utf16 "updated_at", updated_at this) ]
       ++ match suggestions_count this with
          | Some c => [ (utf16 "suggestions_count", c) ]
          | None => []
          end).
End AnxietyTopic.

Module AnxietySuggestion.
Record t := {
  id : Z;
  topic_id : Z;
  user_id : Z;
  suggestion_text : jsstring;
  suggestion_type : jsstring;
  is_helpful : json;
  helpful_rating : json;
  created_at : json;
  updated_at : json;
  topic_title : option json;
  topic_severity : option json
}.

Definition toJSON (this : t) : json :=
  JObject
    ([ (utf16 "id", JNumber (id this) 0);
       (utf16 "topic_id", JNumber (topic_id this) 0);
       (utf16 "user_id", JNumber (user_id this) 0);
       (utf16 "suggestion_text", JString (suggestion_text this));
       (utf16 "suggestion_type", JString (suggestion_type this));
       (utf16 "is_helpful", is_helpful this);
       (utf16 "helpful_rating", helpful_rating this);
       (utf16 "created_at", created_at this);
       (utf16 "updated_at", updated_at this) ]
       ++ (if ToBoolean (topic_title this)
           then [ (utf16 "topic_title", or_value (topic_title this) JNull) ]
           else [])
       ++ (if ToBoolean (topic_severity this)
           then [ (utf16 "topic_severity", or_value (topic_severity this) JNull) ]
           else [])).
End AnxietySuggestion.

(** A row handed to [AnxietySuggestion.createMany]. *)
Module NewSuggestion.
Record t := {
  topic_id : Z;
  user_id : Z;
  suggestion_text : json;
  suggestion_type : json
}.
End NewSuggestion.

Module ChatSession.
Record t := {
  id : Z;
  user_id : Z;
  topic_id : json;
  title : json;
  status : jsstring;
  created_at : json;
  updated_at : json;
  last_message_at : json;
  message_count : json
}.
End ChatSession.

Module ChatMessage.
Record t := {
  id : json;
  session_id : json;
  user_id : json;
  message_type : json;
  content : json;
  metadata : json;
  created_at : json;
  session_title : option json
}.

Definition toJSON (this : t) : json :=
  JObject
    ([ (utf16 "id", id this);
       (utf16 "session_id", session_id this);
       (utf16 "user_id", user_id this);
       (utf16 "message_type", message_type this);
       (utf16 "content", content this);
       (utf16 "metadata", metadata this);
       (utf16 "created_at", created_at this) ]
       ++ (if ToBoolean (session_title this)
           then [ (utf16 "session_title", or_value (session_title this) JNull) ]
           else [])).
End ChatMessage.

(** The argument of [ChatMessage.create]; [content] and the members of
    [metadata] may be [undefined]. *)
Module MessageData.
Record t := {
  session_id : Z;
  user_id : Z;
  message_type : jsstring;
  content : option json;
  metadata : option (list (jsstring * option json))
}.
End MessageData.

(** ** Handlers *)

(** What a handler awaits: a method of a model, or the HTTP client of the
    service.  [Call X] is a call that resolves to an [X]. *)
Inductive Call : Type -> Type :=
| AnxietyTopic_create (user_id : Z) (title : jsstring) (description : option jsstring)
                      (severity_level : jsstring) : Call (option AnxietyTopic.t)
| AnxietyTopic_findById (id : Z) : Call (option AnxietyTopic.t)
| AnxietyTopic_update (this : AnxietyTopic.t) (updateData : json)
  : Call (option AnxietyTopic.t)
| AnxietySuggestion_findByUserId (userId limit : Z) : Call (list AnxietySuggestion.t)
| AnxietySuggestion_findByTopicId (topicId : Z) : Call (list AnxietySuggestion.t)
| AnxietySuggestion_createMany (suggestions : list NewSuggestion.t)
  : Call (list AnxietySuggestion.t)
| AnxietySuggestion_findById (id : Z) : Call (option AnxietySuggestion.t)
| AnxietySuggestion_updateFeedback (this : AnxietySuggestion.t)
                                   (is_helpful helpful_rating : option json)
  : Call (option AnxietySuggestion.t)
| ChatSession_findById (id : Z) : Call (option ChatSession.t)
| ChatSession_updateLastMessage (this : ChatSession.t) : Call (option ChatSession.t)
| ChatMessage_create (messageData : MessageData.t) : Call (option ChatMessage.t)
| ChatMessage_getConversationContext (sessionId maxMessages : Z) : Call (list json)
| deepseek_client_post (url : jsstring) (body : json)
  : Call (Http.Response Http.ChatCompletion).

(** An [async] handler: it ends with a value, throws, or awaits a call and
    goes on with its outcome. *)
Inductive Handler (A : Type) : Type :=
| Done (a : A)
| Fail (e : exn)
| Await (X : Type) (call : Call X) (k : exn + X -> Handler A).

Arguments Done {A} a.
Arguments Fail {A} e.
Arguments Await {A X} call k.

Fixpoint hbind {A B} (p : Handler A) (f : A -> Handler B) : Handler B :=
  match p with
  | Done a => f a
  | Fail e => Fail e
  | Await call k => Await call (fun o => hbind (k o) f)
  end.

Fixpoint htry_catch {A} (p : Handler A) (h : exn -> Handler A) : Handler A :=
  match p with
  | Done a => Done a
  | Fail e => h e
  | Await call k => Await call (fun o => htry_catch (k o) h)
  end.

(** [await call]. *)
Definition await {X} (call : Call X) : Handler X :=
  Await call (fun o => match o with inl e => Fail e | inr x => Done x end).

(** A method of the service, run inside a handler. *)
Fixpoint serve {A} (p : Prog A) : Handler A :=
  match p with
  | Return a => Done a
  | Throw e => Fail e
  | client_post url body k =>
    Await (deepseek_client_post url body) (fun o => serve (k o))
  end.

Definition hlift {A} (c : Completion A) : Handler A :=
  match c with
  | inl e => Fail e
  | inr a => Done a
  end.

Declare Scope handler_scope.
Delimit Scope handler_scope with handler.
Notation "x <- p ;; q" := (hbind p (fun x => q))
  (at level 61, p at next level, right associativity) : handler_scope.

(** A call that was made. *)
Definition Event : Type := { X : Type & Call X }.

Definition event {X} (call : Call X) : Event := existT Call X call.

(** The database and the upstream: what each call is answered with. *)
Definition World : Type := forall X, Call X -> exn + X.

(** Running a handler: the calls made, in order, and the outcome; a thrown
    value is what [asyncHandler] passes to [next]. *)
Fixpoint run_handler {A} (world : World) (p : Handler A) : list Event * (exn + A) :=
  match p with
  | Done a => ([], inr a)
  | Fail e => ([], inl e)
  | Await call k =>
    let '(events, outcome) := run_handler world (k (world _ call)) in
    (event call :: events, outcome)
  end.

(** The upstream of a world. *)
Definition upstream_of (world : World) : Upstream :=
  fun url body => world _ (deepseek_client_post url body).

(** [res.status(status).json(body)]. *)
Module Reply.
Record t := { status : Z; body : json }.
End Reply.

(** A read of a member of an instance that may be [null]. *)
Definition of_instance {T A} (instance : option T) (name : string) (read : T -> A)
  : Completion A :=
  match instance with
  | Some this => inr (read this)
  | None =>
    inl (TypeError (utf16 "Cannot read properties of null (reading '"
                      ++ utf16 name ++ utf16 "')"))
  end.

(** ** [POST /] of [routes/suggestion.js] *)

Module SuggestionBody.
Record t := {
  title : jsstring;
  description : option jsstring;
  title_context : option jsstring;
  severity_level : option jsstring;
  personality : option jsstring
}.
End SuggestionBody.

(** The reply of the [catch] block. *)
Definition suggestion_failure (error : exn) : Reply.t :=
  if includes (message error) (utf16 "DeepSeek")
  then {| Reply.status := 503;
          Reply.body :=
            JObject
              [ (utf16 "error", str "AI service unavailable");
                (utf16 "message",
                 str "Unable to generate suggestions at this time. Please try again later.") ] |}
  else {| Reply.status := 500;
          Reply.body :=
            JObject
              [ (utf16 "error", str "Internal server error");
                (utf16 "message", str "Failed to generate suggestions") ] |}.

(** The entry of the history built from a stored suggestion. *)
Definition prior_of (s : AnxietySuggestion.t) : PriorSuggestion :=
  {| suggestion_text := AnxietySuggestion.suggestion_text s;
     suggestion_type := AnxietySuggestion.suggestion_type s |}.

(** The callback that builds [suggestionsToCreate]. *)
Definition suggestion_to_create (topic : option AnxietyTopic.t) (userId : Z)
           (suggestion : Suggestion) : Completion NewSuggestion.t :=
  (topic_id <- of_instance topic "id" AnxietyTopic.id ;;
   inr {| NewSuggestion.topic_id := topic_id;
          NewSuggestion.user_id := userId;
          NewSuggestion.suggestion_text := text suggestion;
          NewSuggestion.suggestion_type :=
            or_value (Some (type suggestion)) (str "immediate") |})%completion.

Definition post_suggestions (body : SuggestionBody.t) (userId : Z) : Handler Reply.t :=
  let title := SuggestionBody.title body in
  let description := SuggestionBody.description body in
  let title_context := SuggestionBody.title_context body in
  let severity_level := default (utf16 "medium") (SuggestionBody.severity_level body) in
  let personality := default (utf16 "green") (SuggestionBody.personality body) in
  htry_catch
    (topic <- await (AnxietyTopic_create userId title description severity_level) ;;
     historicalSuggestions <- await (AnxietySuggestion_findByUserId userId 10) ;;
     aiResponse <-
       serve (generateAnxietySuggestions title
                (Some (map prior_of historicalSuggestions))
                (Some personality)
                (or_string title_context description)) ;;
     if negb (AiResponse.success aiResponse)
     then Fail (Error (utf16 "Failed to generate suggestions"))
     else
       suggestionsToCreate <-
         hlift (Array_map (suggestion_to_create topic userId)
                          (AiResponse.suggestions aiResponse)) ;;
       createdSuggestions <- await (AnxietySuggestion_createMany suggestionsToCreate) ;;
       topic_json <- hlift (of_instance topic "toJSON" AnxietyTopic.toJSON) ;;
       Done {| Reply.status := 201;
               Reply.body :=
                 JObject
                   [ (utf16 "success", JBool true);
                     (utf16 "message", str "Suggestions generated successfully");
                     (utf16 "data",
                      JObject
                        [ (utf16 "topic", topic_json);
                          (utf16 "suggestions",
                           JArray (map AnxietySuggestion.toJSON createdSuggestions));
                          (utf16 "usage", AiResponse.usage aiResponse);
                          (utf16 "personality",
                           JString (AiResponse.personality aiResponse)) ]) ] |})%handler
    (fun error => Done (suggestion_failure error)).

(** ** The handlers of [routes/suggestion.js] that look one row up *)

Definition reply (status : Z) (error message : string) : Reply.t :=
  {| Reply.status := status;
     Reply.body := JObject [ (utf16 "error", str error);
                             (utf16 "message", str message) ] |}.

(** [GET /topics/:id]. *)
Definition get_topic (topicId userId : Z) : Handler Reply.t :=
  (topic <- await (AnxietyTopic_findById topicId) ;;
   match topic with
   | None => Done (reply 404 "Not found" "Topic not found")
   | Some topic =>
     if negb (AnxietyTopic.user_id topic =? userId)%Z
     then Done (reply 403 "Access denied" "You can only access your own topics")
     else
       suggestions <- await (AnxietySuggestion_findByTopicId topicId) ;;
       Done {| Reply.status := 200;
               Reply.body :=
                 JObject
                   [ (utf16 "success", JBool true);
                     (utf16 "data",
                      JObject
                        [ (utf16 "topic", AnxietyTopic.toJSON topic);
                          (utf16 "suggestions",
                           JArray (map AnxietySuggestion.toJSON suggestions)) ]) ] |}
   end)%handler.

(** [PUT /topics/:id]; [updateData] is [req.body]. *)
Definition put_topic (topicId userId : Z) (updateData : json) : Handler Reply.t :=
  (topic <- await (AnxietyTopic_findById topicId) ;;
   match topic with
   | None => Done (reply 404 "Not found" "Topic not found")
   | Some topic =>
     if negb (AnxietyTopic.user_id topic =? userId)%Z
     then Done (reply 403 "Access denied" "You can only update your own topics")
     else
       updatedTopic <- await (AnxietyTopic_update topic updateData) ;;
       topic_json <- hlift (of_instance updatedTopic "toJSON" AnxietyTopic.toJSON) ;;
       Done {| Reply.status := 200;
               Reply.body :=
                 JObject
                   [ (utf16 "success", JBool true);
                     (utf16 "message", str "Topic updated successfully");
                     (utf16 "data", JObject [ (utf16 "topic", topic_json) ]) ] |}
   end)%handler.

(** [POST /feedback/:id]. *)
Definition post_feedback (suggestionId userId : Z)
           (is_helpful helpful_rating : option json) : Handler Reply.t :=
  (suggestion <- await (AnxietySuggestion_findById suggestionId) ;;
   match suggestion with
   | None => Done (reply 404 "Not found" "Suggestion not found")
   | Some suggestion =>
     if negb (AnxietySuggestion.user_id suggestion =? userId)%Z
     then Done (reply 403 "Access denied"
                      "You can only provide feedback on your own suggestions")
     else
       updatedSuggestion <-
         await (AnxietySuggestion_updateFeedback suggestion is_helpful helpful_rating) ;;
       suggestion_json <-
         hlift (of_instance updatedSuggestion "toJSON" AnxietySuggestion.toJSON) ;;
       Done {| Reply.status := 200;
               Reply.body :=
                 JObject
                   [ (utf16 "success", JBool true);
                     (utf16 "message", str "Feedback recorded successfully");
                     (utf16 "data",
                      JObject [ (utf16 "suggestion", suggestion_json) ]) ] |}
   end)%handler.

(** ** [POST /sessions/:sessionId/messages] of [routes/chat.js] *)

(** The reply of the [catch] block. *)
Definition chat_failure (error : exn) : Reply.t :=
  if includes (message error) (utf16 "DeepSeek")
  then reply 503 "AI service unavailable"
             "Unable to generate response at this time. Please try again later."
  else reply 500 "Internal server error" "Failed to process chat message".

(** The argument of the first [ChatMessage.create]. *)
Definition user_message (sessionId userId : Z) (content : jsstring) : MessageData.t :=
  {| MessageData.session_id := sessionId;
     MessageData.user_id := userId;
     MessageData.message_type := utf16 "user";
     MessageData.content := Some (JString content);
     MessageData.metadata := None |}.

Definition post_message (sessionId userId : Z) (content : jsstring) : Handler Reply.t :=
  (session <- await (ChatSession_findById sessionId) ;;
   match session with
   | None => Done (reply 404 "Not found" "Chat session not found")
   | Some session =>
     if negb (ChatSession.user_id session =? userId)%Z
     then Done (reply 403 "Access denied"
                      "You can only send messages to your own chat sessions")
     else if negb (jsstring_eqb (ChatSession.status session) (utf16 "active"))
     then Done (reply 400 "Invalid session state"
                      "Cannot send messages to inactive sessions")
     else
       htry_catch
         (userMessage <- await (ChatMessage_create (user_message sessionId userId content)) ;;
          conversationContext <-
            await (ChatMessage_getConversationContext sessionId 20) ;;
          aiResponse <- serve (generateChatResponse conversationContext None) ;;
          success <- hlift (get aiResponse "success") ;;
          if negb (ToBoolean success)
          then Fail (Error (utf16 "Failed to generate AI response"))
          else
            ai_content <- hlift (get aiResponse "content") ;;
            ai_usage <- hlift (get aiResponse "usage") ;;
            ai_model <- hlift (get aiResponse "model") ;;
            aiMessage <-
              await (ChatMessage_create
                       {| MessageData.session_id := sessionId;
                          MessageData.user_id := userId;
                          MessageData.message_type := utf16 "assistant";
                          MessageData.content := ai_content;
                          MessageData.metadata :=
                            Some [ (utf16 "usage", ai_usage);
                                   (utf16 "model", ai_model) ] |}) ;;
            _ <- await (ChatSession_updateLastMessage session) ;;
            user_json <- hlift (of_instance userMessage "toJSON" ChatMessage.toJSON) ;;
            ai_json <- hlift (of_instance aiMessage "toJSON" ChatMessage.toJSON) ;;
            reply_usage <- hlift (get aiResponse "usage") ;;
            Done {| Reply.status := 201;
                    Reply.body :=
                      JObject
                        [ (utf16 "success", JBool true);
                          (utf16 "message", str "Messages sent successfully");
                          (utf16 "data",
                           JObject
                             (object
                                [ (utf16 "user_message", Some user_json);
                                  (utf16 "ai_message", Some ai_json);
                                  (utf16 "usage", reply_usage) ])) ] |})
         (fun error => Done (chat_failure error))
   end)%handler.

(** ** Vocabulary of the properties of the routes *)

(** The calls of a run that write to the database. *)
Definition is_write (e : Event) : bool :=
  match projT2 e with
  | AnxietyTopic_create _ _ _ _ => true
  | AnxietyTopic_update _ _ => true
  | AnxietySuggestion_createMany _ => true
  | AnxietySuggestion_updateFeedback _ _ _ => true
  | ChatSession_updateLastMessage _ => true
  | ChatMessage_create _ => true
  | _ => false
  end.

(** The calls of a run that go to the upstream. *)
Definition is_upstream (e : Event) : bool :=
  match projT2 e with
  | deepseek_client_post _ _ => true
  | _ => false
  end.

(** The calls [POST /] makes before it hears from the upstream, and the
    method of the service it runs. *)
Definition create_topic_call (body : SuggestionBody.t) (userId : Z)
  : Call (option AnxietyTopic.t) :=
  AnxietyTopic_create userId (SuggestionBody.title body)
                      (SuggestionBody.description body)
                      (default (utf16 "medium") (SuggestionBody.severity_level body)).

Definition history_call (userId : Z) : Call (list AnxietySuggestion.t) :=
  AnxietySuggestion_findByUserId userId 10.

Definition suggestion_request (body : SuggestionBody.t)
           (history : list AnxietySuggestion.t) : jsstring * json :=
  request_of (SuggestionBody.title body)
             (Some (map prior_of history))
             (Some (default (utf16 "green") (SuggestionBody.personality body)))
             (or_string (SuggestionBody.title_context body)
                        (SuggestionBody.description body)).

Definition suggestion_answer (world : World) (body : SuggestionBody.t)
           (history : list AnxietySuggestion.t)
  : exn + Http.Response Http.ChatCompletion :=
  answer (upstream_of world) (SuggestionBody.title body)
         (Some (map prior_of history))
         (Some (default (utf16 "green") (SuggestionBody.personality body)))
         (or_string (SuggestionBody.title_context body)
                    (SuggestionBody.description body)).

Definition upstream_event (request : jsstring * json) : Event :=
  event (deepseek_client_post (fst request) (snd request)).

(** The row stored for a suggestion. *)
Definition row_of (topic : AnxietyTopic.t) (userId : Z) (s : Suggestion)
  : NewSuggestion.t :=
  {| NewSuggestion.topic_id := AnxietyTopic.id topic;
     NewSuggestion.user_id := userId;
     NewSuggestion.suggestion_text := text s;
     NewSuggestion.suggestion_type := type s |}.

(** What the service answers the handler of [POST /]. *)
Definition service_outcome (world : World) (body : SuggestionBody.t)
           (history : list AnxietySuggestion.t) : exn + AiResponse.t :=
  snd (run (upstream_of world)
         (generateAnxietySuggestions
            (SuggestionBody.title body) (Some (map prior_of history))
            (Some (default (utf16 "green") (SuggestionBody.personality body)))
            (or_string (SuggestionBody.title_context body)
                       (SuggestionBody.description body)))).

(** ** A sample database *)

Definition sample_topic : AnxietyTopic.t :=
  {| AnxietyTopic.id := 7;
     AnxietyTopic.user_id := 3;
     AnxietyTopic.title := str "report";
     AnxietyTopic.description := JNull;
     AnxietyTopic.severity_level := str "medium";
     AnxietyTopic.status := str "active";
     AnxietyTopic.created_at := str "2025-01-01T00:00:00.000Z";
     AnxietyTopic.updated_at := str "2025-01-01T00:00:00.000Z";
     AnxietyTopic.suggestions_count := None |}.

Definition sample_stored (row : NewSuggestion.t) : AnxietySuggestion.t :=
  {| AnxietySuggestion.id := 40;
     AnxietySuggestion.topic_id := NewSuggestion.topic_id row;
     AnxietySuggestion.user_id := NewSuggestion.user_id row;
     AnxietySuggestion.suggestion_text :=
       match NewSuggestion.suggestion_text row with JString s => s | _ => [] end;
     AnxietySuggestion.suggestion_type :=
       match NewSuggestion.suggestion_type row with JString s => s | _ => [] end;
     AnxietySuggestion.is_helpful := JNull;
     AnxietySuggestion.helpful_rating := JNull;
     AnxietySuggestion.created_at := str "2025-01-01T00:00:00.000Z";
     AnxietySuggestion.updated_at := str "2025-01-01T00:00:00.000Z";
     AnxietySuggestion.topic_title := None;
     AnxietySuggestion.topic_severity := None |}.

Definition sample_suggestion : AnxietySuggestion.t :=
  sample_stored {| NewSuggestion.topic_id := 7;
                   NewSuggestion.user_id := 3;
                   NewSuggestion.suggestion_text := str "breathe";
                   NewSuggestion.suggestion_type := str "immediate" |}.

Definition sample_session : ChatSession.t :=
  {| ChatSession.id := 5;
     ChatSession.user_id := 3;
     ChatSession.topic_id := JNumber 7 0;
     ChatSession.title := str "report";
     ChatSession.status := utf16 "active";
     ChatSession.created_at := str "2025-01-01T00:00:00.000Z";
     ChatSession.updated_at := str "2025-01-01T00:00:00.000Z";
     ChatSession.last_message_at := JNull;
     ChatSession.message_count := JNumber 0 0 |}.

Definition sample_message (data : MessageData.t) : ChatMessage.t :=
  {| ChatMessage.id := JNumber 90 0;
     ChatMessage.session_id := JNumber (MessageData.session_id data) 0;
     ChatMessage.user_id := JNumber (MessageData.user_id data) 0;
     ChatMessage.message_type := JString (MessageData.message_type data);
     ChatMessage.content := or_value (MessageData.content data) JNull;
     ChatMessage.metadata := JNull;
     ChatMessage.created_at := str "2025-01-01T00:00:00.000Z";
     ChatMessage.session_title := None |}.

(** A database that holds one topic, one suggestion and one session, all of
    user 3, and lists no earlier suggestion or message, in front of the
    given upstream. *)
Definition sample_world (upstream : Upstream) : World :=
  fun X call =>
    match call in Call X return exn + X with
    | AnxietyTopic_create _ _ _ _ => inr (Some sample_topic)
    | AnxietyTopic_findById _ => inr (Some sample_topic)
    | AnxietyTopic_update this _ => inr (Some this)
    | AnxietySuggestion_findByUserId _ _ => inr []
    | AnxietySuggestion_findByTopicId _ => inr []
    | AnxietySuggestion_createMany rows => inr (map sample_stored rows)
    | AnxietySuggestion_findById _ => inr (Some sample_suggestion)
    | AnxietySuggestion_updateFeedback this _ _ => inr (Some this)
    | ChatSession_findById _ => inr (Some sample_session)
    | ChatSession_updateLastMessage this => inr (Some this)
    | ChatMessage_create data => inr (Some (sample_message data))
    | ChatMessage_getConversationContext _ _ => inr []
    | deepseek_client_post url body => upstream url body
    end.

Definition sample_body : SuggestionBody.t :=
  {| SuggestionBody.title := utf16 "report";
     SuggestionBody.description := Some (utf16 "due Friday");
     SuggestionBody.title_context := None;
     SuggestionBody.severity_level := None;
     SuggestionBody.personality := Some (utf16 "yellow") |}.

(** ** [middleware/errorHandler.js] *)

(** The error object a middleware receives, by the properties [errorHandler]
    reads; a property that is absent reads [undefined]. *)
Module Err.
Record t := {
  name : option json;
  message : option json;
  stack : option json;
  statusCode : option json;
  code : option json;
  type : option json;
  errors : option json;
  keyValue : option json
}.
End Err.

(** [v === s] for a string literal [s]. *)
Definition is_string (v : option json) (s : string) : bool :=
  match v with
  | Some (JString t) => jsstring_eqb t (utf16 s)
  | _ => false
  end.

(** [v === n] for an integer literal [n].  A number denotes the double
    nearest to it, which is [n] when it lies within half a unit in the last
    place of [n], the two ends included when the significand of [n] is even:
    [half_ulp] is [2^45] for 500 and [2^40] for 11000, the denominator of
    that distance. *)
Definition is_number (v : option json) (n : Z) (half_ulp : positive) : bool :=
  match v with
  | Some (JNumber m e) =>
    Qle_bool (inject_Z n - (1 # half_ulp)) (number_value m e)
    && Qle_bool (number_value m e) (inject_Z n + (1 # half_ulp))
  | _ => false
  end.

(** The names of the members of an object, each once, at the place where it
    first occurs. *)
Fixpoint own_names (fields : list (jsstring * json)) (seen : list jsstring)
  : list jsstring :=
  match fields with
  | [] => []
  | (k, _) :: r =>
    if existsb (jsstring_eqb k) seen then own_names r seen
    else k :: own_names r (k :: seen)
  end.

Fixpoint digits_value (k : jsstring) (acc : N) : option N :=
  match k with
  | [] => Some acc
  | c :: r =>
    if ((48 <=? c) && (c <=? 57))%N then digits_value r (acc * 10 + (c - 48))%N
    else None
  end.

(** A name is an array index when it is the canonical decimal form of an
    integer below [2^32 - 1]. *)
Definition array_index (k : jsstring) : option N :=
  match k with
  | [] => None
  | [48%N] => Some 0%N
  | 48%N :: _ => None
  | _ =>
    match digits_value k 0 with
    | Some n => if (n <? 4294967295)%N then Some n else None
    | None => None
    end
  end.

Fixpoint insert_index (i : N) (k : jsstring) (sorted : list (N * jsstring))
  : list (N * jsstring) :=
  match sorted with
  | [] => [(i, k)]
  | (j, k') :: r =>
    if (i <? j)%N then (i, k) :: sorted else (j, k') :: insert_index i k r
  end.

(** The order in which the properties of an object are listed: the array
    indices in ascending order, then the other names in the order of their
    creation. *)
Definition property_order (names : list jsstring) : list jsstring :=
  map snd
      (fold_left (fun sorted k =>
                    match array_index k with
                    | Some i => insert_index i k sorted
                    | None => sorted
                    end)
                 names [])
  ++ filter (fun k => match array_index k with Some _ => false | None => true end)
            names.

(** [Object.keys(v)]. *)
Definition Object_keys (v : option json) : Completion (list jsstring) :=
  match v with
  | None | Some JNull =>
    inl (TypeError (utf16 "Cannot convert undefined or null to object"))
  | Some (JObject fields) => inr (property_order (own_names fields []))
  | Some (JArray items) => inr (map_index (fun _ i => Number_toString i) 0%N items)
  | Some (JString s) => inr (map_index (fun _ i => Number_toString i) 0%N s)
  | Some (JNumber _ _) | Some (JBool _) => inr []
  end.

(** [Object.values(v)]. *)
Definition Object_values (v : option json) : Completion (list json) :=
  match v with
  | None | Some JNull =>
    inl (TypeError (utf16 "Cannot convert undefined or null to object"))
  | Some (JObject fields) =>
    inr (flat_map (fun k => match lookup k fields with
                            | Some w => [w]
                            | None => []
                            end)
                  (property_order (own_names fields [])))
  | Some (JArray items) => inr items
  | Some (JString s) => inr (map (fun c => JString [c]) s)
  | Some (JNumber _ _) | Some (JBool _) => inr []
  end.

(** The local [error] of [errorHandler]; [details] is absent from the
    object literals that do not set it. *)
Module ErrorInfo.
Record t := {
  status : json;
  message : json;
  details : option json
}.
End ErrorInfo.

(** [res.status(status).json(body)] with a status of any type. *)
Module ErrorReply.
Record t := { status : json; body : json }.
End ErrorReply.

(** [errorHandler(err, req, res, next)], with the value of
    [process.env.NODE_ENV]; the outcome is what it sends, or what it throws.
    The array of messages is kept as it is sent, [null] standing for an
    [undefined] message.  The logging is left out. *)
Definition errorHandler (err : Err.t) (NODE_ENV : option jsstring)
  : Completion ErrorReply.t :=
  (let error :=
     {| ErrorInfo.status := or_value (Err.statusCode err) (JNumber 500 0);
        ErrorInfo.message := or_value (Err.message err) (str "Internal Server Error");
        ErrorInfo.details := None |} in
   error <-
     (if is_string (Err.name err) "ValidationError"
      then
        values <- Object_values (Err.errors err) ;;
        messages <- Array_map (fun val => get val "message") values ;;
        inr {| ErrorInfo.status := JNumber 400 0;
               ErrorInfo.message := str "Validation Error";
               ErrorInfo.details := Some (JArray (map (default JNull) messages)) |}
      else inr error) ;;
   error <-
     (if is_number (Err.code err) 11000 (2 ^ 40)
      then
        keys <- Object_keys (Err.keyValue err) ;;
        let field := default (utf16 "undefined") (head keys) in
        inr {| ErrorInfo.status := JNumber 400 0;
               ErrorInfo.message := JString (field ++ utf16 " already exists");
               ErrorInfo.details := None |}
      else inr error) ;;
   let error :=
     if is_string (Err.code err) "ER_DUP_ENTRY"
     then {| ErrorInfo.status := JNumber 400 0;
             ErrorInfo.message := str "Duplicate entry - resource already exists";
             ErrorInfo.details := None |}
     else error in
   let error :=
     if is_string (Err.code err) "ER_NO_REFERENCED_ROW_2"
     then {| ErrorInfo.status := JNumber 400 0;
             ErrorInfo.message := str "Referenced resource does not exist";
             ErrorInfo.details := None |}
     else error in
   let error :=
     if is_string (Err.name err) "JsonWebTokenError"
     then {| ErrorInfo.status := JNumber 401 0;
             ErrorInfo.message := str "Invalid token";
             ErrorInfo.details := None |}
     else error in
   let error :=
     if is_string (Err.name err) "TokenExpiredError"
     then {| ErrorInfo.status := JNumber 401 0;
             ErrorInfo.message := str "Token expired";
             ErrorInfo.details := None |}
     else error in
   let error :=
     if is_string (Err.type err) "validation"
     then {| ErrorInfo.status := JNumber 400 0;
             ErrorInfo.message := str "Validation failed";
             ErrorInfo.details := Err.errors err |}
     else error in
   let error :=
     if jsstring_eqb (default [] NODE_ENV) (utf16 "production")
        && is_number (Some (ErrorInfo.status error)) 500 (2 ^ 45)
     then {| ErrorInfo.status := ErrorInfo.status error;
             ErrorInfo.message := str "Something went wrong";
             ErrorInfo.details := ErrorInfo.details error |}
     else error in
   inr {| ErrorReply.status := ErrorInfo.status error;
          ErrorReply.body :=
            JObject
              (object
                 [ (utf16 "error", Some (ErrorInfo.message error));
                   (utf16 "details",
                    if ToBoolean (ErrorInfo.details error)
                    then ErrorInfo.details error else None);
                   (utf16 "stack",
                    if jsstring_eqb (default [] NODE_ENV) (utf16 "development")
                    then Err.stack err else None) ]) |})%completion.

(** The error [notFound] passes to [next]: an [Error] with its message and
    [statusCode]; [stack] is the trace the engine gave it. *)
Definition notFound (originalUrl stack : jsstring) : Err.t :=
  {| Err.name := Some (str "Error");
     Err.message := Some (JString (utf16 "Route not found - " ++ originalUrl));
     Err.stack := Some (JString stack);
     Err.statusCode := Some (JNumber 404 0);
     Err.code := None;
     Err.type := None;
     Err.errors := None;
     Err.keyValue := None |}.

(* ------------------------------------------------------------------ *)
(** * Properties *)
(* ------------------------------------------------------------------ *)

(** ** String equality *)

Lemma jsstring_eqb_eq a b : jsstring_eqb a b = true <-> a = b.
Proof.
  unfold jsstring_eqb. destruct (list_eq_dec N.eq_dec a b); split; congruence.
Qed.

Lemma jsstring_eqb_neq a b : a <> b -> jsstring_eqb a b = false.
Proof.
  intros H. destruct (jsstring_eqb a b) eqn:E; [|reflexivity].
  apply jsstring_eqb_eq in E. contradiction.
Qed.

(** ** The fuel of [JSON.parse] *)

Lemma skipWS_length s : (List.length (skipWS s) <= List.length s)%nat.
Proof.
  induction s as [|c s IH]; [reflexivity|]. cbn [skipWS].
  destruct (isJSONWhiteSpace c); cbn [List.length]; lia.
Qed.

Lemma skipWS_cons s c r :
  skipWS s = c :: r -> (List.length r < List.length s)%nat.
Proof.
  intros E. pose proof (skipWS_length s) as L. rewrite E in L.
  cbn [List.length] in L. lia.
Qed.

Lemma parseStringBody_length n :
  forall s acc k r,
    (List.length s <= n)%nat ->
    parseStringBody s acc = Some (k, r) ->
    (List.length r < List.length s)%nat.
Proof.
  induction n as [|n IH]; intros s acc k r Hn.
  { destruct s; [discriminate|cbn in Hn; lia]. }
  destruct s as [|c s]; [discriminate|]. cbn [parseStringBody List.length] in *.
  destruct (c =? 34)%N.
  { intros H. injection H as _ <-. lia. }
  destruct (c =? 92)%N.
  - destruct s as [|x r1]; [discriminate|]. cbn [List.length] in *.
    assert (Step : forall a, parseStringBody r1 a = Some (k, r) ->
                             (List.length r < S (S (List.length r1)))%nat).
    { intros a H. apply IH in H; lia. }
    repeat match goal with
           | |- context [if (x =? ?u)%N then _ else _] =>
             destruct (x =? u)%N; [try apply Step|]
           end; try discriminate.
    destruct r1 as [|h1 [|h2 [|h3 [|h4 r2]]]]; try discriminate.
    destruct (hex4 h1 h2 h3 h4); [|discriminate].
    cbn [List.length] in *. intros H. apply IH in H; lia.
  - destruct (c <? 32)%N; [discriminate|].
    intros H. apply IH in H; lia.
Qed.

Lemma readDigits_length s :
  forall acc n acc' n' r,
    readDigits s acc n = (acc', n', r) -> (List.length r <= List.length s)%nat.
Proof.
  induction s as [|c s IH]; intros acc n acc' n' r; cbn [readDigits].
  - intros H. injection H as _ _ <-. reflexivity.
  - destruct (isDigit c).
    + intros H. apply IH in H. cbn [List.length]. lia.
    + intros H. injection H as _ _ <-. reflexivity.
Qed.

Lemma parseExponent_length s e r :
  parseExponent s = Some (e, r) -> (List.length r <= List.length s)%nat.
Proof.
  unfold parseExponent. destruct s as [|c s].
  { intros H. injection H as _ <-. reflexivity. }
  destruct ((c =? 101) || (c =? 69))%N.
  - destruct (match s with
              | [] => (false, s)
              | x :: r' => if (x =? 45)%N then (true, r')
                           else if (x =? 43)%N then (false, r') else (false, s)
              end) as [neg r1] eqn:E1.
    assert (L1 : (List.length r1 <= List.length s)%nat).
    { destruct s as [|x r']; [injection E1 as _ <-; reflexivity|].
      destruct (x =? 45)%N; [injection E1 as _ <-; cbn; lia|].
      destruct (x =? 43)%N; injection E1 as _ <-; cbn; lia. }
    destruct (readDigits r1 0 0) as [[x n] r2] eqn:E2.
    apply readDigits_length in E2.
    destruct (n =? 0)%Z; [discriminate|].
    intros H. injection H as _ <-. cbn [List.length]. lia.
  - intros H. injection H as _ <-. reflexivity.
Qed.

Lemma parseFraction_length m s m' e r :
  parseFraction m s = Some (m', e, r) -> (List.length r <= List.length s)%nat.
Proof.
  unfold parseFraction. destruct s as [|c s].
  { intros H. injection H as _ _ <-. reflexivity. }
  destruct (c =? 46)%N.
  - destruct (readDigits s m 0) as [[x n] r1] eqn:E. apply readDigits_length in E.
    destruct (n =? 0)%Z; [discriminate|].
    intros H. injection H as _ _ <-. cbn [List.length]. lia.
  - intros H. injection H as _ _ <-. reflexivity.
Qed.

Lemma parseNumber_length s v r :
  parseNumber s = Some (v, r) -> (List.length r < List.length s)%nat.
Proof.
  unfold parseNumber.
  destruct (match s with
            | [] => (false, s)
            | c :: r0 => if (c =? 45)%N then (true, r0) else (false, s)
            end) as [neg s1] eqn:E1.
  assert (L1 : (List.length s1 <= List.length s)%nat).
  { destruct s as [|c r0]; [injection E1 as _ <-; reflexivity|].
    destruct (c =? 45)%N; injection E1 as _ <-; cbn; lia. }
  destruct s1 as [|c r0]; [discriminate|].
  destruct (if (c =? 48)%N then Some (0%Z, r0)
            else if isDigit c
                 then let '(i, _, r1) := readDigits (c :: r0) 0 0 in Some (i, r1)
                 else None) as [[i r1]|] eqn:E2; [|discriminate].
  assert (L2 : (List.length r1 <= List.length r0)%nat).
  { destruct (c =? 48)%N; [injection E2 as _ <-; reflexivity|].
    destruct (isDigit c) eqn:D; [|discriminate].
    cbn [readDigits] in E2. rewrite D in E2.
    destruct (readDigits r0 _ _) as [[i' n'] r1'] eqn:E3.
    apply readDigits_length in E3. injection E2 as _ <-. exact E3. }
  destruct (parseFraction i r1) as [[[m e1] r2]|] eqn:E3; [|discriminate].
  apply parseFraction_length in E3.
  destruct (parseExponent r2) as [[e2 r3]|] eqn:E4; [|discriminate].
  apply parseExponent_length in E4.
  intros H. injection H as _ <-. cbn [List.length] in *. lia.
Qed.

Lemma expect_length w :
  forall s r, expect w s = Some r -> (List.length r <= List.length s)%nat.
Proof.
  induction w as [|a w IH]; intros s r; cbn [expect].
  - intros H. injection H as <-. reflexivity.
  - destruct s as [|b s]; [discriminate|].
    destruct (a =? b)%N; [|discriminate].
    intros H. apply IH in H. cbn [List.length]. lia.
Qed.

Lemma parseScalar_length c s v r :
  parseScalar c s = Some (v, r) -> (List.length r <= List.length s)%nat.
Proof.
  unfold parseScalar.
  destruct (c =? 34)%N.
  { destruct (parseStringBody s []) as [[str r1]|] eqn:E; [|discriminate].
    apply (@parseStringBody_length (List.length s)) in E; [|reflexivity].
    intros H. injection H as _ <-. lia. }
  assert (Word : forall w b, option_map (fun r1 => (b, r1)) (expect w s) = Some (v, r)
                             -> (List.length r <= List.length s)%nat).
  { intros w b. destruct (expect w s) as [r1|] eqn:E; [|discriminate].
    apply expect_length in E. cbn. intros H. injection H as _ <-. exact E. }
  destruct (c =? 116)%N; [apply Word|].
  destruct (c =? 102)%N; [apply Word|].
  destruct (c =? 110)%N; [apply Word|].
  intros H. apply parseNumber_length in H. cbn [List.length] in H. lia.
Qed.

(** A successful parse consumes input, and succeeds alike with any fuel
    from twice the number of characters consumed. *)
Lemma parse_fuel fuel :
  (forall s v r,
      parseValue fuel s = Some (v, r) ->
      (List.length r < List.length s)%nat
      /\ forall f, (2 * (List.length s - List.length r) <= f)%nat ->
                   parseValue f s = Some (v, r))
  /\ (forall s acc vs r,
         parseElements fuel s acc = Some (vs, r) ->
         (List.length r < List.length s)%nat
         /\ forall f, (2 * (List.length s - List.length r) + 1 <= f)%nat ->
                      parseElements f s acc = Some (vs, r))
  /\ (forall s acc fs r,
         parseMembers fuel s acc = Some (fs, r) ->
         (List.length r < List.length s)%nat
         /\ forall f, (2 * (List.length s - List.length r) + 1 <= f)%nat ->
                      parseMembers f s acc = Some (fs, r)).
Proof.
  induction fuel as [|fuel [IHv [IHe IHm]]].
  { repeat split; discriminate. }
  split; [|split].
  - (* parseValue *)
    intros s v r. cbn [parseValue].
    destruct (skipWS s) as [|c r0] eqn:E0; [discriminate|].
    pose proof (skipWS_cons _ E0) as L0.
    destruct (c =? 123)%N eqn:Cobj.
    { destruct (skipWS r0) as [|x r'] eqn:E1; [discriminate|].
      pose proof (skipWS_cons _ E1) as L1.
      destruct (x =? 125)%N eqn:Cx.
      - intros H. injection H as <- <-. split; [lia|].
        intros [|f] Hf; [lia|]. cbn [parseValue]. rewrite E0, Cobj, E1, Cx.
        reflexivity.
      - destruct (parseMembers fuel r0 []) as [[fs r1]|] eqn:E2; [|discriminate].
        destruct (IHm _ _ _ _ E2) as [L2 F2].
        intros H. injection H as <- <-. split; [lia|].
        intros [|f] Hf; [lia|]. cbn [parseValue]. rewrite E0, Cobj, E1, Cx.
        rewrite F2 by lia. reflexivity. }
    destruct (c =? 91)%N eqn:Carr.
    { destruct (skipWS r0) as [|x r'] eqn:E1; [discriminate|].
      pose proof (skipWS_cons _ E1) as L1.
      destruct (x =? 93)%N eqn:Cx.
      - intros H. injection H as <- <-. split; [lia|].
        intros [|f] Hf; [lia|]. cbn [parseValue]. rewrite E0, Cobj, Carr, E1, Cx.
        reflexivity.
      - destruct (parseElements fuel r0 []) as [[vs r1]|] eqn:E2; [|discriminate].
        destruct (IHe _ _ _ _ E2) as [L2 F2].
        intros H. injection H as <- <-. split; [lia|].
        intros [|f] Hf; [lia|]. cbn [parseValue]. rewrite E0, Cobj, Carr, E1, Cx.
        rewrite F2 by lia. reflexivity. }
    intros H. pose proof (parseScalar_length _ _ H) as L1. split; [lia|].
    intros [|f] Hf; [lia|]. cbn [parseValue]. rewrite E0, Cobj, Carr. exact H.
  - (* parseElements *)
    intros s acc vs r. cbn [parseElements].
    destruct (parseValue fuel s) as [[v r0]|] eqn:E0; [|discriminate].
    destruct (IHv _ _ _ E0) as [L0 F0].
    destruct (skipWS r0) as [|c r'] eqn:E1; [discriminate|].
    pose proof (skipWS_cons _ E1) as L1.
    destruct (c =? 44)%N eqn:Ccomma.
    + intros H. destruct (IHe _ _ _ _ H) as [L2 F2]. split; [lia|].
      intros [|f] Hf; [lia|]. cbn [parseElements].
      rewrite F0 by lia. rewrite E1, Ccomma. apply F2. lia.
    + destruct (c =? 93)%N eqn:Cend; [|discriminate].
      intros H. injection H as <- <-. split; [lia|].
      intros [|f] Hf; [lia|]. cbn [parseElements].
      rewrite F0 by lia. rewrite E1, Ccomma, Cend. reflexivity.
  - (* parseMembers *)
    intros s acc fs r. cbn [parseMembers].
    destruct (skipWS s) as [|c r0] eqn:E0; [discriminate|].
    pose proof (skipWS_cons _ E0) as L0.
    destruct (c =? 34)%N eqn:Cq; [|discriminate].
    destruct (parseStringBody r0 []) as [[k r1]|] eqn:E1; [|discriminate].
    pose proof (@parseStringBody_length _ _ _ _ _ (Nat.le_refl _) E1) as L1.
    destruct (skipWS r1) as [|c1 r2] eqn:E2; [discriminate|].
    pose proof (skipWS_cons _ E2) as L2.
    destruct (c1 =? 58)%N eqn:Ccolon; [|discriminate].
    destruct (parseValue fuel r2) as [[v r3]|] eqn:E3; [|discriminate].
    destruct (IHv _ _ _ E3) as [L3 F3].
    destruct (skipWS r3) as [|c2 r4] eqn:E4; [discriminate|].
    pose proof (skipWS_cons _ E4) as L4.
    destruct (c2 =? 44)%N eqn:Ccomma.
    + intros H. destruct (IHm _ _ _ _ H) as [L5 F5]. split; [lia|].
      intros [|f] Hf; [lia|]. cbn [parseMembers].
      rewrite E0, Cq, E1, E2, Ccolon. rewrite F3 by lia.
      rewrite E4, Ccomma. apply F5. lia.
    + destruct (c2 =? 125)%N eqn:Cend; [|discriminate].
      intros H. injection H as <- <-. split; [lia|].
      intros [|f] Hf; [lia|]. cbn [parseMembers].
      rewrite E0, Cq, E1, E2, Ccolon. rewrite F3 by lia.
      rewrite E4, Ccomma, Cend. reflexivity.
Qed.

(** The fuel of [JSON_parse] is enough: a text it rejects is rejected with
    any fuel, and a text it accepts gives the same value with any fuel that
    gives one. *)
Lemma JSON_parse_fuel text fuel v r :
  parseValue fuel text = Some (v, r) ->
  parseValue (2 * List.length text + 2) text = Some (v, r).
Proof.
  intros H. destruct (proj1 (parse_fuel fuel) _ _ _ H) as [L F].
  apply F. lia.
Qed.

Lemma JSON_parse_rejects text :
  JSON_parse text = None ->
  forall fuel v r, parseValue fuel text = Some (v, r) -> skipWS r <> [].
Proof.
  unfold JSON_parse. intros H fuel v r P.
  rewrite (JSON_parse_fuel _ _ P) in H.
  destruct (skipWS r); [discriminate|discriminate].
Qed.

(** ** One request, then a case analysis on its outcome *)


Lemma run_on_error A upstream (error : exn) :
  run upstream (@on_error A error) = ([], inl (caught error)).
Proof.
  unfold on_error, caught.
  destruct (response_status_is error 401); [reflexivity|].
  destruct (response_status_is error 429); reflexivity.
Qed.

(** Normalization only ever throws the [TypeError] of a read on [null]. *)
Lemma get_throws v name e : get v name = inl e -> is_TypeError e.
Proof.
  destruct v; cbn; intros H; try discriminate.
  injection H as <-. eexists; reflexivity.
Qed.

Lemma suggestion_of_item_throws item e :
  suggestion_of_item item = inl e -> is_TypeError e.
Proof.
  unfold suggestion_of_item, cbind.
  destruct (get item "message") as [e1|message] eqn:E1.
  - intros H. injection H as <-. eapply get_throws; eassumption.
  - destruct (ToBoolean message).
    + destruct (get item "type") as [e3|ty] eqn:E3; [|discriminate].
      intros H. injection H as <-. eapply get_throws; eassumption.
    + destruct (get item "text") as [e2|t] eqn:E2.
      * intros H. injection H as <-. eapply get_throws; eassumption.
      * destruct (get item "type") as [e3|ty] eqn:E3; [|discriminate].
        intros H. injection H as <-. eapply get_throws; eassumption.
Qed.

Lemma Array_map_throws items e :
  Array_map suggestion_of_item items = inl e -> is_TypeError e.
Proof.
  induction items as [|item items IH]; cbn; [discriminate|].
  unfold cbind at 1.
  destruct (suggestion_of_item item) as [e1|s] eqn:E1.
  - intros H. injection H as <-. eapply suggestion_of_item_throws; eassumption.
  - unfold cbind.
    destruct (Array_map suggestion_of_item items) as [e2|ss]; [|discriminate].
    intros H. injection H as <-. now apply IH.
Qed.

Lemma suggestions_of_throws parsedContent e :
  suggestions_of parsedContent = inl e -> is_TypeError e.
Proof.
  unfold suggestions_of.
  destruct (Array_isArray (Some parsedContent)) as [items|].
  { apply Array_map_throws. }
  unfold cbind.
  destruct (get parsedContent "suggestions") as [e1|suggestions] eqn:E1.
  { intros H. injection H as <-. eapply get_throws; eassumption. }
  destruct (if ToBoolean suggestions then Array_isArray suggestions else None)
    as [items|].
  { apply Array_map_throws. }
  destruct (get parsedContent "message") as [e2|message] eqn:E2.
  { intros H. injection H as <-. eapply get_throws; eassumption. }
  destruct message as [m|]; [|discriminate].
  destruct (ToBoolean (Some m)); [|discriminate].
  destruct (get parsedContent "type") as [e3|ty] eqn:E3; [|discriminate].
  intros H. injection H as <-. eapply get_throws; eassumption.
Qed.

Lemma caught_TypeError e : is_TypeError e -> caught e = UpstreamUnavailableError.
Proof. intros [m ->]. reflexivity. Qed.

(** The whole method, unfolded along the outcome of its one request. *)
Lemma run_generateAnxietySuggestions upstream title historyContext personality titleContext :
  run upstream (generateAnxietySuggestions title historyContext personality titleContext) =
  ([request_of title historyContext personality titleContext],
   match answer upstream title historyContext personality titleContext with
   | inl error => inl (caught error)
   | inr response =>
     match JSON_parse (Http.choices_0_message_content (Http.data response)) with
     | None => inl UpstreamUnavailableError
     | Some parsedContent =>
       match suggestions_of parsedContent with
       | inl _ => inl UpstreamUnavailableError
       | inr suggestions =>
         inr {| AiResponse.success := true;
                AiResponse.suggestions := suggestions;
                AiResponse.usage := Http.usage (Http.data response);
                AiResponse.personality := default (utf16 "green") personality |}
       end
     end
   end).
Proof.
  unfold generateAnxietySuggestions, answer, request_of, await_post.
  cbn [bind try_catch run].
  destruct (upstream _ _) as [error|response].
  - cbn [bind try_catch]. rewrite run_on_error. reflexivity.
  - cbn [bind try_catch]. unfold parse_content.
    destruct (JSON_parse _) as [parsedContent|].
    + cbn [bind try_catch]. unfold lift.
      destruct (suggestions_of parsedContent) as [e|suggestions] eqn:E.
      * cbn [bind try_catch]. rewrite run_on_error.
        rewrite (caught_TypeError (suggestions_of_throws _ E)). reflexivity.
      * reflexivity.
    + cbn [bind try_catch]. rewrite run_on_error. reflexivity.
Qed.

(** ** The request (C8) *)

(** C8. Every invocation issues exactly one upstream request, a POST to the
    chat-completion endpoint, whose body holds exactly two messages (the
    system message with the selected template, then the user message with
    the composed prompt), a temperature equal to 2 (the top of the 0-2
    scale), a positive [max_tokens] budget and
    [response_format: {type: 'json_object'}]. *)
Theorem generate_issues_one_request :
  forall upstream title historyContext personality titleContext,
  exists body,
    fst (run upstream
           (generateAnxietySuggestions title historyContext personality titleContext))
    = [(utf16 "/chat/completions", body)]
    /\ member body "messages"
       = Some (JArray
           [ JObject [ (utf16 "role", str "system");
                       (utf16 "content",
                        JString (systemPrompt (default (utf16 "green") personality))) ];
             JObject [ (utf16 "role", str "user");
                       (utf16 "content",
                        JString (userPrompt title (default [] titleContext)
                                            (default [] historyContext))) ] ])
    /\ (exists m e, member body "temperature" = Some (JNumber m e)
                    /\ number_value m e == 2)
    /\ (exists n, member body "max_tokens" = Some (JNumber n 0) /\ (0 < n)%Z)
    /\ member body "response_format"
       = Some (JObject [ (utf16 "type", str "json_object") ]).
Proof.
  intros. rewrite run_generateAnxietySuggestions. cbn [fst].
  eexists. split; [reflexivity|].
  split; [reflexivity|].
  split; [exists 20%Z, (-1)%Z; split; reflexivity|].
  split; [exists 1500%Z; split; reflexivity|].
  reflexivity.
Qed.

(** ** The echoed personality (C10) *)

(** C10. When a call returns, the [personality] of the result is the
    caller's argument verbatim, whether or not it names one of the three
    personalities. *)
Theorem result_echoes_personality :
  forall upstream title historyContext personality titleContext result,
    snd (run upstream
           (generateAnxietySuggestions title historyContext (Some personality)
                                       titleContext))
    = inr result ->
    AiResponse.personality result = personality.
Proof.
  intros upstream title historyContext personality titleContext result.
  rewrite run_generateAnxietySuggestions. cbn [snd].
  destruct (answer _ _ _ _ _) as [error|response]; [discriminate|].
  destruct (JSON_parse _) as [parsedContent|]; [|discriminate].
  destruct (suggestions_of parsedContent); [discriminate|].
  intros H. injection H as <-. reflexivity.
Qed.

Lemma result_echoes_personality_witness :
  exists result,
    snd (run (answering (utf16 "[]"))
           (generateAnxietySuggestions (utf16 "report") None
                                       (Some (utf16 "purple")) None))
    = inr result
    /\ AiResponse.personality result = utf16 "purple"
    /\ systemPrompt (utf16 "purple") = getGreenPersonalityPromptV2.
Proof.
  eexists. split; [|split].
  - rewrite run_generateAnxietySuggestions. reflexivity.
  - apply (@result_echoes_personality (answering (utf16 "[]")) (utf16 "report")
             None (utf16 "purple") None).
    rewrite run_generateAnxietySuggestions. reflexivity.
  - reflexivity.
Defined.

(** ** Upstream failures (C4) *)

(** C4. On the path of one call, a rejection with status 401 is rethrown as
    the authentication error, one with status 429 as the rate-limit error,
    and any other rejection (no response at all, as on a timeout or a network
    failure, or a response with another status, such as 5xx) as the
    unavailable error; the three errors are pairwise different. *)
Theorem upstream_failures_map_to_three_errors :
  forall upstream title historyContext personality titleContext error,
    answer upstream title historyContext personality titleContext = inl error ->
    let outcome :=
      snd (run upstream
             (generateAnxietySuggestions title historyContext personality titleContext))
    in
    (forall m d, error = AxiosError m (Some {| Http.status := 401; Http.data := d |}) ->
                 outcome = inl AuthenticationError)
    /\ (forall m d, error = AxiosError m (Some {| Http.status := 429; Http.data := d |}) ->
                    outcome = inl RateLimitedError)
    /\ (forall m, error = AxiosError m None -> outcome = inl UpstreamUnavailableError)
    /\ (forall m r, error = AxiosError m (Some r) ->
                    Http.status r <> 401%Z -> Http.status r <> 429%Z ->
                    outcome = inl UpstreamUnavailableError)
    /\ AuthenticationError <> RateLimitedError
    /\ AuthenticationError <> UpstreamUnavailableError
    /\ RateLimitedError <> UpstreamUnavailableError.
Proof.
  intros upstream title historyContext personality titleContext error Hanswer outcome.
  subst outcome. rewrite run_generateAnxietySuggestions. cbn [snd].
  rewrite Hanswer.
  repeat split.
  - intros m d ->. reflexivity.
  - intros m d ->. reflexivity.
  - intros m ->. reflexivity.
  - intros m r -> H401 H429. unfold caught, response_status_is.
    destruct (Z.eqb_spec (Http.status r) 401); [contradiction|].
    destruct (Z.eqb_spec (Http.status r) 429); [contradiction|].
    reflexivity.
  - discriminate.
  - discriminate.
  - discriminate.
Qed.

Lemma upstream_failures_map_to_three_errors_witness :
  snd (run (rejecting (status_error 401))
         (generateAnxietySuggestions (utf16 "report") None None None))
  = inl AuthenticationError
  /\ snd (run (rejecting (status_error 429))
            (generateAnxietySuggestions (utf16 "report") None None None))
     = inl RateLimitedError
  /\ snd (run (rejecting timeout_error)
            (generateAnxietySuggestions (utf16 "report") None None None))
     = inl UpstreamUnavailableError
  /\ snd (run (rejecting (status_error 503))
            (generateAnxietySuggestions (utf16 "report") None None None))
     = inl UpstreamUnavailableError.
Proof.
  split; [|split; [|split]].
  - refine (proj1 (@upstream_failures_map_to_three_errors
                     (rejecting (status_error 401)) (utf16 "report") None None None
                     (status_error 401) eq_refl) _ _ eq_refl).
  - refine (proj1 (proj2 (@upstream_failures_map_to_three_errors
                     (rejecting (status_error 429)) (utf16 "report") None None None
                     (status_error 429) eq_refl)) _ _ eq_refl).
  - refine (proj1 (proj2 (proj2 (@upstream_failures_map_to_three_errors
                     (rejecting timeout_error) (utf16 "report") None None None
                     timeout_error eq_refl))) _ eq_refl).
  - refine (proj1 (proj2 (proj2 (proj2 (@upstream_failures_map_to_three_errors
                     (rejecting (status_error 503)) (utf16 "report") None None None
                     (status_error 503) eq_refl)))) _ _ eq_refl _ _);
      cbn; discriminate.
Defined.

(** ** Completions that are not JSON (C2) *)

(** Whatever the completion text that fails to parse, the call returns no
    result, partial or not: it throws, and the error that leaves the method
    is the generic one of the outer [catch], not the error the inner [catch]
    threw. *)
Lemma parse_failure_outcome :
  forall upstream title historyContext personality titleContext response,
    answer upstream title historyContext personality titleContext = inr response ->
    JSON_parse (Http.choices_0_message_content (Http.data response)) = None ->
    snd (run upstream
           (generateAnxietySuggestions title historyContext personality titleContext))
    = inl UpstreamUnavailableError.
Proof.
  intros upstream title historyContext personality titleContext response Ha Hp.
  rewrite run_generateAnxietySuggestions. cbn [snd]. rewrite Ha, Hp.
  reflexivity.
Qed.

(** C2 at the completion text [not json]: it does not parse, the inner
    [catch] throws the error of a malformed completion, and that error
    never leaves the method: thrown inside the outer [try], it is rethrown
    by the outer [catch] as the generic error, the very value an upstream
    timeout gives.  The caller cannot tell the two failures apart, by kind or
    by text. *)
Theorem parse_failure_rethrown_as_unavailable :
  JSON_parse (utf16 "not json") = None
  /\ (exists m,
         snd (run (rejecting (status_error 401))
                (generateAnxietySuggestions (utf16 "report") None None None))
         = inl (Error m))
  /\ snd (run (answering (utf16 "not json"))
            (generateAnxietySuggestions (utf16 "report") None None None))
     = snd (run (rejecting timeout_error)
              (generateAnxietySuggestions (utf16 "report") None None None))
  /\ snd (run (answering (utf16 "not json"))
            (generateAnxietySuggestions (utf16 "report") None None None))
     = inl UpstreamUnavailableError
  /\ snd (run (answering (utf16 "not json"))
            (generateAnxietySuggestions (utf16 "report") None None None))
     <> inl ResponseFormatError.
Proof.
  rewrite !run_generateAnxietySuggestions. cbn [snd].
  assert (E : JSON_parse (utf16 "not json") = None) by (vm_compute; reflexivity).
  split; [exact E|].
  unfold answer, request_of, answering, rejecting, completion.
  cbn [Http.data Http.choices_0_message_content]. rewrite E.
  split; [eexists; reflexivity|].
  split; [reflexivity|]. split; [reflexivity|]. discriminate.
Qed.

(** ** Values of no accepted shape (C3) *)

(** A value other than [null] reads as [member] says. *)
Lemma get_member v name : v <> JNull -> get v name = inr (member v name).
Proof. destruct v; intros H; try reflexivity. contradiction. Qed.

(** Away from [null], a parsed value that is not an array, has no array
    under [suggestions] and no [message] gives the empty list. *)
Lemma unrecognized_non_null_gives_empty v :
  v <> JNull ->
  Array_isArray (Some v) = None ->
  Array_isArray (member v "suggestions") = None ->
  member v "message" = None ->
  suggestions_of v = inr [].
Proof.
  intros Hnull Harr Hsug Hmsg. unfold suggestions_of.
  rewrite Harr, !get_member by assumption. cbn [cbind].
  rewrite Hsug, Hmsg. destruct (ToBoolean (member v "suggestions")); reflexivity.
Qed.

(** C3 at the completion text [null]: it parses, to a value that is no
    array and has no field at all, and the call throws instead of returning
    the empty list (the read of [parsedContent.suggestions] on [null] raises
    a [TypeError], which the outer [catch] rethrows). *)
Theorem null_completion_throws :
  JSON_parse (utf16 "null") = Some JNull
  /\ Array_isArray (Some JNull) = None
  /\ member JNull "suggestions" = None
  /\ member JNull "message" = None
  /\ Spec.normalize JNull = None
  /\ snd (run (answering (utf16 "null"))
            (generateAnxietySuggestions (utf16 "report") None None None))
     = inl UpstreamUnavailableError.
Proof.
  assert (E : JSON_parse (utf16 "null") = Some JNull) by (vm_compute; reflexivity).
  repeat (split; [first [exact E | reflexivity]|]).
  rewrite run_generateAnxietySuggestions. cbn [snd].
  unfold answer, request_of, answering, completion.
  cbn [Http.data Http.choices_0_message_content]. rewrite E. reflexivity.
Qed.

(** ** The three accepted shapes (C1) *)

Lemma suggestion_of_item_non_null item :
  item <> JNull -> suggestion_of_item item = inr (item_mapping item).
Proof.
  intros H. unfold suggestion_of_item, item_mapping.
  rewrite (get_member "message" H). cbn [cbind].
  destruct (member item "message") as [m|] eqn:Em.
  - destruct (ToBoolean (Some m)) eqn:Tm.
    + cbn [cbind]. rewrite (get_member "type" H). cbn [cbind].
      cbn [first_truthy or_value]. rewrite Tm.
      destruct (member item "type") as [t|]; [|reflexivity].
      cbn [or_value]. reflexivity.
    + rewrite (get_member "text" H). cbn [cbind].
      rewrite (get_member "type" H). cbn [cbind].
      cbn [first_truthy]. rewrite Tm.
      destruct (member item "text") as [x|], (member item "type") as [t|];
        reflexivity.
  - cbn [ToBoolean]. rewrite (get_member "text" H). cbn [cbind].
    rewrite (get_member "type" H). cbn [cbind].
    destruct (member item "text") as [x|], (member item "type") as [t|];
      reflexivity.
Qed.

Lemma Array_map_non_null items :
  Forall (fun item => item <> JNull) items ->
  Array_map suggestion_of_item items = inr (map item_mapping items).
Proof.
  induction 1 as [|item items Hitem _ IH]; [reflexivity|].
  cbn [Array_map map]. rewrite (suggestion_of_item_non_null Hitem).
  cbn [cbind]. rewrite IH. reflexivity.
Qed.




(** ** The prompt catalogue (C5) *)

Lemma length_neq {A} (a b : list A) : List.length a <> List.length b -> a <> b.
Proof. intros H ->. now apply H. Qed.

(** C5. The templates selected for [green], [yellow] and [red] are non-empty
    and pairwise different, namely the three prompt constants, and any other
    personality selects the template of [green]. *)
Theorem template_selection :
  let green := utf16 "green" in
  let yellow := utf16 "yellow" in
  let red := utf16 "red" in
  (systemPrompt green = getGreenPersonalityPromptV2
   /\ systemPrompt yellow = getYellowPersonalityPromptV2
   /\ systemPrompt red = getRedPersonalityPromptV2)
  /\ (systemPrompt green <> [] /\ systemPrompt yellow <> [] /\ systemPrompt red <> [])
  /\ (systemPrompt green <> systemPrompt yellow
      /\ systemPrompt green <> systemPrompt red
      /\ systemPrompt yellow <> systemPrompt red)
  /\ (forall personality,
         personality <> green -> personality <> yellow -> personality <> red ->
         systemPrompt personality = systemPrompt green).
Proof.
  intros green yellow red. subst green yellow red.
  split; [repeat apply conj; vm_compute; reflexivity|].
  split; [|split].
  - repeat split; apply length_neq; vm_compute; discriminate.
  - repeat split; apply length_neq; vm_compute; discriminate.
  - intros personality Hg Hy Hr.
    assert (E : systemPrompt (utf16 "green") = getGreenPersonalityPromptV2)
      by (vm_compute; reflexivity).
    rewrite E. unfold systemPrompt.
    rewrite (jsstring_eqb_neq Hy), (jsstring_eqb_neq Hr), (jsstring_eqb_neq Hg).
    reflexivity.
Qed.

Lemma template_selection_witness :
  systemPrompt (utf16 "purple") = systemPrompt (utf16 "green").
Proof.
  apply (proj2 (proj2 (proj2 template_selection))); vm_compute; discriminate.
Defined.

(** ** [trim] *)

Lemma trimStart_split s :
  exists l, s = l ++ trimStart s /\ whitespace_only l = true.
Proof.
  unfold whitespace_only.
  induction s as [|c s [l [E W]]]; [exists []; split; reflexivity|].
  cbn [trimStart]. destruct (isWhiteSpace c) eqn:Hc.
  - exists (c :: l). cbn [forallb app]. rewrite Hc, W.
    split; [f_equal; exact E|reflexivity].
  - exists []. split; reflexivity.
Qed.

Lemma trimStart_head s c : hd_error (trimStart s) = Some c -> isWhiteSpace c = false.
Proof.
  induction s as [|a s IH]; cbn [trimStart]; [discriminate|].
  destruct (isWhiteSpace a) eqn:Ha; [exact IH|].
  cbn. intros H. injection H as <-. exact Ha.
Qed.

Lemma trimStart_whitespace s : whitespace_only s = true -> trimStart s = [].
Proof.
  unfold whitespace_only.
  induction s as [|c s IH]; [reflexivity|]. cbn [forallb trimStart].
  destruct (isWhiteSpace c); [exact IH|discriminate].
Qed.

Lemma whitespace_only_app a b :
  whitespace_only (a ++ b) = whitespace_only a && whitespace_only b.
Proof. apply forallb_app. Qed.

Lemma whitespace_only_rev a : whitespace_only (rev a) = whitespace_only a.
Proof.
  induction a as [|c a IH]; [reflexivity|].
  cbn [rev]. rewrite whitespace_only_app, IH. unfold whitespace_only.
  cbn [forallb]. destruct (isWhiteSpace c), (forallb isWhiteSpace a); reflexivity.
Qed.

Lemma trimEnd_split s :
  exists r, s = trimEnd s ++ r /\ whitespace_only r = true.
Proof.
  unfold trimEnd. destruct (trimStart_split (rev s)) as [l [E W]].
  exists (rev l). split.
  - rewrite <- rev_app_distr, <- E, rev_involutive. reflexivity.
  - rewrite whitespace_only_rev. exact W.
Qed.

Lemma trimEnd_last s c : hd_error (rev (trimEnd s)) = Some c -> isWhiteSpace c = false.
Proof. unfold trimEnd. rewrite rev_involutive. apply trimStart_head. Qed.

Lemma trimEnd_head s c :
  hd_error s = Some c -> isWhiteSpace c = false -> hd_error (trimEnd s) = Some c.
Proof.
  intros Hs Hc. destruct (trimEnd_split s) as [r [E W]].
  destruct (trimEnd s) as [|a t] eqn:Et.
  - cbn in E. subst r. destruct s as [|a s]; [discriminate|].
    cbn in Hs. injection Hs as ->. unfold whitespace_only in W.
    cbn [forallb] in W. rewrite Hc in W. discriminate.
  - rewrite E in Hs. exact Hs.
Qed.

(** [trim s] is [s] without a white-space prefix and a white-space suffix,
    and neither starts nor ends with white space. *)
Lemma trim_spec s :
  exists l r,
    s = l ++ trim s ++ r
    /\ whitespace_only l = true /\ whitespace_only r = true
    /\ (forall c, hd_error (trim s) = Some c -> isWhiteSpace c = false)
    /\ (forall c, hd_error (rev (trim s)) = Some c -> isWhiteSpace c = false).
Proof.
  unfold trim.
  destruct (trimStart_split s) as [l [El Wl]].
  destruct (trimEnd_split (trimStart s)) as [r [Er Wr]].
  exists l, r. repeat split; try assumption.
  - rewrite <- Er. exact El.
  - intros c Hc. destruct (trimStart s) as [|a t] eqn:Et; [discriminate|].
    assert (Ha : isWhiteSpace a = false)
      by (apply (@trimStart_head s); rewrite Et; reflexivity).
    rewrite (@trimEnd_head (a :: t) a eq_refl Ha) in Hc.
    injection Hc as <-. exact Ha.
  - apply trimEnd_last.
Qed.

Lemma trim_whitespace s : whitespace_only s = true -> trim s = [].
Proof. intros H. unfold trim. rewrite (trimStart_whitespace _ H). reflexivity. Qed.

Lemma trim_empty_whitespace s : trim s = [] -> whitespace_only s = true.
Proof.
  intros H. destruct (trim_spec s) as [l [r [E [Wl [Wr _]]]]].
  rewrite H in E. cbn in E. rewrite E, whitespace_only_app, Wl, Wr. reflexivity.
Qed.

Lemma trim_not_whitespace s : whitespace_only s = false -> trim s <> [].
Proof.
  intros H E. apply trim_empty_whitespace in E. congruence.
Qed.

(** ** The context line (C7) *)

Lemma userPrompt_context title titleContext historyContext :
  userPrompt title titleContext historyContext =
  userPrompt title [] []
    ++ (if whitespace_only titleContext then []
        else context_label ++ trim titleContext)
    ++ (match historyContext with
        | [] => []
        | _ :: _ => history_header
                      ++ join nl (map_index history_line 0 historyContext)
                      ++ history_instruction
        end).
Proof.
  change (userPrompt title [] []) with (topic_prefix ++ title).
  unfold userPrompt.
  assert (C : ToBoolean (Some (JString titleContext))
              && (0 <? List.length (trim titleContext))%nat
              = negb (whitespace_only titleContext)).
  { destruct (whitespace_only titleContext) eqn:W.
    - rewrite (trim_whitespace _ W). apply andb_false_r.
    - pose proof (trim_not_whitespace _ W) as T.
      destruct titleContext as [|c s]; [discriminate W|].
      destruct (trim (c :: s)); [contradiction|reflexivity]. }
  rewrite C. clear C.
  destruct (whitespace_only titleContext);
    destruct historyContext as [|item items];
    cbv beta iota zeta delta [negb List.length Nat.ltb Nat.leb];
    generalize (join nl (map_index history_line 0 (item :: items)))
      || idtac;
    generalize topic_prefix, context_label, history_header,
               history_instruction, (trim titleContext);
    intros; rewrite ?app_nil_r, <- ?app_assoc; reflexivity.
Qed.



(** ** The history listing (C6) *)

Lemma join_cons sep p ps :
  join sep (p :: ps)
  = p ++ match ps with [] => [] | _ :: _ => sep ++ join sep ps end.
Proof. destruct ps; cbn [join]; [now rewrite app_nil_r|reflexivity]. Qed.

Lemma map_index_length {A B} (f : A -> N -> B) i l :
  List.length (map_index f i l) = List.length l.
Proof.
  revert i. induction l as [|x l IH]; intros i; [reflexivity|].
  cbn. now rewrite IH.
Qed.

Lemma map_index_nth {A B} (f : A -> N -> B) l :
  forall i n x,
    nth_error l n = Some x ->
    nth_error (map_index f i l) n = Some (f x (i + N.of_nat n)%N).
Proof.
  induction l as [|y l IH]; intros i n x; destruct n as [|n]; cbn [nth_error map_index];
    try discriminate.
  - intros H. injection H as ->. now rewrite N.add_0_r.
  - intros H. rewrite (@IH (i + 1)%N n x H). do 2 f_equal. lia.
Qed.

Lemma occur_in_order_prepend ts p s :
  occur_in_order ts s -> occur_in_order ts (p ++ s).
Proof.
  intros H. destruct H as [s|t ts before rest s E H]; [constructor|].
  apply occur_next with (before := p ++ before) (rest := rest); [|exact H].
  rewrite E, <- app_assoc. reflexivity.
Qed.

Lemma history_lines_in_order historyContext :
  forall i,
    occur_in_order (map suggestion_text historyContext)
                   (join nl (map_index history_line i historyContext)).
Proof.
  induction historyContext as [|item items IH]; intros i; [constructor|].
  cbn [map map_index]. rewrite join_cons. unfold history_line at 1.
  generalize (Number_toString (i + 1)) (utf16 ". ") (utf16 " (类型: ") (utf16 ")").
  intros number dot open close.
  apply occur_next
    with (before := number ++ dot)
         (rest := (open ++ suggestion_type item ++ close)
                    ++ match map_index history_line (i + 1) items with
                       | [] => []
                       | _ :: _ => nl ++ join nl (map_index history_line (i + 1) items)
                       end).
  - rewrite <- !app_assoc. reflexivity.
  - destruct items as [|next items]; [constructor|].
    apply occur_in_order_prepend.
    change (map_index history_line (i + 1) (next :: items))
      with (history_line next (i + 1)
              :: map_index history_line (i + 1 + 1) items) at 1.
    cbv iota. apply occur_in_order_prepend. apply IH.
Qed.

Lemma double_line_feed_unfold c d s :
  double_line_feed (c :: d :: s)
  = ((c =? 10)%N && (d =? 10)%N) || double_line_feed (d :: s).
Proof. reflexivity. Qed.

Lemma double_line_feed_cons c s :
  (c =? 10)%N = false -> double_line_feed (c :: s) = double_line_feed s.
Proof.
  intros H. cbn [double_line_feed]. rewrite H.
  destruct s; reflexivity.
Qed.

Lemma double_line_feed_skip a b :
  no_line_feed a = true -> double_line_feed (a ++ b) = double_line_feed b.
Proof.
  unfold no_line_feed.
  induction a as [|c a IH]; [reflexivity|]. cbn [forallb app].
  intros H. apply andb_prop in H as [Hc Ha].
  rewrite double_line_feed_cons by (now apply negb_true_iff). now apply IH.
Qed.

Lemma double_line_feed_app_r a b :
  double_line_feed b = true -> double_line_feed (a ++ b) = true.
Proof.
  intros H. induction a as [|c a IH]; [exact H|].
  cbn [app]. destruct (a ++ b) as [|d l]; [discriminate IH|].
  rewrite double_line_feed_unfold, IH. apply orb_true_r.
Qed.

Lemma double_line_feed_app_l a b :
  double_line_feed a = true -> double_line_feed (a ++ b) = true.
Proof.
  induction a as [|c a IH]; [discriminate|].
  destruct a as [|d a]; [discriminate|].
  cbn [app] in *. rewrite !double_line_feed_unfold.
  intros H. apply orb_prop in H as [H|H].
  - rewrite H. reflexivity.
  - rewrite (IH H). apply orb_true_r.
Qed.

Lemma occurs_double_line_feed w s :
  double_line_feed w = true -> occurs w s -> double_line_feed s = true.
Proof.
  intros H [before [rest ->]].
  apply double_line_feed_app_r, double_line_feed_app_l, H.
Qed.

Lemma double_line_feed_after_line_feed a b :
  no_line_feed a = true -> a <> [] ->
  double_line_feed (10%N :: a ++ b) = double_line_feed b.
Proof.
  intros Ha Hne. destruct a as [|c a]; [contradiction|].
  cbn [app]. rewrite double_line_feed_unfold.
  change (c :: a ++ b) with ((c :: a) ++ b).
  rewrite (double_line_feed_skip _ b Ha).
  unfold no_line_feed in Ha. cbn [forallb] in Ha.
  apply andb_prop in Ha as [Hc _]. apply negb_true_iff in Hc. rewrite Hc.
  reflexivity.
Qed.

(** Built from a topic and a trimmed context of one line each, the prompt
    of the empty history holds no empty line. *)
Lemma prompt_without_history_single_spaced title titleContext :
  no_line_feed title = true ->
  no_line_feed (trim titleContext) = true ->
  double_line_feed (userPrompt title titleContext []) = false.
Proof.
  intros Ht Hc. rewrite userPrompt_context.
  change (userPrompt title [] []) with (topic_prefix ++ title).
  rewrite app_nil_r, <- app_assoc.
  rewrite double_line_feed_skip by (vm_compute; reflexivity).
  rewrite double_line_feed_skip by exact Ht.
  destruct (whitespace_only titleContext); [reflexivity|].
  unfold context_label, nl. rewrite <- app_assoc. cbn [app].
  rewrite double_line_feed_after_line_feed.
  - rewrite <- (app_nil_r (trim titleContext)).
    now rewrite double_line_feed_skip.
  - vm_compute. reflexivity.
  - apply length_neq. vm_compute. discriminate.
Qed.

(** A text that begins with a line feed occurs behind a single line where
    it occurs without it. *)
Lemma occurs_past_single_line a w s :
  no_line_feed a = true ->
  occurs (10%N :: w) (a ++ s) <-> occurs (10%N :: w) s.
Proof.
  intros Ha. split.
  - intros [before [rest E]]. revert before E.
    induction a as [|c a IH]; intros before E.
    + exists before, rest. exact E.
    + unfold no_line_feed in Ha. cbn [forallb] in Ha.
      apply andb_prop in Ha as [Hc Ha]. apply negb_true_iff, N.eqb_neq in Hc.
      destruct before as [|b before].
      * cbn [app] in E. injection E as E _. contradiction.
      * cbn [app] in E. injection E as _ E. exact (IH Ha before E).
  - intros [before [rest ->]]. exists (a ++ before), rest.
    now rewrite <- app_assoc.
Qed.

(** C6, as stated, fails: the title is copied into the prompt as it is, so a
    title that holds the header, a numbered line and the instruction gives,
    with an empty history, a prompt in which both the listing and the
    instruction occur; it is the very prompt of the title [report] with a
    history of one entry.  The title is trimmed and 62 code units long. *)
Lemma history_text_can_come_from_title :
  let title :=
    utf16 "report" ++ nl ++ nl ++ utf16 "历史建议记录：" ++ nl
      ++ utf16 "1. rest (类型: immediate)"
      ++ nl ++ nl ++ utf16 "请基于历史记录提供新的、差异化较大的建议。" in
  trim title = title
  /\ List.length title = 62%nat
  /\ occurs history_header (userPrompt title [] [])
  /\ occurs history_instruction (userPrompt title [] [])
  /\ userPrompt title [] []
     = userPrompt (utf16 "report") []
                  [ {| suggestion_text := utf16 "rest";
                       suggestion_type := utf16 "immediate" |} ].
Proof.
  intros title. subst title.
  split; [vm_compute; reflexivity|].
  split; [vm_compute; reflexivity|].
  split; [|split].
  - exists (topic_prefix ++ utf16 "report"),
           (utf16 "1. rest (类型: immediate)" ++ history_instruction).
    vm_compute. reflexivity.
  - exists (topic_prefix ++ utf16 "report" ++ history_header
              ++ utf16 "1. rest (类型: immediate)"),
           [].
    vm_compute. reflexivity.
  - vm_compute. reflexivity.
Qed.

(** C6, amended. With a history of N > 0 entries the prompt is the prompt of
    the empty history followed by the header, one line per entry and the
    de-duplication instruction at the very end; line [i] (from 1) is
    [i. text (类型: type)], so the N texts occur in the listing in their
    order.  With an empty history the code appends neither: the prompt is
    the topic line and, if any, the context line, nothing else, so the
    header or the instruction occurs in it exactly when it occurs in the
    text the caller gave, the title followed by the context line. *)
Theorem history_inclusion :
  forall title titleContext,
    userPrompt title titleContext []
    = topic_prefix ++ title
        ++ (if whitespace_only titleContext then []
            else context_label ++ trim titleContext)
    /\ (forall first rest,
           let historyContext := first :: rest in
           let lines := map_index history_line 0 historyContext in
           userPrompt title titleContext historyContext
           = userPrompt title titleContext []
               ++ (nl ++ nl ++ utf16 "历史建议记录：" ++ nl)
               ++ join nl lines
               ++ (nl ++ nl ++ utf16 "请基于历史记录提供新的、差异化较大的建议。")
           /\ List.length lines = List.length historyContext
           /\ (forall i item,
                  nth_error historyContext i = Some item ->
                  nth_error lines i
                  = Some (Number_toString (N.of_nat (i + 1)) ++ utf16 ". "
                            ++ suggestion_text item ++ utf16 " (类型: "
                            ++ suggestion_type item ++ utf16 ")"))
           /\ occur_in_order (map suggestion_text historyContext) (join nl lines))
    /\ (let given :=
          title ++ (if whitespace_only titleContext then []
                    else context_label ++ trim titleContext) in
        (occurs history_header (userPrompt title titleContext [])
         <-> occurs history_header given)
        /\ (occurs history_instruction (userPrompt title titleContext [])
            <-> occurs history_instruction given)).
Proof.
  intros title titleContext.
  assert (E : userPrompt title titleContext []
              = topic_prefix ++ title
                  ++ (if whitespace_only titleContext then []
                      else context_label ++ trim titleContext)).
  { rewrite userPrompt_context.
    change (userPrompt title [] []) with (topic_prefix ++ title).
    rewrite app_nil_r, <- app_assoc. reflexivity. }
  split; [exact E|split].
  - intros first rest historyContext lines. subst lines historyContext.
    split; [|split; [|split]].
    + rewrite (userPrompt_context title titleContext (first :: rest)).
      rewrite (userPrompt_context title titleContext []).
      fold history_header. fold history_instruction.
      rewrite app_nil_r, <- !app_assoc. reflexivity.
    + apply map_index_length.
    + intros i item H. rewrite (@map_index_nth _ _ history_line _ 0%N i item H).
      unfold history_line. do 3 f_equal. lia.
    + apply history_lines_in_order.
  - cbv zeta. rewrite E.
    assert (P : no_line_feed topic_prefix = true) by (vm_compute; reflexivity).
    split.
    + change history_header with (10%N :: nl ++ utf16 "历史建议记录：" ++ nl).
      apply occurs_past_single_line, P.
    + change history_instruction
        with (10%N :: nl ++ utf16 "请基于历史记录提供新的、差异化较大的建议。").
      apply occurs_past_single_line, P.
Qed.

Lemma history_inclusion_witness :
  let earlier :=
    [ {| suggestion_text := utf16 "breathe"; suggestion_type := utf16 "immediate" |};
      {| suggestion_text := utf16 "walk"; suggestion_type := utf16 "short_term" |} ] in
  userPrompt (utf16 "report") [] earlier
  = utf16 "正在拖延的事情：report" ++ nl ++ nl ++ utf16 "历史建议记录：" ++ nl
      ++ utf16 "1. breathe (类型: immediate)" ++ nl
      ++ utf16 "2. walk (类型: short_term)"
      ++ nl ++ nl ++ utf16 "请基于历史记录提供新的、差异化较大的建议。"
  /\ ~ occurs history_instruction (userPrompt (utf16 "report") [] []).
Proof.
  intros earlier. split.
  - subst earlier.
    rewrite (proj1 (proj1 (proj2 (history_inclusion (utf16 "report") [])) _ _)).
    vm_compute. reflexivity.
  - intros O.
    apply (proj2 (proj2 (proj2 (history_inclusion (utf16 "report") [])))) in O.
    apply occurs_double_line_feed in O; [|vm_compute; reflexivity].
    vm_compute in O. discriminate O.
Defined.

(** ** The health probe (C9) *)

(** C9, as stated, fails: the result carries [error.message] as it is, and a
    rejection whose message is the empty string gives an unhealthy result
    with an empty error string. *)
Lemma health_error_can_be_empty :
  snd (run (rejecting (AxiosError [] None)) checkHealth)
  = inr {| Health.success := false;
           Health.status := utf16 "unhealthy";
           Health.model := None;
           Health.error := Some [] |}.
Proof. reflexivity. Qed.

(** C9, amended. [checkHealth] issues its one probe and always returns: a
    healthy result carrying the model the upstream reports when the request
    is fulfilled, and, on any rejection, an unhealthy result carrying the
    rejection's message as it is (non-empty whenever that message is). *)
Theorem checkHealth_reports :
  forall upstream,
    let probe := upstream (utf16 "/chat/completions") health_request in
    let outcome := snd (run upstream checkHealth) in
    fst (run upstream checkHealth) = [(utf16 "/chat/completions", health_request)]
    /\ (exists result, outcome = inr result)
    /\ (forall response,
           probe = inr response ->
           outcome = inr {| Health.success := true;
                            Health.status := utf16 "healthy";
                            Health.model := Some (Http.model (Http.data response));
                            Health.error := None |})
    /\ (forall error,
           probe = inl error ->
           outcome = inr {| Health.success := false;
                            Health.status := utf16 "unhealthy";
                            Health.model := None;
                            Health.error := Some (message error) |}
           /\ (message error <> [] ->
               forall result, outcome = inr result -> Health.error result <> Some [])).
Proof.
  intros upstream probe outcome. subst probe outcome.
  unfold checkHealth, await_post. cbn [bind try_catch run fst snd].
  destruct (upstream (utf16 "/chat/completions") health_request) as [error|response];
    cbn [bind try_catch run fst snd].
  - split; [reflexivity|]. split; [eexists; reflexivity|].
    split; [discriminate|].
    intros error' E. injection E as <-. split; [reflexivity|].
    intros Hm result R. injection R as <-. cbn. congruence.
  - split; [reflexivity|]. split; [eexists; reflexivity|].
    split; [|discriminate].
    intros response' E. injection E as <-. reflexivity.
Qed.

Lemma checkHealth_reports_witness :
  snd (run (answering (utf16 "Hi")) checkHealth)
  = inr {| Health.success := true;
           Health.status := utf16 "healthy";
           Health.model := Some (utf16 "deepseek-chat");
           Health.error := None |}
  /\ snd (run (rejecting timeout_error) checkHealth)
     = inr {| Health.success := false;
              Health.status := utf16 "unhealthy";
              Health.model := None;
              Health.error := Some (utf16 "timeout of 30000ms exceeded") |}
  /\ snd (run (rejecting (status_error 401)) checkHealth)
     = inr {| Health.success := false;
              Health.status := utf16 "unhealthy";
              Health.model := None;
              Health.error := Some (utf16 "Request failed with status code 401") |}.
Proof.
  split; [|split].
  - rewrite (proj1 (proj2 (proj2 (checkHealth_reports (answering (utf16 "Hi")))))
               (completion (utf16 "Hi")) eq_refl).
    vm_compute. reflexivity.
  - rewrite (proj1 (proj2 (proj2 (proj2 (checkHealth_reports (rejecting timeout_error))))
                      timeout_error eq_refl)).
    vm_compute. reflexivity.
  - rewrite (proj1 (proj2 (proj2 (proj2 (checkHealth_reports
                                           (rejecting (status_error 401)))))
                      (status_error 401) eq_refl)).
    vm_compute. reflexivity.
Defined.

(* ------------------------------------------------------------------ *)
(** * Further properties of the service *)
(* ------------------------------------------------------------------ *)

(** ** [generateChatResponse] *)

Lemma run_generateChatResponse upstream messages context :
  run upstream (generateChatResponse messages context) =
  ([(utf16 "/chat/completions", chat_request messages)],
   match upstream (utf16 "/chat/completions") (chat_request messages) with
   | inl error => inl (chat_caught error)
   | inr response =>
     inr (JObject
            [ (utf16 "success", JBool true);
              (utf16 "message",
               JString (Http.choices_0_message_content (Http.data response)));
              (utf16 "usage", Http.usage (Http.data response)) ])
   end).
Proof.
  unfold generateChatResponse, await_post. cbn [bind try_catch run].
  destruct (upstream _ _) as [error|response]; reflexivity.
Qed.

(** X1. Every call of [generateChatResponse] issues exactly one request; its
    [messages] are the system message followed by the caller's messages,
    unchanged and in their order, whatever their roles; the temperature is
    1.5, [max_tokens] is 800, [stream] is [false], and, unlike the request
    for suggestions, there is no [response_format]. *)
Theorem chat_request_shape :
  forall upstream messages context,
  exists body,
    fst (run upstream (generateChatResponse messages context))
    = [(utf16 "/chat/completions", body)]
    /\ (exists system,
           member body "messages" = Some (JArray (system :: messages))
           /\ member system "role" = Some (str "system")
           /\ member system "content" = Some (JString chatSystemPrompt))
    /\ (exists m e, member body "temperature" = Some (JNumber m e)
                    /\ number_value m e == 3 # 2)
    /\ member body "max_tokens" = Some (JNumber 800 0)
    /\ member body "stream" = Some (JBool false)
    /\ member body "response_format" = None.
Proof.
  intros. rewrite run_generateChatResponse. cbn [fst].
  eexists. split; [reflexivity|].
  split; [eexists; repeat split; reflexivity|].
  split; [exists 15%Z, (-1)%Z; split; reflexivity|].
  repeat split; reflexivity.
Qed.

(** X2. Whenever the upstream fulfils the request, [generateChatResponse]
    returns, with [success: true], the completion text as [message],
    verbatim and unparsed, and the upstream's [usage]; the result has no
    [content] and no [model] member. *)
Theorem chat_returns_completion_verbatim :
  forall upstream messages context response,
    upstream (utf16 "/chat/completions") (chat_request messages) = inr response ->
    exists result,
      snd (run upstream (generateChatResponse messages context)) = inr result
      /\ member result "success" = Some (JBool true)
      /\ member result "message"
         = Some (JString (Http.choices_0_message_content (Http.data response)))
      /\ member result "usage" = Some (Http.usage (Http.data response))
      /\ member result "content" = None
      /\ member result "model" = None.
Proof.
  intros upstream messages context response H.
  rewrite run_generateChatResponse, H. cbn [snd].
  eexists. repeat split; reflexivity.
Qed.

Lemma chat_returns_completion_verbatim_witness :
  (exists result,
      snd (run (answering (utf16 "not json")) (generateChatResponse [] None))
      = inr result
      /\ member result "message" = Some (str "not json"))
  /\ snd (run (answering (utf16 "not json"))
            (generateAnxietySuggestions (utf16 "report") None None None))
     = inl UpstreamUnavailableError.
Proof.
  split.
  - destruct (@chat_returns_completion_verbatim
                (answering (utf16 "not json")) [] None
                (completion (utf16 "not json")) eq_refl)
      as [result [R [_ [M _]]]].
    exists result. split; [exact R|exact M].
  - rewrite run_generateAnxietySuggestions. vm_compute. reflexivity.
Defined.

(** X3. When the upstream rejects the chat request, [generateChatResponse]
    throws: the authentication error on status 401 and the rate-limit error
    on status 429, the very errors of the suggestion path, and otherwise an
    error of its own, [Failed to generate chat response]. *)
Theorem chat_failures :
  forall upstream messages context error,
    upstream (utf16 "/chat/completions") (chat_request messages) = inl error ->
    let outcome := snd (run upstream (generateChatResponse messages context)) in
    (forall m d, error = AxiosError m (Some {| Http.status := 401; Http.data := d |}) ->
                 outcome = inl AuthenticationError)
    /\ (forall m d, error = AxiosError m (Some {| Http.status := 429; Http.data := d |}) ->
                    outcome = inl RateLimitedError)
    /\ (response_status_is error 401 = false ->
        response_status_is error 429 = false ->
        outcome = inl (Error (utf16 "Failed to generate chat response")))
    /\ Error (utf16 "Failed to generate chat response") <> UpstreamUnavailableError
    /\ Error (utf16 "Failed to generate chat response") <> AuthenticationError
    /\ Error (utf16 "Failed to generate chat response") <> RateLimitedError.
Proof.
  intros upstream messages context error H outcome. subst outcome.
  rewrite run_generateChatResponse, H. cbn [snd].
  repeat split.
  - intros m d ->. reflexivity.
  - intros m d ->. reflexivity.
  - intros H1 H2. unfold chat_caught. rewrite H1, H2. reflexivity.
  - discriminate.
  - discriminate.
  - discriminate.
Qed.

Lemma chat_failures_witness :
  snd (run (rejecting (status_error 401)) (generateChatResponse [] None))
  = inl AuthenticationError
  /\ snd (run (rejecting timeout_error) (generateChatResponse [] None))
     = inl (Error (utf16 "Failed to generate chat response")).
Proof.
  split.
  - refine (proj1 (@chat_failures (rejecting (status_error 401)) [] None
                     (status_error 401) eq_refl) _ _ eq_refl).
  - refine (proj1 (proj2 (proj2 (@chat_failures (rejecting timeout_error) [] None
                     timeout_error eq_refl))) eq_refl eq_refl).
Defined.

(** ** The outcomes of [generateAnxietySuggestions] *)

Lemma caught_cases error :
  (caught error = AuthenticationError /\ response_status_is error 401 = true)
  \/ (caught error = RateLimitedError /\ response_status_is error 429 = true)
  \/ (caught error = UpstreamUnavailableError
      /\ response_status_is error 401 = false
      /\ response_status_is error 429 = false).
Proof.
  unfold caught.
  destruct (response_status_is error 401); [left; split; reflexivity|].
  destruct (response_status_is error 429); [right; left; split; reflexivity|].
  right; right. repeat split.
Qed.

Lemma response_status_is_true error n :
  response_status_is error n = true <->
  exists m r, error = AxiosError m (Some r) /\ Http.status r = n.
Proof.
  split.
  - destruct error as [m|m|m [r|]]; cbn; try discriminate.
    intros H. apply Z.eqb_eq in H. now exists m, r.
  - intros [m [r [-> <-]]]. cbn. apply Z.eqb_refl.
Qed.

Lemma inl_inj {A B} (a b : A) : @inl A B a = inl b -> a = b.
Proof. intros H. injection H as H. exact H. Qed.

Lemma three_errors_distinct :
  AuthenticationError <> RateLimitedError
  /\ AuthenticationError <> UpstreamUnavailableError
  /\ RateLimitedError <> UpstreamUnavailableError.
Proof. repeat split; discriminate. Qed.

(** X4. A call of [generateAnxietySuggestions] ends in one of four ways: it
    returns a result whose [success] is [true], or it throws the
    authentication error, the rate-limit error or the unavailable error;
    no other value leaves the method, neither the rejection of the HTTP
    client nor a [TypeError].  The authentication error is thrown exactly
    when the upstream rejects with status 401, the rate-limit error exactly
    when it rejects with status 429. *)
Theorem generate_outcomes_closed :
  forall upstream title historyContext personality titleContext,
    let outcome :=
      snd (run upstream
             (generateAnxietySuggestions title historyContext personality titleContext)) in
    let rejected_with code :=
      exists m r,
        answer upstream title historyContext personality titleContext
        = inl (AxiosError m (Some r))
        /\ Http.status r = code in
    (forall result, outcome = inr result -> AiResponse.success result = true)
    /\ (forall e, outcome = inl e ->
                  e = AuthenticationError \/ e = RateLimitedError
                  \/ e = UpstreamUnavailableError)
    /\ (outcome = inl AuthenticationError <-> rejected_with 401%Z)
    /\ (outcome = inl RateLimitedError <-> rejected_with 429%Z).
Proof.
  intros upstream title historyContext personality titleContext outcome rejected_with.
  subst outcome rejected_with. cbv beta.
  rewrite run_generateAnxietySuggestions. cbn [snd].
  destruct three_errors_distinct as [AR [AU RU]].
  destruct (answer upstream title historyContext personality titleContext)
    as [error|response].
  - split; [discriminate|]. split; [|split].
    + intros e H. injection H as <-.
      destruct (caught_cases error) as [[-> _]|[[-> _]|[-> _]]];
        [left|right; left|right; right]; reflexivity.
    + split.
      * intros H. apply inl_inj in H.
        destruct (caught_cases error) as [[_ S]|[[E _]|[E _]]].
        -- apply response_status_is_true in S as [m [r [-> S]]].
           exists m, r. split; [reflexivity|exact S].
        -- rewrite E in H. exact (False_ind _ (AR (eq_sym H))).
        -- rewrite E in H. exact (False_ind _ (AU (eq_sym H))).
      * intros [m [r [E S]]]. injection E as ->. unfold caught.
        rewrite (proj2 (response_status_is_true _ 401%Z))
          by (exists m, r; split; [reflexivity|exact S]).
        reflexivity.
    + split.
      * intros H. apply inl_inj in H.
        destruct (caught_cases error) as [[E _]|[[_ S]|[E _]]].
        -- rewrite E in H. exact (False_ind _ (AR H)).
        -- apply response_status_is_true in S as [m [r [-> S]]].
           exists m, r. split; [reflexivity|exact S].
        -- rewrite E in H. exact (False_ind _ (RU (eq_sym H))).
      * intros [m [r [E S]]]. injection E as ->. unfold caught.
        assert (N : response_status_is (AxiosError m (Some r)) 401 = false)
          by (cbn; rewrite S; reflexivity).
        rewrite N, (proj2 (response_status_is_true _ 429%Z))
          by (exists m, r; split; [reflexivity|exact S]).
        reflexivity.
  - assert (Sub : forall o : exn + AiResponse.t,
               (o = inl UpstreamUnavailableError
                \/ exists result, o = inr result /\ AiResponse.success result = true) ->
               (forall result, o = inr result -> AiResponse.success result = true)
               /\ (forall e, o = inl e ->
                             e = AuthenticationError \/ e = RateLimitedError
                             \/ e = UpstreamUnavailableError)
               /\ (o = inl AuthenticationError <->
                   exists m r, @inr exn _ response = inl (AxiosError m (Some r))
                               /\ Http.status r = 401%Z)
               /\ (o = inl RateLimitedError <->
                   exists m r, @inr exn _ response = inl (AxiosError m (Some r))
                               /\ Http.status r = 429%Z)).
    { intros o [->|[result [-> S]]].
      - split; [discriminate|].
        split; [intros e H; injection H as <-; right; right; reflexivity|].
        split; (split; [|intros [m [r [E _]]]; discriminate E]).
        + intros H. apply inl_inj in H. exact (False_ind _ (AU (eq_sym H))).
        + intros H. apply inl_inj in H. exact (False_ind _ (RU (eq_sym H))).
      - split; [intros r H; injection H as <-; exact S|].
        split; [discriminate|].
        split; (split; [discriminate|intros [m [r [E _]]]; discriminate E]). }
    apply Sub.
    destruct (JSON_parse _) as [v|]; [|left; reflexivity].
    destruct (suggestions_of v); [left; reflexivity|].
    right. eexists. split; reflexivity.
Qed.

Lemma generate_outcomes_closed_witness :
  snd (run (rejecting (status_error 401))
         (generateAnxietySuggestions (utf16 "report") None None None))
  = inl AuthenticationError.
Proof.
  apply (proj1 (proj2 (proj2 (@generate_outcomes_closed
                                (rejecting (status_error 401)) (utf16 "report")
                                None None None)))).
  eexists _, _. split; reflexivity.
Defined.

(** ** The suggestions a call returns *)

Lemma or_value_cases a d :
  ToBoolean (Some (or_value a d)) = true \/ or_value a d = d.
Proof.
  unfold or_value. destruct a as [v|]; [|now right].
  destruct (ToBoolean (Some v)) eqn:T; [now left|now right].
Qed.

Lemma suggestion_of_item_well_formed item s :
  suggestion_of_item item = inr s -> well_formed s.
Proof.
  unfold suggestion_of_item, cbind.
  destruct (get item "message") as [|message]; [discriminate|].
  assert (Fin : forall message_or_text : option json,
             match get item "type" with
             | inl e => inl e
             | inr ty =>
               inr {| text := or_value message_or_text (JString []);
                      type := or_value ty (str "immediate") |}
             end = inr s -> well_formed s).
  { intros message_or_text.
    destruct (get item "type") as [|ty]; [discriminate|].
    intros H. injection H as <-. split; cbn [type text].
    - destruct (or_value_cases ty (str "immediate")) as [T| ->];
        [exact T|reflexivity].
    - destruct (or_value_cases message_or_text (JString [])) as [T|E];
        [left; exact T|right; exact E]. }
  destruct (ToBoolean message); [apply Fin|].
  destruct (get item "text") as [|t]; [discriminate|apply Fin].
Qed.

Lemma Array_map_well_formed items :
  forall ss, Array_map suggestion_of_item items = inr ss -> Forall well_formed ss.
Proof.
  induction items as [|item items IH]; intros ss; cbn [Array_map].
  - intros H. injection H as <-. constructor.
  - unfold cbind at 1.
    destruct (suggestion_of_item item) as [|s] eqn:E; [discriminate|].
    unfold cbind.
    destruct (Array_map suggestion_of_item items) as [|ss']; [discriminate|].
    intros H. injection H as <-. constructor.
    + eapply suggestion_of_item_well_formed; eassumption.
    + now apply IH.
Qed.

Lemma suggestions_of_well_formed v ss :
  suggestions_of v = inr ss -> Forall well_formed ss.
Proof.
  unfold suggestions_of.
  destruct (Array_isArray (Some v)) as [items|]; [apply Array_map_well_formed|].
  unfold cbind.
  destruct (get v "suggestions") as [|suggestions]; [discriminate|].
  destruct (if ToBoolean suggestions then Array_isArray suggestions else None)
    as [items|]; [apply Array_map_well_formed|].
  destruct (get v "message") as [|message]; [discriminate|].
  destruct message as [m|]; [|intros H; injection H as <-; constructor].
  destruct (ToBoolean (Some m)) eqn:T; [|intros H; injection H as <-; constructor].
  destruct (get v "type") as [|ty]; [discriminate|].
  intros H. injection H as <-. constructor; [|constructor].
  split; cbn [type text]; [|now left].
  destruct (or_value_cases ty (str "immediate")) as [Ty| ->]; [exact Ty|reflexivity].
Qed.

(** X5. In every result a call returns, each suggestion has a truthy
    [type] and a [text] that is truthy or the empty string, whatever the
    upstream answered; so [suggestion.type || 'immediate'], as the callers
    write it, is [suggestion.type] itself. *)
Theorem returned_suggestions_well_formed :
  forall upstream title historyContext personality titleContext result,
    snd (run upstream
           (generateAnxietySuggestions title historyContext personality titleContext))
    = inr result ->
    Forall (fun s =>
              well_formed s
              /\ or_value (Some (type s)) (str "immediate") = type s)
           (AiResponse.suggestions result).
Proof.
  intros upstream title historyContext personality titleContext result.
  rewrite run_generateAnxietySuggestions. cbn [snd].
  destruct (answer _ _ _ _ _) as [|response]; [discriminate|].
  destruct (JSON_parse _) as [v|]; [|discriminate].
  destruct (suggestions_of v) as [|ss] eqn:E; [discriminate|].
  intros H. injection H as <-. cbn [AiResponse.suggestions].
  apply suggestions_of_well_formed in E.
  eapply Forall_impl; [|exact E].
  intros s [T X]. split; [split; assumption|].
  unfold or_value. rewrite T. reflexivity.
Qed.

Lemma returned_suggestions_well_formed_witness :
  let content :=
    utf16 ("[{" ++ dq ++ "text" ++ dq ++ ":0," ++ dq ++ "type" ++ dq ++ ":null},"
           ++ "{" ++ dq ++ "message" ++ dq ++ ":" ++ dq ++ "a" ++ dq ++ ","
           ++ dq ++ "type" ++ dq ++ ":7}]") in
  exists result,
    snd (run (answering content)
           (generateAnxietySuggestions (utf16 "report") None None None))
    = inr result
    /\ AiResponse.suggestions result
       = [ {| text := JString []; type := str "immediate" |};
           {| text := str "a"; type := JNumber 7 0 |} ]
    /\ Forall (fun s =>
                 well_formed s
                 /\ or_value (Some (type s)) (str "immediate") = type s)
              (AiResponse.suggestions result).
Proof.
  intros content.
  assert (R : exists result,
             snd (run (answering content)
                    (generateAnxietySuggestions (utf16 "report") None None None))
             = inr result
             /\ AiResponse.suggestions result
                = [ {| text := JString []; type := str "immediate" |};
                    {| text := str "a"; type := JNumber 7 0 |} ]).
  { eexists. split; [vm_compute; reflexivity|reflexivity]. }
  destruct R as [result [R S]]. exists result.
  split; [exact R|]. split; [exact S|].
  exact (@returned_suggestions_well_formed (answering content) (utf16 "report")
           None None None result R).
Defined.

(** ** When a call returns *)

Lemma suggestion_of_item_null : exists e, suggestion_of_item JNull = inl e.
Proof. eexists. reflexivity. Qed.

Lemma Array_map_null items :
  In JNull items -> exists e, Array_map suggestion_of_item items = inl e.
Proof.
  induction items as [|item items IH]; [contradiction|].
  intros [->|H]; cbn [Array_map].
  - destruct suggestion_of_item_null as [e ->]. exists e. reflexivity.
  - destruct (suggestion_of_item item) as [e|s]; [exists e; reflexivity|].
    destruct (IH H) as [e ->]. exists e. reflexivity.
Qed.

Lemma not_In_non_null items :
  ~ In JNull items -> Forall (fun item => item <> JNull) items.
Proof.
  intros H. apply Forall_forall. intros item I ->. contradiction.
Qed.

Lemma suggestions_of_listed v items :
  v <> JNull -> listed v = Some items ->
  suggestions_of v = Array_map suggestion_of_item items.
Proof.
  intros N L. unfold suggestions_of.
  destruct v as [|b|m e|s|l|fields];
    cbn [listed member Array_isArray] in L; try discriminate L.
  - injection L as ->. reflexivity.
  - cbn [Array_isArray get cbind].
    destruct (lookup (utf16 "suggestions") fields) as [[|b|m e|s|l|fs]|];
      cbn [Array_isArray] in L; try discriminate L.
    injection L as ->. reflexivity.
Qed.

Lemma suggestions_of_unlisted v :
  v <> JNull -> listed v = None ->
  exists ss, suggestions_of v = inr ss
             /\ (ToBoolean (member v "message") = false -> ss = []).
Proof.
  intros N L. unfold suggestions_of.
  assert (A : Array_isArray (Some v) = None).
  { destruct v; try reflexivity. discriminate L. }
  rewrite A, (get_member "suggestions" N). cbn [cbind].
  assert (S : Array_isArray (member v "suggestions") = None).
  { destruct v; try reflexivity; try exact L. }
  rewrite S, (get_member "message" N). cbn [cbind].
  assert (S' : (if ToBoolean (member v "suggestions") then None else None)
               = @None (list json)) by (destruct (ToBoolean _); reflexivity).
  rewrite S'.
  destruct (member v "message") as [m|]; [|exists []; split; reflexivity].
  destruct (ToBoolean (Some m)); [|exists []; split; reflexivity].
  rewrite (get_member "type" N). cbn [cbind].
  eexists. split; [reflexivity|discriminate].
Qed.

(** X6. When the completion text parses, the call returns exactly when the
    parsed value is not [null] and the array it lists its suggestions in
    (the value itself, or its [suggestions] member), if there is one, holds
    no [null]; a single [null] element makes the whole call throw, whatever
    the other elements are. *)
Theorem returns_unless_null :
  forall upstream title historyContext personality titleContext response v,
    answer upstream title historyContext personality titleContext = inr response ->
    JSON_parse (Http.choices_0_message_content (Http.data response)) = Some v ->
    let outcome :=
      snd (run upstream
             (generateAnxietySuggestions title historyContext personality titleContext)) in
    ((exists result, outcome = inr result) <->
     (v <> JNull /\ forall items, listed v = Some items -> ~ In JNull items))
    /\ ((v = JNull \/ exists items, listed v = Some items /\ In JNull items) ->
        outcome = inl UpstreamUnavailableError).
Proof.
  intros upstream title historyContext personality titleContext response v Ha Hp outcome.
  subst outcome. rewrite run_generateAnxietySuggestions. cbn [snd]. rewrite Ha, Hp.
  assert (Bad : (v = JNull \/ exists items, listed v = Some items /\ In JNull items) ->
                exists e, suggestions_of v = inl e).
  { intros [->|[items [L I]]]; [eexists; reflexivity|].
    destruct v; try discriminate L;
      try (rewrite (@suggestions_of_listed _ items) by (discriminate || exact L);
           now apply Array_map_null). }
  split; [split|].
  - intros [result R]. split.
    + intros ->. discriminate R.
    + intros items L I. destruct Bad as [e E]; [right; now exists items|].
      rewrite E in R. discriminate R.
  - intros [N L]. destruct (listed v) as [items|] eqn:EL.
    + rewrite (suggestions_of_listed N EL).
      rewrite (Array_map_non_null (@not_In_non_null items (L items eq_refl))).
      eexists. reflexivity.
    + destruct (suggestions_of_unlisted N EL) as [ss [-> _]].
      eexists. reflexivity.
  - intros B. destruct (Bad B) as [e ->]. reflexivity.
Qed.

Lemma returns_unless_null_witness :
  let content :=
    utf16 ("[{" ++ dq ++ "message" ++ dq ++ ":" ++ dq ++ "a" ++ dq ++ "},null]") in
  snd (run (answering content)
         (generateAnxietySuggestions (utf16 "report") None None None))
  = inl UpstreamUnavailableError.
Proof.
  intros content.
  refine (proj2 (@returns_unless_null (answering content) (utf16 "report")
                   None None None (completion content)
                   (JArray [ JObject [ (utf16 "message", str "a") ]; JNull ])
                   eq_refl _) _).
  - vm_compute. reflexivity.
  - right. eexists. split; [reflexivity|]. right. left. reflexivity.
Defined.

(** X7. When the completion text parses to a value other than [null] that
    is not an array, has no array as [suggestions] and has no truthy
    [message] (absent, or [null], [false], zero or the empty string), the
    call returns the empty list of suggestions. *)
Theorem unrecognized_value_gives_empty_list :
  forall upstream title historyContext personality titleContext response v,
    answer upstream title historyContext personality titleContext = inr response ->
    JSON_parse (Http.choices_0_message_content (Http.data response)) = Some v ->
    v <> JNull ->
    listed v = None ->
    ToBoolean (member v "message") = false ->
    snd (run upstream
           (generateAnxietySuggestions title historyContext personality titleContext))
    = inr {| AiResponse.success := true;
             AiResponse.suggestions := [];
             AiResponse.usage := Http.usage (Http.data response);
             AiResponse.personality := default (utf16 "green") personality |}.
Proof.
  intros upstream title historyContext personality titleContext response v Ha Hp N L M.
  rewrite run_generateAnxietySuggestions. cbn [snd]. rewrite Ha, Hp.
  destruct (suggestions_of_unlisted N L) as [ss [-> E]].
  rewrite (E M). reflexivity.
Qed.

Lemma unrecognized_value_gives_empty_list_witness :
  let content := utf16 ("{" ++ dq ++ "unrelated" ++ dq ++ ":true}") in
  snd (run (answering content)
         (generateAnxietySuggestions (utf16 "report") None None None))
  = inr {| AiResponse.success := true;
           AiResponse.suggestions := [];
           AiResponse.usage := Http.usage (Http.data (completion content));
           AiResponse.personality := utf16 "green" |}.
Proof.
  intros content.
  refine (@unrecognized_value_gives_empty_list (answering content) (utf16 "report")
            None None None (completion content)
            (JObject [ (utf16 "unrelated", JBool true) ]) eq_refl _ _ eq_refl eq_refl).
  - vm_compute. reflexivity.
  - discriminate.
Defined.

(** ** The context and [trim] *)

Lemma trimStart_fixed s :
  (forall c, hd_error s = Some c -> isWhiteSpace c = false) -> trimStart s = s.
Proof.
  destruct s as [|c s]; [reflexivity|]. intros H. cbn [trimStart].
  rewrite (H c eq_refl). reflexivity.
Qed.

Lemma trim_idempotent s : trim (trim s) = trim s.
Proof.
  destruct (trim_spec s) as [_ [_ [_ [_ [_ [Hhead Hlast]]]]]].
  unfold trim at 1. rewrite (trimStart_fixed _ Hhead).
  unfold trimEnd. rewrite (trimStart_fixed _ Hlast). apply rev_involutive.
Qed.

Lemma whitespace_only_trim s : whitespace_only (trim s) = whitespace_only s.
Proof.
  destruct (whitespace_only s) eqn:W.
  - rewrite (trim_whitespace _ W). reflexivity.
  - pose proof (trim_not_whitespace _ W) as T.
    destruct (trim_spec s) as [_ [_ [_ [_ [_ [Hhead _]]]]]].
    destruct (trim s) as [|c t]; [contradiction|].
    unfold whitespace_only. cbn [forallb]. rewrite (Hhead c eq_refl). reflexivity.
Qed.

(** X8. The context reaches the prompt only through its trimmed form:
    trimming is idempotent, the prompt composed for a context is the prompt
    composed for the trimmed context, and so is the whole run, request and
    outcome. *)
Theorem context_enters_trimmed :
  forall title titleContext historyContext,
    trim (trim titleContext) = trim titleContext
    /\ userPrompt title titleContext historyContext
       = userPrompt title (trim titleContext) historyContext
    /\ forall upstream history personality,
        run upstream
          (generateAnxietySuggestions title history personality (Some titleContext))
        = run upstream
            (generateAnxietySuggestions title history personality
                                        (Some (trim titleContext))).
Proof.
  intros title titleContext historyContext.
  assert (P : forall h, userPrompt title titleContext h
                        = userPrompt title (trim titleContext) h).
  { intros h. rewrite (userPrompt_context title titleContext h).
    rewrite (userPrompt_context title (trim titleContext) h).
    rewrite whitespace_only_trim, trim_idempotent. reflexivity. }
  split; [apply trim_idempotent|]. split; [apply P|].
  intros upstream history personality.
  rewrite !run_generateAnxietySuggestions.
  unfold answer, request_of. cbn [default]. rewrite P. reflexivity.
Qed.

(** ** [generateStreamingChatResponse] *)

(** X9. [generateStreamingChatResponse] issues one request, with
    [stream: true], the configuration [{ responseType: 'stream' }] and, as
    system message, the text [generateChatResponse] itself rather than the
    chat prompt; it returns the stream of a fulfilled request as it is, and
    on any rejection, status 401 and 429 included, it throws the one error
    [Failed to generate streaming response]. *)
Theorem streaming_failures_collapse :
  forall (S : Type) (upstream : jsstring -> json -> json -> exn + Http.Response S)
         messages context,
  exists body config,
    fst (run_stream upstream (generateStreamingChatResponse messages context))
    = [(utf16 "/chat/completions", body, config)]
    /\ member body "messages"
       = Some (JArray (JObject [ (utf16 "role", str "system");
                                 (utf16 "content", str "generateChatResponse") ]
                         :: messages))
    /\ member body "stream" = Some (JBool true)
    /\ member config "responseType" = Some (str "stream")
    /\ (forall response,
           upstream (utf16 "/chat/completions") body config = inr response ->
           snd (run_stream upstream (generateStreamingChatResponse messages context))
           = inr (Http.data response))
    /\ (forall error,
           upstream (utf16 "/chat/completions") body config = inl error ->
           snd (run_stream upstream (generateStreamingChatResponse messages context))
           = inl (Error (utf16 "Failed to generate streaming response"))).
Proof.
  intros S upstream messages context.
  exists (streaming_request messages), streaming_config.
  unfold generateStreamingChatResponse. cbn [stream_try_catch run_stream].
  destruct (upstream (utf16 "/chat/completions") (streaming_request messages)
                     streaming_config) as [error|response];
    cbn [stream_try_catch run_stream fst snd].
  - repeat split; try reflexivity. discriminate.
  - repeat split; try reflexivity.
    + intros response' H. injection H as <-. reflexivity.
    + discriminate.
Qed.

Lemma streaming_failures_collapse_witness :
  snd (run_stream (fun _ _ _ => inl (status_error 401))
         (@generateStreamingChatResponse (list jsstring) [] None))
  = inl (Error (utf16 "Failed to generate streaming response")).
Proof.
  destruct (@streaming_failures_collapse (list jsstring)
              (fun _ _ _ => inl (status_error 401)) [] None)
    as [body [config [_ [_ [_ [_ [_ F]]]]]]].
  exact (F (status_error 401) eq_refl).
Defined.

(* ------------------------------------------------------------------ *)
(** * Properties of the routes *)
(* ------------------------------------------------------------------ *)

(** ** Runs of handlers *)

Lemma run_hbind {A B} world (p : Handler A) (f : A -> Handler B) :
  run_handler world (hbind p f) =
  match run_handler world p with
  | (events, inl e) => (events, inl e)
  | (events, inr a) =>
    let '(events', outcome) := run_handler world (f a) in
    (events ++ events', outcome)
  end.
Proof.
  induction p as [a|e|X call k IH]; cbn [hbind run_handler].
  - destruct (run_handler world (f a)). reflexivity.
  - reflexivity.
  - rewrite IH. destruct (run_handler world (k (world X call))) as [events [e|a]].
    + reflexivity.
    + destruct (run_handler world (f a)). reflexivity.
Qed.

Lemma run_htry_catch {A} world (p : Handler A) (h : exn -> Handler A) :
  run_handler world (htry_catch p h) =
  match run_handler world p with
  | (events, inr a) => (events, inr a)
  | (events, inl e) =>
    let '(events', outcome) := run_handler world (h e) in
    (events ++ events', outcome)
  end.
Proof.
  induction p as [a|e|X call k IH]; cbn [htry_catch run_handler].
  - reflexivity.
  - destruct (run_handler world (h e)). reflexivity.
  - rewrite IH. destruct (run_handler world (k (world X call))) as [events [e|a]].
    + destruct (run_handler world (h e)). reflexivity.
    + reflexivity.
Qed.

Lemma run_await {X} world (call : Call X) :
  run_handler world (await call) = ([event call], world X call).
Proof. unfold await. cbn [run_handler]. destruct (world X call); reflexivity. Qed.

Lemma run_hlift {A} world (c : Completion A) :
  run_handler world (hlift c) = ([], c).
Proof. destruct c; reflexivity. Qed.

(** The calls of a method of the service are its requests. *)
Lemma run_serve {A} world (p : Prog A) :
  run_handler world (serve p) =
  (map (fun r => event (deepseek_client_post (fst r) (snd r)))
       (fst (run (upstream_of world) p)),
   snd (run (upstream_of world) p)).
Proof.
  induction p as [a|e|url body k IH]; cbn [serve run_handler run]; try reflexivity.
  rewrite IH.
  change (world _ (deepseek_client_post url body)) with (upstream_of world url body).
  destruct (run (upstream_of world) (k (upstream_of world url body))).
  reflexivity.
Qed.

(** ** [includes] *)

Lemma starts_with_prefix w s : starts_with w s = true <-> exists rest, s = w ++ rest.
Proof.
  revert s. induction w as [|a w IH]; intros s; cbn [starts_with].
  - split; [intros _; now exists s|reflexivity].
  - destruct s as [|b s].
    + split; [discriminate|intros [rest E]; discriminate E].
    + rewrite andb_true_iff, N.eqb_eq, IH. split.
      * intros [-> [rest ->]]. now exists rest.
      * intros [rest E]. injection E as -> ->. split; [reflexivity|now exists rest].
Qed.

(** [s.includes(w)] holds exactly when [w] occurs in [s]. *)
Lemma includes_occurs s w : includes s w = true <-> occurs w s.
Proof.
  unfold occurs. induction s as [|c s IH]; cbn [includes].
  - rewrite orb_false_r, starts_with_prefix. split.
    + intros [rest E]. exists [], rest. exact E.
    + intros [[|b before] [rest E]]; [now exists rest|discriminate E].
  - rewrite orb_true_iff, starts_with_prefix, IH. split.
    + intros [[rest E]|[before [rest E]]].
      * exists [], rest. exact E.
      * exists (c :: before), rest. cbn. now rewrite E.
    + intros [[|b before] [rest E]].
      * left. now exists rest.
      * right. injection E as _ E. now exists before, rest.
Qed.

(** ** [POST /] of [routes/suggestion.js] *)

Lemma service_outcome_answer world body history :
  service_outcome world body history =
  match suggestion_answer world body history with
  | inl error => inl (caught error)
  | inr response =>
    match JSON_parse (Http.choices_0_message_content (Http.data response)) with
    | None => inl UpstreamUnavailableError
    | Some parsedContent =>
      match suggestions_of parsedContent with
      | inl _ => inl UpstreamUnavailableError
      | inr suggestions =>
        inr {| AiResponse.success := true;
               AiResponse.suggestions := suggestions;
               AiResponse.usage := Http.usage (Http.data response);
               AiResponse.personality :=
                 default (utf16 "green") (SuggestionBody.personality body) |}
      end
    end
  end.
Proof.
  unfold service_outcome, suggestion_answer.
  rewrite run_generateAnxietySuggestions. reflexivity.
Qed.

Lemma service_outcome_result world body history result :
  service_outcome world body history = inr result ->
  AiResponse.success result = true
  /\ Forall well_formed (AiResponse.suggestions result).
Proof.
  rewrite service_outcome_answer.
  destruct (suggestion_answer world body history) as [|response]; [discriminate|].
  destruct (JSON_parse _) as [v|]; [|discriminate].
  destruct (suggestions_of v) as [|ss] eqn:E; [discriminate|].
  intros H. injection H as <-. split; [reflexivity|].
  exact (suggestions_of_well_formed _ E).
Qed.

(** The run of the handler when the service throws. *)
Lemma run_post_suggestions_failure (world : World) body userId topic history e :
  world _ (create_topic_call body userId) = inr topic ->
  world _ (history_call userId) = inr history ->
  service_outcome world body history = inl e ->
  run_handler world (post_suggestions body userId) =
  ([ event (create_topic_call body userId);
     event (history_call userId);
     upstream_event (suggestion_request body history) ],
   inr (suggestion_failure e)).
Proof.
  intros Hc Hf Hs. unfold post_suggestions. cbv zeta.
  unfold create_topic_call, history_call, service_outcome in *.
  rewrite run_htry_catch, run_hbind, run_await, Hc. cbv beta iota.
  rewrite run_hbind, run_await, Hf. cbv beta iota.
  rewrite run_hbind, run_serve, Hs.
  rewrite run_generateAnxietySuggestions. cbn [fst snd map app run_handler].
  reflexivity.
Qed.

Lemma failure_of_DeepSeek_error :
  suggestion_failure AuthenticationError
  = reply 503 "AI service unavailable"
          "Unable to generate suggestions at this time. Please try again later."
  /\ suggestion_failure RateLimitedError
     = reply 503 "AI service unavailable"
             "Unable to generate suggestions at this time. Please try again later."
  /\ suggestion_failure UpstreamUnavailableError
     = reply 500 "Internal server error" "Failed to generate suggestions".
Proof. repeat split; vm_compute; reflexivity. Qed.

(** X10. Once the topic is stored and the history read, [POST /] answers a
    failure of the service by its message: an upstream rejection with
    status 401 or 429 gives HTTP 503, every other rejection (a timeout, a
    5xx) and a completion that is not JSON give HTTP 500. *)
Theorem suggestion_route_statuses :
  forall (world : World) body userId topic history,
    world _ (create_topic_call body userId) = inr topic ->
    world _ (history_call userId) = inr history ->
    let outcome := snd (run_handler world (post_suggestions body userId)) in
    let unavailable :=
      reply 503 "AI service unavailable"
            "Unable to generate suggestions at this time. Please try again later." in
    let internal := reply 500 "Internal server error" "Failed to generate suggestions" in
    (forall m r,
        suggestion_answer world body history = inl (AxiosError m (Some r)) ->
        Http.status r = 401%Z \/ Http.status r = 429%Z ->
        outcome = inr unavailable)
    /\ (forall error,
           suggestion_answer world body history = inl error ->
           response_status_is error 401 = false ->
           response_status_is error 429 = false ->
           outcome = inr internal)
    /\ (forall response,
           suggestion_answer world body history = inr response ->
           JSON_parse (Http.choices_0_message_content (Http.data response)) = None ->
           outcome = inr internal)
    /\ Reply.status unavailable = 503%Z /\ Reply.status internal = 500%Z.
Proof.
  intros world body userId topic history Hc Hf outcome unavailable internal.
  subst outcome unavailable internal.
  destruct failure_of_DeepSeek_error as [FA [FR FU]].
  pose proof (service_outcome_answer world body history) as S.
  split; [|split; [|split; [|split; reflexivity]]].
  - intros m r Ha Hs. rewrite Ha in S. unfold caught, response_status_is in S.
    destruct Hs as [Hs|Hs]; rewrite Hs in S; cbn [Z.eqb Pos.eqb] in S;
      rewrite (@run_post_suggestions_failure world body userId topic history _ Hc Hf S); cbn [snd];
      [rewrite FA|rewrite FR]; reflexivity.
  - intros error Ha H1 H2. rewrite Ha in S. unfold caught in S. rewrite H1, H2 in S.
    rewrite (@run_post_suggestions_failure world body userId topic history _ Hc Hf S). cbn [snd].
    rewrite FU. reflexivity.
  - intros response Ha Hp. rewrite Ha, Hp in S.
    rewrite (@run_post_suggestions_failure world body userId topic history _ Hc Hf S). cbn [snd].
    rewrite FU. reflexivity.
Qed.

Lemma suggestion_route_statuses_witness :
  snd (run_handler (sample_world (rejecting (status_error 401)))
         (post_suggestions sample_body 3%Z))
  = inr (reply 503 "AI service unavailable"
               "Unable to generate suggestions at this time. Please try again later.")
  /\ snd (run_handler (sample_world (rejecting timeout_error))
            (post_suggestions sample_body 3%Z))
     = inr (reply 500 "Internal server error" "Failed to generate suggestions").
Proof.
  split.
  - refine (proj1 (@suggestion_route_statuses
                     (sample_world (rejecting (status_error 401))) sample_body 3%Z
                     (Some sample_topic) [] eq_refl eq_refl)
                  _ _ eq_refl (or_introl eq_refl)).
  - refine (proj1 (proj2 (@suggestion_route_statuses
                     (sample_world (rejecting timeout_error)) sample_body 3%Z
                     (Some sample_topic) [] eq_refl eq_refl))
                  _ eq_refl eq_refl eq_refl).
Defined.

(** X11. [POST /] stores the topic first, whatever follows, and always ends
    with a reply.  When the service then throws, the handler has made three
    calls, the insertion of the topic, the read of the user's last ten
    suggestions and the upstream request: the topic stays stored, without
    suggestions, behind the 503 or 500. *)
Theorem topic_stored_before_service :
  (forall (world : World) body userId,
      exists rest reply,
        run_handler world (post_suggestions body userId)
        = (event (create_topic_call body userId) :: rest, inr reply))
  /\ (forall (world : World) body userId topic history e,
         world _ (create_topic_call body userId) = inr topic ->
         world _ (history_call userId) = inr history ->
         service_outcome world body history = inl e ->
         fst (run_handler world (post_suggestions body userId))
         = [ event (create_topic_call body userId);
             event (AnxietySuggestion_findByUserId userId 10);
             upstream_event (suggestion_request body history) ]
         /\ filter is_write (fst (run_handler world (post_suggestions body userId)))
            = [ event (create_topic_call body userId) ]).
Proof.
  split.
  - intros world body userId. unfold post_suggestions. cbv zeta.
    fold (create_topic_call body userId).
    rewrite run_htry_catch, run_hbind, run_await.
    destruct (world _ (create_topic_call body userId)) as [e|topic].
    + cbn [run_handler app]. eexists _, _. reflexivity.
    + match goal with
      | |- context [run_handler world ?p] =>
        destruct (run_handler world p) as [events [e|a]]
      end; cbn [run_handler app]; eexists _, _; reflexivity.
  - intros world body userId topic history e Hc Hf Hs.
    rewrite (@run_post_suggestions_failure world body userId topic history e Hc Hf Hs).
    split; reflexivity.
Qed.

Lemma topic_stored_before_service_witness :
  filter is_write
         (fst (run_handler (sample_world (rejecting timeout_error))
                 (post_suggestions sample_body 3%Z)))
  = [ event (create_topic_call sample_body 3%Z) ].
Proof.
  exact (proj2 (proj2 topic_stored_before_service
                  (sample_world (rejecting timeout_error)) sample_body 3%Z
                  (Some sample_topic) [] UpstreamUnavailableError
                  eq_refl eq_refl
                  ltac:(rewrite service_outcome_answer; reflexivity))).
Defined.

Lemma rows_to_create topic userId ss :
  Forall well_formed ss ->
  Array_map (suggestion_to_create (Some topic) userId) ss
  = inr (map (row_of topic userId) ss).
Proof.
  induction 1 as [|s ss [T _] _ IH]; [reflexivity|].
  cbn [Array_map map]. unfold suggestion_to_create at 1.
  cbn [of_instance cbind]. rewrite IH. cbn [cbind].
  unfold or_value. rewrite T. reflexivity.
Qed.

(** X12. When the topic is stored, the history read and the service returns,
    [POST /] hands [createMany] one row per suggestion, in order, each with
    the id of the new topic, the user, and the suggestion's text and type as
    the service normalized them (its [|| 'immediate'] never applies), and
    replies 201 with the rows the database reports, the upstream's usage
    and the personality. *)
Theorem suggestions_are_stored_as_returned :
  forall (world : World) body userId topic history result created,
    world _ (create_topic_call body userId) = inr (Some topic) ->
    world _ (history_call userId) = inr history ->
    service_outcome world body history = inr result ->
    world _ (AnxietySuggestion_createMany
               (map (row_of topic userId) (AiResponse.suggestions result)))
    = inr created ->
    run_handler world (post_suggestions body userId)
    = ([ event (create_topic_call body userId);
         event (AnxietySuggestion_findByUserId userId 10);
         upstream_event (suggestion_request body history);
         event (AnxietySuggestion_createMany
                  (map (row_of topic userId) (AiResponse.suggestions result))) ],
       inr {| Reply.status := 201;
              Reply.body :=
                JObject
                  [ (utf16 "success", JBool true);
                    (utf16 "message", str "Suggestions generated successfully");
                    (utf16 "data",
                     JObject
                       [ (utf16 "topic", AnxietyTopic.toJSON topic);
                         (utf16 "suggestions",
                          JArray (map AnxietySuggestion.toJSON created));
                         (utf16 "usage", AiResponse.usage result);
                         (utf16 "personality",
                          JString (default (utf16 "green")
                                           (SuggestionBody.personality body))) ]) ] |}).
Proof.
  intros world body userId topic history result created Hc Hf Hs Hm.
  destruct (service_outcome_result _ _ _ Hs) as [Success WF].
  assert (P : AiResponse.personality result
              = default (utf16 "green") (SuggestionBody.personality body)).
  { rewrite service_outcome_answer in Hs.
    destruct (suggestion_answer world body history) as [|response]; [discriminate|].
    destruct (JSON_parse _) as [v|]; [|discriminate].
    destruct (suggestions_of v); [discriminate|].
    injection Hs as <-. reflexivity. }
  unfold post_suggestions. cbv zeta.
  unfold create_topic_call, history_call, service_outcome in *.
  rewrite run_htry_catch, run_hbind, run_await, Hc. cbv beta iota.
  rewrite run_hbind, run_await, Hf. cbv beta iota.
  rewrite run_hbind, run_serve, Hs. rewrite Success. cbn [negb].
  rewrite run_hbind, run_hlift, (rows_to_create topic userId WF). cbv beta iota.
  rewrite run_hbind, run_await, Hm. cbv beta iota.
  rewrite run_hbind, run_hlift. cbn [of_instance]. cbv beta iota.
  rewrite run_generateAnxietySuggestions, P.
  cbn [fst snd map app run_handler]. reflexivity.
Qed.

Lemma suggestions_are_stored_as_returned_witness :
  let content :=
    utf16 ("[{" ++ dq ++ "message" ++ dq ++ ":" ++ dq ++ "a" ++ dq ++ ","
           ++ dq ++ "type" ++ dq ++ ":" ++ dq ++ "t" ++ dq ++ "}]") in
  exists reply,
    snd (run_handler (sample_world (answering content)) (post_suggestions sample_body 3%Z))
    = inr reply
    /\ Reply.status reply = 201%Z
    /\ filter is_write
              (fst (run_handler (sample_world (answering content))
                      (post_suggestions sample_body 3%Z)))
       = [ event (create_topic_call sample_body 3%Z);
           event (AnxietySuggestion_createMany
                    [ {| NewSuggestion.topic_id := 7;
                         NewSuggestion.user_id := 3;
                         NewSuggestion.suggestion_text := str "a";
                         NewSuggestion.suggestion_type := str "t" |} ]) ].
Proof.
  intros content.
  assert (S : service_outcome (sample_world (answering content)) sample_body []
              = inr {| AiResponse.success := true;
                       AiResponse.suggestions := [ {| text := str "a"; type := str "t" |} ];
                       AiResponse.usage := Http.usage (Http.data (completion content));
                       AiResponse.personality := utf16 "yellow" |}).
  { rewrite service_outcome_answer. vm_compute. reflexivity. }
  rewrite (@suggestions_are_stored_as_returned
             (sample_world (answering content)) sample_body 3%Z sample_topic [] _ _
             eq_refl eq_refl S eq_refl).
  eexists. split; [reflexivity|]. split; reflexivity.
Defined.

(** ** The handlers that look one row up *)

Lemma run_get_topic (world : World) topicId userId :
  run_handler world (get_topic topicId userId) =
  match world _ (AnxietyTopic_findById topicId) with
  | inl e => ([event (AnxietyTopic_findById topicId)], inl e)
  | inr None =>
    ([event (AnxietyTopic_findById topicId)],
     inr (reply 404 "Not found" "Topic not found"))
  | inr (Some topic) =>
    if (AnxietyTopic.user_id topic =? userId)%Z
    then ([ event (AnxietyTopic_findById topicId);
            event (AnxietySuggestion_findByTopicId topicId) ],
          match world _ (AnxietySuggestion_findByTopicId topicId) with
          | inl e => inl e
          | inr suggestions =>
            inr {| Reply.status := 200;
                   Reply.body :=
                     JObject
                       [ (utf16 "success", JBool true);
                         (utf16 "data",
                          JObject
                            [ (utf16 "topic", AnxietyTopic.toJSON topic);
                              (utf16 "suggestions",
                               JArray (map AnxietySuggestion.toJSON suggestions)) ]) ] |}
          end)
    else ([event (AnxietyTopic_findById topicId)],
          inr (reply 403 "Access denied" "You can only access your own topics"))
  end.
Proof.
  unfold get_topic. rewrite run_hbind, run_await.
  destruct (world _ (AnxietyTopic_findById topicId)) as [e|[topic|]];
    [reflexivity| |reflexivity].
  cbv beta iota.
  destruct (AnxietyTopic.user_id topic =? userId)%Z; cbn [negb]; [|reflexivity].
  rewrite run_hbind, run_await.
  destruct (world _ (AnxietySuggestion_findByTopicId topicId)); reflexivity.
Qed.

Lemma run_put_topic (world : World) topicId userId updateData :
  run_handler world (put_topic topicId userId updateData) =
  match world _ (AnxietyTopic_findById topicId) with
  | inl e => ([event (AnxietyTopic_findById topicId)], inl e)
  | inr None =>
    ([event (AnxietyTopic_findById topicId)],
     inr (reply 404 "Not found" "Topic not found"))
  | inr (Some topic) =>
    if (AnxietyTopic.user_id topic =? userId)%Z
    then ([ event (AnxietyTopic_findById topicId);
            event (AnxietyTopic_update topic updateData) ],
          match world _ (AnxietyTopic_update topic updateData) with
          | inl e => inl e
          | inr None =>
            inl (TypeError (utf16 "Cannot read properties of null (reading 'toJSON')"))
          | inr (Some updatedTopic) =>
            inr {| Reply.status := 200;
                   Reply.body :=
                     JObject
                       [ (utf16 "success", JBool true);
                         (utf16 "message", str "Topic updated successfully");
                         (utf16 "data",
                          JObject [ (utf16 "topic",
                                     AnxietyTopic.toJSON updatedTopic) ]) ] |}
          end)
    else ([event (AnxietyTopic_findById topicId)],
          inr (reply 403 "Access denied" "You can only update your own topics"))
  end.
Proof.
  unfold put_topic. rewrite run_hbind, run_await.
  destruct (world _ (AnxietyTopic_findById topicId)) as [e|[topic|]];
    [reflexivity| |reflexivity].
  cbv beta iota.
  destruct (AnxietyTopic.user_id topic =? userId)%Z; cbn [negb]; [|reflexivity].
  rewrite run_hbind, run_await.
  destruct (world _ (AnxietyTopic_update topic updateData)) as [e|[updated|]];
    [reflexivity| |]; cbv beta iota; rewrite run_hbind, run_hlift;
      cbn [of_instance app run_handler]; [reflexivity|].
  vm_compute. reflexivity.
Qed.

Lemma run_post_feedback (world : World) suggestionId userId is_helpful helpful_rating :
  run_handler world (post_feedback suggestionId userId is_helpful helpful_rating) =
  match world _ (AnxietySuggestion_findById suggestionId) with
  | inl e => ([event (AnxietySuggestion_findById suggestionId)], inl e)
  | inr None =>
    ([event (AnxietySuggestion_findById suggestionId)],
     inr (reply 404 "Not found" "Suggestion not found"))
  | inr (Some suggestion) =>
    if (AnxietySuggestion.user_id suggestion =? userId)%Z
    then ([ event (AnxietySuggestion_findById suggestionId);
            event (AnxietySuggestion_updateFeedback suggestion is_helpful helpful_rating) ],
          match world _ (AnxietySuggestion_updateFeedback
                           suggestion is_helpful helpful_rating) with
          | inl e => inl e
          | inr None =>
            inl (TypeError (utf16 "Cannot read properties of null (reading 'toJSON')"))
          | inr (Some updatedSuggestion) =>
            inr {| Reply.status := 200;
                   Reply.body :=
                     JObject
                       [ (utf16 "success", JBool true);
                         (utf16 "message", str "Feedback recorded successfully");
                         (utf16 "data",
                          JObject [ (utf16 "suggestion",
                                     AnxietySuggestion.toJSON updatedSuggestion) ]) ] |}
          end)
    else ([event (AnxietySuggestion_findById suggestionId)],
          inr (reply 403 "Access denied"
                     "You can only provide feedback on your own suggestions"))
  end.
Proof.
  unfold post_feedback. rewrite run_hbind, run_await.
  destruct (world _ (AnxietySuggestion_findById suggestionId)) as [e|[suggestion|]];
    [reflexivity| |reflexivity].
  cbv beta iota.
  destruct (AnxietySuggestion.user_id suggestion =? userId)%Z; cbn [negb]; [|reflexivity].
  rewrite run_hbind, run_await.
  destruct (world _ (AnxietySuggestion_updateFeedback suggestion is_helpful helpful_rating))
    as [e|[updated|]];
    [reflexivity| |]; cbv beta iota; rewrite run_hbind, run_hlift;
      cbn [of_instance app run_handler]; [reflexivity|].
  vm_compute. reflexivity.
Qed.

(** X13. [GET /topics/:id] answers 200 only to the owner of the topic.  For
    a topic that is absent it answers 404, for one of another user 403, and
    in both cases the lookup of the topic is the only call it makes: the
    suggestions of the topic are not read.  A 200 carries the topic as the
    lookup returned it. *)
Theorem topic_read_requires_owner :
  forall (world : World) topicId userId,
    let lookup := AnxietyTopic_findById topicId in
    let ran := run_handler world (get_topic topicId userId) in
    (world _ lookup = inr None ->
     ran = ([event lookup], inr (reply 404 "Not found" "Topic not found")))
    /\ (forall topic,
           world _ lookup = inr (Some topic) ->
           AnxietyTopic.user_id topic <> userId ->
           ran = ([event lookup],
                  inr (reply 403 "Access denied" "You can only access your own topics")))
    /\ (forall answer,
           snd ran = inr answer ->
           Reply.status answer = 200%Z ->
           exists topic data,
             world _ lookup = inr (Some topic)
             /\ AnxietyTopic.user_id topic = userId
             /\ member (Reply.body answer) "data" = Some data
             /\ member data "topic" = Some (AnxietyTopic.toJSON topic)).
Proof.
  intros world topicId userId lookup ran. subst lookup ran.
  rewrite run_get_topic.
  split; [|split].
  - intros ->. reflexivity.
  - intros topic -> N. apply Z.eqb_neq in N. rewrite N. reflexivity.
  - intros answer.
    destruct (world _ (AnxietyTopic_findById topicId)) as [e|[topic|]];
      [discriminate| |intros H; injection H as <-; discriminate].
    destruct (AnxietyTopic.user_id topic =? userId)%Z eqn:O;
      [|intros H; injection H as <-; discriminate].
    cbn [snd].
    destruct (world _ (AnxietySuggestion_findByTopicId topicId)); [discriminate|].
    intros H _. injection H as <-. apply Z.eqb_eq in O.
    eexists topic, _. split; [reflexivity|]. split; [exact O|].
    split; reflexivity.
Qed.

(** X14. [PUT /topics/:id] writes only for the owner: a run of the handler
    that writes to the database found the topic, the topic belongs to the
    requesting user, and the one write is the update of that topic with
    the request body. *)
Theorem topic_update_requires_owner :
  forall (world : World) topicId userId updateData,
    existsb is_write (fst (run_handler world (put_topic topicId userId updateData)))
    = true ->
    exists topic,
      world _ (AnxietyTopic_findById topicId) = inr (Some topic)
      /\ AnxietyTopic.user_id topic = userId
      /\ fst (run_handler world (put_topic topicId userId updateData))
         = [ event (AnxietyTopic_findById topicId);
             event (AnxietyTopic_update topic updateData) ].
Proof.
  intros world topicId userId updateData. rewrite run_put_topic.
  destruct (world _ (AnxietyTopic_findById topicId)) as [e|[topic|]];
    [discriminate| |discriminate].
  destruct (AnxietyTopic.user_id topic =? userId)%Z eqn:O; [|discriminate].
  intros _. apply Z.eqb_eq in O. exists topic.
  split; [reflexivity|]. split; [exact O|reflexivity].
Qed.

Lemma topic_update_requires_owner_witness :
  exists topic,
    sample_world (rejecting timeout_error) (AnxietyTopic_findById 7) = inr (Some topic)
    /\ AnxietyTopic.user_id topic = 3%Z
    /\ fst (run_handler (sample_world (rejecting timeout_error))
              (put_topic 7 3 (JObject [(utf16 "status", str "resolved")])))
       = [ event (AnxietyTopic_findById 7);
           event (AnxietyTopic_update topic
                    (JObject [(utf16 "status", str "resolved")])) ].
Proof.
  apply (@topic_update_requires_owner
           (sample_world (rejecting timeout_error)) 7%Z 3%Z
           (JObject [(utf16 "status", str "resolved")])).
  reflexivity.
Defined.

(** X15. [POST /feedback/:id] writes only for the owner: a run of the
    handler that writes to the database found the suggestion, the
    suggestion belongs to the requesting user, and the one write is the
    feedback on that suggestion with the two values of the request. *)
Theorem feedback_requires_owner :
  forall (world : World) suggestionId userId is_helpful helpful_rating,
    existsb is_write
            (fst (run_handler world
                    (post_feedback suggestionId userId is_helpful helpful_rating)))
    = true ->
    exists suggestion,
      world _ (AnxietySuggestion_findById suggestionId) = inr (Some suggestion)
      /\ AnxietySuggestion.user_id suggestion = userId
      /\ fst (run_handler world
                (post_feedback suggestionId userId is_helpful helpful_rating))
         = [ event (AnxietySuggestion_findById suggestionId);
             event (AnxietySuggestion_updateFeedback
                      suggestion is_helpful helpful_rating) ].
Proof.
  intros world suggestionId userId is_helpful helpful_rating.
  rewrite run_post_feedback.
  destruct (world _ (AnxietySuggestion_findById suggestionId)) as [e|[suggestion|]];
    [discriminate| |discriminate].
  destruct (AnxietySuggestion.user_id suggestion =? userId)%Z eqn:O; [|discriminate].
  intros _. apply Z.eqb_eq in O. exists suggestion.
  split; [reflexivity|]. split; [exact O|reflexivity].
Qed.

Lemma feedback_requires_owner_witness :
  exists suggestion,
    sample_world (rejecting timeout_error) (AnxietySuggestion_findById 40)
    = inr (Some suggestion)
    /\ AnxietySuggestion.user_id suggestion = 3%Z
    /\ fst (run_handler (sample_world (rejecting timeout_error))
              (post_feedback 40 3 (Some (JBool true)) None))
       = [ event (AnxietySuggestion_findById 40);
           event (AnxietySuggestion_updateFeedback suggestion (Some (JBool true)) None) ].
Proof.
  apply (@feedback_requires_owner
           (sample_world (rejecting timeout_error)) 40%Z 3%Z (Some (JBool true)) None).
  reflexivity.
Defined.

(** ** [POST /sessions/:sessionId/messages] of [routes/chat.js] *)

(** The members the handler reads of the result of [generateChatResponse]. *)
Lemma chat_result_members text usage :
  let aiResponse :=
    JObject [ (utf16 "success", JBool true);
              (utf16 "message", JString text);
              (utf16 "usage", usage) ] in
  get aiResponse "success" = inr (Some (JBool true))
  /\ get aiResponse "content" = inr None
  /\ get aiResponse "usage" = inr (Some usage)
  /\ get aiResponse "model" = inr None.
Proof. repeat split; vm_compute; reflexivity. Qed.

Lemma chat_failure_of_DeepSeek_error :
  chat_failure (Error (utf16 "DeepSeek API authentication failed"))
  = reply 503 "AI service unavailable"
          "Unable to generate response at this time. Please try again later."
  /\ chat_failure (Error (utf16 "DeepSeek API rate limit exceeded"))
     = reply 503 "AI service unavailable"
             "Unable to generate response at this time. Please try again later."
  /\ chat_failure (Error (utf16 "Failed to generate chat response"))
     = reply 500 "Internal server error" "Failed to process chat message".
Proof. repeat split; vm_compute; reflexivity. Qed.

(** The run of the handler past its three guards. *)
Lemma run_post_message_guarded (world : World) sessionId userId content session :
  world _ (ChatSession_findById sessionId) = inr (Some session) ->
  ChatSession.user_id session = userId ->
  ChatSession.status session = utf16 "active" ->
  run_handler world (post_message sessionId userId content) =
  let '(events, outcome) :=
    run_handler world
      (htry_catch
         (userMessage <- await (ChatMessage_create (user_message sessionId userId content)) ;;
          conversationContext <-
            await (ChatMessage_getConversationContext sessionId 20) ;;
          aiResponse <- serve (generateChatResponse conversationContext None) ;;
          success <- hlift (get aiResponse "success") ;;
          if negb (ToBoolean success)
          then Fail (Error (utf16 "Failed to generate AI response"))
          else
            ai_content <- hlift (get aiResponse "content") ;;
            ai_usage <- hlift (get aiResponse "usage") ;;
            ai_model <- hlift (get aiResponse "model") ;;
            aiMessage <-
              await (ChatMessage_create
                       {| MessageData.session_id := sessionId;
                          MessageData.user_id := userId;
                          MessageData.message_type := utf16 "assistant";
                          MessageData.content := ai_content;
                          MessageData.metadata :=
                            Some [ (utf16 "usage", ai_usage);
                                   (utf16 "model", ai_model) ] |}) ;;
            _ <- await (ChatSession_updateLastMessage session) ;;
            user_json <- hlift (of_instance userMessage "toJSON" ChatMessage.toJSON) ;;
            ai_json <- hlift (of_instance aiMessage "toJSON" ChatMessage.toJSON) ;;
            reply_usage <- hlift (get aiResponse "usage") ;;
            Done {| Reply.status := 201;
                    Reply.body :=
                      JObject
                        [ (utf16 "success", JBool true);
                          (utf16 "message", str "Messages sent successfully");
                          (utf16 "data",
                           JObject
                             (object
                                [ (utf16 "user_message", Some user_json);
                                  (utf16 "ai_message", Some ai_json);
                                  (utf16 "usage", reply_usage) ])) ] |})%handler
         (fun error => Done (chat_failure error))) in
  (event (ChatSession_findById sessionId) :: events, outcome).
Proof.
  intros Hs Ho Ha. unfold post_message.
  rewrite run_hbind, run_await, Hs. cbv beta iota.
  apply Z.eqb_eq in Ho. rewrite Ho. apply jsstring_eqb_eq in Ha. rewrite Ha.
  cbn [negb].
  match goal with |- context [run_handler world ?p] => destruct (run_handler world p) end.
  reflexivity.
Qed.

(** X16. [POST /sessions/:sessionId/messages] stores nothing and asks the
    upstream nothing unless the session exists, belongs to the requesting
    user and is active; when it does, its first call after the lookup of
    the session stores the user's message, before the upstream is asked. *)
Theorem chat_guards_precede_effects :
  forall (world : World) sessionId userId content,
    existsb (fun e => is_write e || is_upstream e)
            (fst (run_handler world (post_message sessionId userId content)))
    = true ->
    exists session rest,
      world _ (ChatSession_findById sessionId) = inr (Some session)
      /\ ChatSession.user_id session = userId
      /\ ChatSession.status session = utf16 "active"
      /\ fst (run_handler world (post_message sessionId userId content))
         = event (ChatSession_findById sessionId)
           :: event (ChatMessage_create (user_message sessionId userId content))
           :: rest.
Proof.
  intros world sessionId userId content.
  destruct (world _ (ChatSession_findById sessionId)) as [e|[session|]] eqn:Hs.
  - unfold post_message. rewrite run_hbind, run_await, Hs. discriminate.
  - destruct (ChatSession.user_id session =? userId)%Z eqn:Ho.
    + destruct (jsstring_eqb (ChatSession.status session) (utf16 "active")) eqn:Ha.
      * intros _. apply Z.eqb_eq in Ho. apply jsstring_eqb_eq in Ha.
        rewrite (@run_post_message_guarded world sessionId userId content session Hs Ho Ha).
        rewrite run_htry_catch, run_hbind, run_await.
        exists session.
        destruct (world _ (ChatMessage_create (user_message sessionId userId content)))
          as [e|userMessage].
        -- cbn [run_handler app fst]. eexists. repeat split; try assumption.
        -- match goal with
           | |- context [run_handler world ?p] =>
             destruct (run_handler world p) as [events [e|a]]
           end; cbn [run_handler app fst]; eexists; repeat split; try assumption.
      * unfold post_message. rewrite run_hbind, run_await, Hs. cbv beta iota.
        rewrite Ho, Ha. discriminate.
    + unfold post_message. rewrite run_hbind, run_await, Hs. cbv beta iota.
      rewrite Ho. discriminate.
  - unfold post_message. rewrite run_hbind, run_await, Hs. discriminate.
Qed.

Lemma chat_guards_precede_effects_witness :
  exists session rest,
    sample_world (rejecting timeout_error) (ChatSession_findById 5) = inr (Some session)
    /\ ChatSession.user_id session = 3%Z
    /\ ChatSession.status session = utf16 "active"
    /\ fst (run_handler (sample_world (rejecting timeout_error))
              (post_message 5 3 (utf16 "hello")))
       = event (ChatSession_findById 5)
         :: event (ChatMessage_create (user_message 5 3 (utf16 "hello")))
         :: rest.
Proof.
  apply (@chat_guards_precede_effects
           (sample_world (rejecting timeout_error)) 5%Z 3%Z (utf16 "hello")).
  vm_compute. reflexivity.
Defined.

(** The run of the handler up to the answer of the upstream. *)
Lemma run_post_message_answered (world : World) sessionId userId content session
      userMessage context :
  world _ (ChatSession_findById sessionId) = inr (Some session) ->
  ChatSession.user_id session = userId ->
  ChatSession.status session = utf16 "active" ->
  world _ (ChatMessage_create (user_message sessionId userId content)) = inr userMessage ->
  world _ (ChatMessage_getConversationContext sessionId 20) = inr context ->
  let asked :=
    [ event (ChatSession_findById sessionId);
      event (ChatMessage_create (user_message sessionId userId content));
      event (ChatMessage_getConversationContext sessionId 20);
      event (deepseek_client_post (utf16 "/chat/completions") (chat_request context)) ] in
  match upstream_of world (utf16 "/chat/completions") (chat_request context) with
  | inl error =>
    run_handler world (post_message sessionId userId content)
    = (asked, inr (chat_failure (chat_caught error)))
  | inr response =>
    exists rest,
      fst (run_handler world (post_message sessionId userId content))
      = asked
        ++ event (ChatMessage_create
                    {| MessageData.session_id := sessionId;
                       MessageData.user_id := userId;
                       MessageData.message_type := utf16 "assistant";
                       MessageData.content := None;
                       MessageData.metadata :=
                         Some [ (utf16 "usage", Some (Http.usage (Http.data response)));
                                (utf16 "model", None) ] |})
        :: rest
  end.
Proof.
  intros Hs Ho Ha Hu Hc asked. subst asked.
  rewrite (@run_post_message_guarded world sessionId userId content session Hs Ho Ha).
  rewrite run_htry_catch, run_hbind, run_await, Hu. cbv beta iota.
  rewrite run_hbind, run_await, Hc. cbv beta iota.
  rewrite run_hbind, run_serve, run_generateChatResponse. cbn [fst snd map].
  destruct (upstream_of world (utf16 "/chat/completions") (chat_request context))
    as [error|response].
  - cbn [run_handler app]. reflexivity.
  - destruct (chat_result_members
                (Http.choices_0_message_content (Http.data response))
                (Http.usage (Http.data response))) as [Gs [Gc [Gu Gm]]].
    cbv zeta in Gs, Gc, Gu, Gm.
    rewrite run_hbind, Gs, run_hlift. cbv beta iota. cbn [ToBoolean negb].
    rewrite run_hbind, Gc, run_hlift. cbv beta iota.
    rewrite run_hbind, Gu, run_hlift. cbv beta iota.
    rewrite run_hbind, Gm, run_hlift. cbv beta iota.
    rewrite run_hbind, run_await.
    match goal with
    | |- context [world _ (ChatMessage_create ?data)] =>
      destruct (world _ (ChatMessage_create data)) as [e|aiMessage]
    end.
    + cbn [run_handler app fst]. eexists. reflexivity.
    + match goal with
      | |- context [run_handler world ?p] =>
        destruct (run_handler world p) as [events [e|a]]
      end; cbn [run_handler app fst]; eexists; reflexivity.
Qed.

(** X17. When the upstream fulfils the chat request, the handler stores the
    assistant's message without the completion: it reads [content] and
    [model] of the result of [generateChatResponse], which has neither (the
    text is under [message]), so the [content] handed to
    [ChatMessage.create] is [undefined], whatever the upstream returned,
    and so is [metadata.model]; only [usage] comes through. *)
Theorem assistant_message_stored_without_text :
  forall (world : World) sessionId userId content session userMessage context response,
    world _ (ChatSession_findById sessionId) = inr (Some session) ->
    ChatSession.user_id session = userId ->
    ChatSession.status session = utf16 "active" ->
    world _ (ChatMessage_create (user_message sessionId userId content)) = inr userMessage ->
    world _ (ChatMessage_getConversationContext sessionId 20) = inr context ->
    upstream_of world (utf16 "/chat/completions") (chat_request context) = inr response ->
    exists rest,
      fst (run_handler world (post_message sessionId userId content))
      = [ event (ChatSession_findById sessionId);
          event (ChatMessage_create (user_message sessionId userId content));
          event (ChatMessage_getConversationContext sessionId 20);
          event (deepseek_client_post (utf16 "/chat/completions") (chat_request context));
          event (ChatMessage_create
                   {| MessageData.session_id := sessionId;
                      MessageData.user_id := userId;
                      MessageData.message_type := utf16 "assistant";
                      MessageData.content := None;
                      MessageData.metadata :=
                        Some [ (utf16 "usage", Some (Http.usage (Http.data response)));
                               (utf16 "model", None) ] |}) ]
        ++ rest.
Proof.
  intros world sessionId userId content session userMessage context response
         Hs Ho Ha Hu Hc Hr.
  pose proof (@run_post_message_answered world sessionId userId content session
                userMessage context Hs Ho Ha Hu Hc) as R.
  cbv zeta in R. rewrite Hr in R. exact R.
Qed.

Lemma assistant_message_stored_without_text_witness :
  exists rest,
    fst (run_handler (sample_world (answering (utf16 "It will pass.")))
           (post_message 5 3 (utf16 "hello")))
    = [ event (ChatSession_findById 5);
        event (ChatMessage_create (user_message 5 3 (utf16 "hello")));
        event (ChatMessage_getConversationContext 5 20);
        event (deepseek_client_post (utf16 "/chat/completions") (chat_request []));
        event (ChatMessage_create
                 {| MessageData.session_id := 5;
                    MessageData.user_id := 3;
                    MessageData.message_type := utf16 "assistant";
                    MessageData.content := None;
                    MessageData.metadata :=
                      Some [ (utf16 "usage",
                              Some (Http.usage
                                      (Http.data (completion (utf16 "It will pass.")))));
                             (utf16 "model", None) ] |}) ]
      ++ rest.
Proof.
  exact (@assistant_message_stored_without_text
           (sample_world (answering (utf16 "It will pass."))) 5%Z 3%Z (utf16 "hello")
           sample_session _ [] (completion (utf16 "It will pass."))
           eq_refl eq_refl eq_refl eq_refl eq_refl eq_refl).
Defined.

(** X18. When the upstream rejects the chat request, the user's message is
    already stored and stays so, with no answer beside it: the handler has
    made four calls, the last of them the request, and replies 503 when the
    rejection carries status 401 or 429, 500 for every other rejection. *)
Theorem chat_route_statuses :
  forall (world : World) sessionId userId content session userMessage context error,
    world _ (ChatSession_findById sessionId) = inr (Some session) ->
    ChatSession.user_id session = userId ->
    ChatSession.status session = utf16 "active" ->
    world _ (ChatMessage_create (user_message sessionId userId content)) = inr userMessage ->
    world _ (ChatMessage_getConversationContext sessionId 20) = inr context ->
    upstream_of world (utf16 "/chat/completions") (chat_request context) = inl error ->
    fst (run_handler world (post_message sessionId userId content))
    = [ event (ChatSession_findById sessionId);
        event (ChatMessage_create (user_message sessionId userId content));
        event (ChatMessage_getConversationContext sessionId 20);
        event (deepseek_client_post (utf16 "/chat/completions") (chat_request context)) ]
    /\ snd (run_handler world (post_message sessionId userId content))
       = inr (if response_status_is error 401 || response_status_is error 429
              then reply 503 "AI service unavailable"
                         "Unable to generate response at this time. Please try again later."
              else reply 500 "Internal server error" "Failed to process chat message").
Proof.
  intros world sessionId userId content session userMessage context error
         Hs Ho Ha Hu Hc Hr.
  pose proof (@run_post_message_answered world sessionId userId content session
                userMessage context Hs Ho Ha Hu Hc) as R.
  cbv zeta in R. rewrite Hr in R. rewrite R. cbn [fst snd].
  split; [reflexivity|].
  destruct chat_failure_of_DeepSeek_error as [FA [FR FU]].
  unfold chat_caught.
  destruct (response_status_is error 401); cbn [orb]; [rewrite FA; reflexivity|].
  destruct (response_status_is error 429); [rewrite FR|rewrite FU]; reflexivity.
Qed.

Lemma chat_route_statuses_witness :
  snd (run_handler (sample_world (rejecting (status_error 429)))
         (post_message 5 3 (utf16 "hello")))
  = inr (reply 503 "AI service unavailable"
               "Unable to generate response at this time. Please try again later.").
Proof.
  exact (proj2 (@chat_route_statuses
                  (sample_world (rejecting (status_error 429))) 5%Z 3%Z (utf16 "hello")
                  sample_session _ [] (status_error 429)
                  eq_refl eq_refl eq_refl eq_refl eq_refl eq_refl)).
Defined.

(* ------------------------------------------------------------------ *)
(** * Properties of the error middleware *)
(* ------------------------------------------------------------------ *)

Lemma not_500 :
  is_number (Some (JNumber 400 0)) 500 (2 ^ 45) = false
  /\ is_number (Some (JNumber 401 0)) 500 (2 ^ 45) = false.
Proof. split; vm_compute; reflexivity. Qed.

Ltac by_rule H :=
  repeat match type of H with
         | context [if is_string ?v ?s then _ else _] =>
           destruct (is_string v s)
         | context [if is_number (Err.code ?err) ?n ?u then _ else _] =>
           destruct (is_number (Err.code err) n u)
         | context [Object_values ?v] => destruct (Object_values v); cbn [cbind] in H
         | context [Object_keys ?v] => destruct (Object_keys v); cbn [cbind] in H
         | context [Array_map ?f ?l] => destruct (Array_map f l); cbn [cbind] in H
         end.

(** X19. In production [errorHandler] never shows the message of an error it
    answers with status 500: whatever the error, such a reply is exactly
    [{ error: 'Something went wrong' }], without details and without the
    stack. *)
Theorem production_hides_internal_errors :
  forall err NODE_ENV answer,
    NODE_ENV = Some (utf16 "production") ->
    errorHandler err NODE_ENV = inr answer ->
    is_number (Some (ErrorReply.status answer)) 500 (2 ^ 45) = true ->
    ErrorReply.body answer = JObject [ (utf16 "error", str "Something went wrong") ].
Proof.
  intros err NODE_ENV answer Env H S.
  assert (P : jsstring_eqb (default [] NODE_ENV) (utf16 "production") = true)
    by (rewrite Env; vm_compute; reflexivity).
  assert (D : jsstring_eqb (default [] NODE_ENV) (utf16 "development") = false)
    by (rewrite Env; vm_compute; reflexivity).
  destruct not_500 as [N400 N401].
  unfold errorHandler in H. rewrite P, D in H. clear P D Env.
  cbv zeta in H. cbn [cbind] in H.
  by_rule H; cbn [cbind andb ErrorInfo.status ErrorInfo.details ErrorInfo.message] in H;
    try discriminate H;
    rewrite ?N400, ?N401 in H;
    try (injection H as <-; cbn [ErrorReply.status] in S;
         first [ rewrite N400 in S; discriminate S
               | rewrite N401 in S; discriminate S ]).
  all: destruct (is_number (Some (or_value (Err.statusCode err) (JNumber 500 0)))
                           500 (2 ^ 45)) eqn:T;
    injection H as <-; cbn [ErrorReply.status ErrorReply.body] in *;
    [reflexivity|rewrite T in S; discriminate S].
Qed.

Lemma production_hides_internal_errors_witness :
  let err :=
    {| Err.name := Some (str "Error");
       Err.message := Some (str "connect ECONNREFUSED 10.0.0.5:3306");
       Err.stack := Some (str "Error: connect ECONNREFUSED 10.0.0.5:3306");
       Err.statusCode := None;
       Err.code := Some (str "ECONNREFUSED");
       Err.type := None;
       Err.errors := None;
       Err.keyValue := None |} in
  errorHandler err (Some (utf16 "production"))
  = inr {| ErrorReply.status := JNumber 500 0;
           ErrorReply.body := JObject [ (utf16 "error", str "Something went wrong") ] |}.
Proof.
  intros err.
  assert (R : exists answer,
             errorHandler err (Some (utf16 "production")) = inr answer
             /\ ErrorReply.status answer = JNumber 500 0).
  { eexists. split; vm_compute; reflexivity. }
  destruct R as [[status body] [R S]]. cbn [ErrorReply.status] in S. subst status.
  rewrite R. f_equal. f_equal.
  exact (@production_hides_internal_errors
           err (Some (utf16 "production")) _ eq_refl R eq_refl).
Defined.

(** The members of a reply of [errorHandler]. *)
Lemma reply_members m d s :
  let body := JObject (object [ (utf16 "error", Some m);
                                (utf16 "details", d);
                                (utf16 "stack", s) ]) in
  member body "error" = Some m
  /\ member body "details" = d
  /\ member body "stack" = s.
Proof. destruct d, s; repeat split; vm_compute; reflexivity. Qed.

Lemma errorHandler_body err NODE_ENV answer :
  errorHandler err NODE_ENV = inr answer ->
  exists m d,
    ErrorReply.body answer
    = JObject (object [ (utf16 "error", Some m);
                        (utf16 "details", d);
                        (utf16 "stack",
                         if jsstring_eqb (default [] NODE_ENV) (utf16 "development")
                         then Err.stack err else None) ]).
Proof.
  intros H. unfold errorHandler in H. cbv zeta in H.
  match type of H with
  | context [cbind ?c] =>
    destruct c as [e|error1]; cbn [cbind] in H; [discriminate H|]
  end.
  match type of H with
  | context [cbind ?c] =>
    destruct c as [e|error2]; cbn [cbind] in H; [discriminate H|]
  end.
  injection H as <-. cbn [ErrorReply.body]. eexists _, _. reflexivity.
Qed.

(** X20. [errorHandler] sends the stack of the error only in development:
    a reply that has a [stack] member was made with [NODE_ENV] equal to
    [development], and the member is the [stack] of the error. *)
Theorem stack_only_in_development :
  forall err NODE_ENV answer,
    errorHandler err NODE_ENV = inr answer ->
    member (ErrorReply.body answer) "stack" <> None ->
    NODE_ENV = Some (utf16 "development")
    /\ member (ErrorReply.body answer) "stack" = Err.stack err.
Proof.
  intros err NODE_ENV answer H S.
  destruct (errorHandler_body _ _ H) as [m [d B]]. rewrite B in *.
  destruct (reply_members m d
              (if jsstring_eqb (default [] NODE_ENV) (utf16 "development")
               then Err.stack err else None)) as [_ [_ M]].
  cbv zeta in M. rewrite M in *.
  destruct (jsstring_eqb (default [] NODE_ENV) (utf16 "development")) eqn:E.
  - split; [|reflexivity]. apply jsstring_eqb_eq in E.
    destruct NODE_ENV as [env|]; [|discriminate E]. cbn [default] in E. now rewrite E.
  - exfalso. apply S. reflexivity.
Qed.

Lemma stack_only_in_development_witness :
  member (JObject [ (utf16 "error", str "Route not found - /x");
                    (utf16 "stack", str "Error: Route not found - /x") ])
         "stack"
  = Err.stack (notFound (utf16 "/x") (utf16 "Error: Route not found - /x")).
Proof.
  exact (proj2 (@stack_only_in_development
                  (notFound (utf16 "/x") (utf16 "Error: Route not found - /x"))
                  (Some (utf16 "development"))
                  {| ErrorReply.status := JNumber 404 0;
                     ErrorReply.body :=
                       JObject [ (utf16 "error", str "Route not found - /x");
                                 (utf16 "stack", str "Error: Route not found - /x") ] |}
                  eq_refl ltac:(vm_compute; discriminate))).
Defined.

(** X21. The error [notFound] makes is answered by [errorHandler] with
    status 404 and the message naming the requested URL in every
    environment, production included; the reply has no details, and its
    stack only in development. *)
Theorem notFound_reply :
  forall originalUrl stack NODE_ENV,
  exists body,
    errorHandler (notFound originalUrl stack) NODE_ENV
    = inr {| ErrorReply.status := JNumber 404 0; ErrorReply.body := body |}
    /\ member body "error"
       = Some (JString (utf16 "Route not found - " ++ originalUrl))
    /\ member body "details" = None
    /\ member body "stack"
       = if jsstring_eqb (default [] NODE_ENV) (utf16 "development")
         then Some (JString stack) else None.
Proof.
  intros originalUrl stack NODE_ENV.
  assert (R : forall production development : bool,
             exists body,
               (let error :=
                  {| ErrorInfo.status := JNumber 404 0;
                     ErrorInfo.message :=
                       JString (utf16 "Route not found - " ++ originalUrl);
                     ErrorInfo.details := None |} in
                let error :=
                  if production && is_number (Some (ErrorInfo.status error)) 500 (2 ^ 45)
                  then {| ErrorInfo.status := ErrorInfo.status error;
                          ErrorInfo.message := str "Something went wrong";
                          ErrorInfo.details := ErrorInfo.details error |}
                  else error in
                {| ErrorReply.status := ErrorInfo.status error;
                   ErrorReply.body :=
                     JObject
                       (object
                          [ (utf16 "error", Some (ErrorInfo.message error));
                            (utf16 "details",
                             if ToBoolean (ErrorInfo.details error)
                             then ErrorInfo.details error else None);
                            (utf16 "stack",
                             if development then Some (JString stack) else None) ]) |})
               = {| ErrorReply.status := JNumber 404 0; ErrorReply.body := body |}
               /\ member body "error"
                  = Some (JString (utf16 "Route not found - " ++ originalUrl))
               /\ member body "details" = None
               /\ member body "stack"
                  = if development then Some (JString stack) else None).
  { intros [|] [|]; eexists; repeat split; vm_compute; reflexivity. }
  destruct (R (jsstring_eqb (default [] NODE_ENV) (utf16 "production"))
              (jsstring_eqb (default [] NODE_ENV) (utf16 "development")))
    as [body [E M]].
  exists body. split; [|exact M].
  rewrite <- E. vm_compute. reflexivity.
Qed.

(** X22. [errorHandler] replies to every error that is neither named
    [ValidationError] nor has the code 11000; for an error named
    [ValidationError] that has no [errors], it sends nothing and throws a
    [TypeError] itself. *)
Theorem errorHandler_replies_unless_mongoose :
  (forall err NODE_ENV,
      is_string (Err.name err) "ValidationError" = false ->
      is_number (Err.code err) 11000 (2 ^ 40) = false ->
      exists answer, errorHandler err NODE_ENV = inr answer)
  /\ (forall err NODE_ENV,
         is_string (Err.name err) "ValidationError" = true ->
         Err.errors err = None ->
         errorHandler err NODE_ENV
         = inl (TypeError (utf16 "Cannot convert undefined or null to object"))).
Proof.
  split.
  - intros err NODE_ENV V C. unfold errorHandler. rewrite V, C. cbv zeta.
    cbn [cbind]. eexists. reflexivity.
  - intros err NODE_ENV V E. unfold errorHandler. rewrite V, E. reflexivity.
Qed.
